(** * ArkTS code generator: shallow embedding and verified properties

    This development embeds [generator/code_generator.py] (the template
    engine) and the configuration half of [generator/cli.py] in Rocq and
    proves the properties of the natural-language specification against
    that embedding.

    Modelling conventions.
    - A Python [str] is a [string] of bytes, the UTF-8 encoding of the text
      (what [write_text(encoding='utf-8')] puts on disk).  Concatenation,
      [join], [split], [endswith] and slicing by one ASCII character are
      exact on that encoding.  [str.lower], [str.upper] and [str.strip]
      are modelled on the ASCII range (bytes of non-ASCII characters are
      left alone): they are those of Python on a text of ASCII
      characters, which [ascii_only] decides.
    - The [files] dict of [generate_all] is a [gmap string string];
      [files[k] = v] is [<[k:=v]>].
    - [ValidationRule.value] is declared [Optional[any]]; the model has
      integers, strings and booleans as payloads (a [bool] is an [int] in
      Python: [False == 0] and [True == 1]).  Floats are not modelled.
    - The warnings that [_parse_properties] prints for the entries it skips
      are not modelled; the function is its returned list. *)

From Stdlib Require Import Ascii ZArith DecimalString.
From stdpp Require Import base option list strings gmap fin_maps.

Local Open Scope Z_scope.
Local Open Scope stdpp_scope.

(** ** Python string primitives *)

Module PyStr.

Definition newline : string := String "010"%char EmptyString.

(** [c.lower()] on one byte: A..Z (65..90) move to a..z. *)
Definition lower_ascii (c : ascii) : ascii :=
  let n := nat_of_ascii c in
  if ((65 <=? n) && (n <=? 90))%nat then ascii_of_nat (n + 32) else c.

(** [s.lower()] *)
Fixpoint lower (s : string) : string :=
  match s with
  | EmptyString => EmptyString
  | String c r => String (lower_ascii c) (lower r)
  end.

(** [s.startswith(p)] *)
Fixpoint startswith (s p : string) {struct p} : bool :=
  match p, s with
  | EmptyString, _ => true
  | String _ _, EmptyString => false
  | String a p', String b s' => if Ascii.eqb a b then startswith s' p' else false
  end.

(** [s[n:]] for [0 <= n] *)
Fixpoint drop (n : nat) (s : string) : string :=
  match n, s with
  | O, _ => s
  | S _, EmptyString => EmptyString
  | S n', String _ r => drop n' r
  end.

(** [s[:n]] for [0 <= n] *)
Fixpoint take (n : nat) (s : string) : string :=
  match n, s with
  | O, _ => EmptyString
  | S _, EmptyString => EmptyString
  | S n', String c r => String c (take n' r)
  end.

(** [s.endswith(p)]: [p] is no longer than [s] and equals its tail. *)
Definition endswith (s p : string) : bool :=
  (String.length p <=? String.length s)%nat
  && String.eqb (drop (String.length s - String.length p) s) p.

(** [s[:-1]] *)
Definition but_last (s : string) : string := take (String.length s - 1) s.

(** [sub in s] *)
Fixpoint contains (s sub : string) : bool :=
  startswith s sub
  || match s with
     | EmptyString => false
     | String _ r => contains r sub
     end.

(** ASCII white space as [str.isspace] has it: TAB, LF, VT, FF, CR,
    FS, GS, RS, US and the blank. *)
Definition is_space (c : ascii) : bool :=
  let n := nat_of_ascii c in
  (((9 <=? n) && (n <=? 13)) || ((28 <=? n) && (n <=? 31)) || (n =? 32))%nat.

(** [s.lstrip()] *)
Fixpoint lstrip (s : string) : string :=
  match s with
  | EmptyString => EmptyString
  | String c r => if is_space c then lstrip r else s
  end.

(** [s.rstrip()] *)
Fixpoint rstrip (s : string) : string :=
  match s with
  | EmptyString => EmptyString
  | String c r =>
      match rstrip r with
      | EmptyString => if is_space c then EmptyString else String c EmptyString
      | r' => String c r'
      end
  end.

(** [s.strip()] *)
Definition strip (s : string) : string := rstrip (lstrip s).

(** Truth value of a string: non-empty. *)
Definition truthy (s : string) : bool :=
  match s with EmptyString => false | String _ _ => true end.

(** [s.split(sep)] for a one-character separator: never an empty list. *)
Fixpoint split (sep : ascii) (s : string) : list string :=
  match s with
  | EmptyString => [EmptyString]
  | String c r =>
      if Ascii.eqb c sep then EmptyString :: split sep r
      else match split sep r with
           | h :: t => String c h :: t
           | [] => [String c EmptyString]
           end
  end.

(** [s.split(sep, 1)] when [sep in s]: the text before the first
    separator and the text after it. *)
Fixpoint split_once (sep : ascii) (s : string) : string * string :=
  match s with
  | EmptyString => (EmptyString, EmptyString)
  | String c r =>
      if Ascii.eqb c sep then (EmptyString, r)
      else let '(h, t) := split_once sep r in (String c h, t)
  end.

(** [c in s] for one character *)
Fixpoint has_char (c : ascii) (s : string) : bool :=
  match s with
  | EmptyString => false
  | String d r => Ascii.eqb c d || has_char c r
  end.

(** [sep.join(l)] *)
Definition join (sep : string) (l : list string) : string := String.concat sep l.

(** [str(n)] for an [int] *)
Definition str_of_int (z : Z) : string := NilZero.string_of_int (Z.to_int z).

(** [s * n] *)
Fixpoint repeat (s : string) (n : nat) : string :=
  match n with
  | O => EmptyString
  | S n' => s +:+ repeat s n'
  end.

End PyStr.

(** ** Data model ([code_generator.py], lines 8-43) *)

Inductive ValidationType : Set :=
  | REQUIRED | MIN_LENGTH | MAX_LENGTH | EMAIL | MIN | MAX | PATTERN.

(** Payload of a rule: [value: Optional[any]]. *)
Inductive PyValue : Set :=
  | PyInt (z : Z)
  | PyStr (s : string)
  | PyBool (b : bool).

Module ValidationRule.
Record t : Set := mk {
  type : ValidationType;
  value : option PyValue;
  message : option string
}.
End ValidationRule.

Record PropertyConfig : Set := {
  name : string;
  type : string;
  optional : bool;
  validation : list ValidationRule.t
}.

Record GeneratorConfig : Set := {
  entity_name : string;
  properties : list PropertyConfig;
  include_cache : bool;
  include_validation : bool;
  architecture : string
}.

(** The generator object: the configuration and the two derived names
    that [__init__] stores next to it. *)
Record CodeGenerator : Set := {
  config : GeneratorConfig;
  entity_name_lower : string;
  entity_name_plural : string
}.

(** [str(v)], which is also how an f-string renders [{v}]. *)
Definition py_str (v : option PyValue) : string :=
  match v with
  | None => "None"
  | Some (PyInt z) => PyStr.str_of_int z
  | Some (PyStr s) => s
  | Some (PyBool true) => "True"
  | Some (PyBool false) => "False"
  end.

(** [m or d] for an optional message: [None] and the empty string are
    both false. *)
Definition py_or (m : option string) (d : string) : string :=
  match m with
  | Some s => if PyStr.truthy s then s else d
  | None => d
  end.

(** ** Naming ([_pluralize], [__init__]) *)

(** The method does not read [self]; [__init__] calls it before the
    object is complete. *)
Definition _pluralize (word : string) : string :=
  if PyStr.endswith word "y" then PyStr.but_last word +:+ "ies"
  else if PyStr.endswith word "s" || PyStr.endswith word "x" || PyStr.endswith word "z"
       then word +:+ "es"
  else word +:+ "s".

Definition __init__ (config : GeneratorConfig) : CodeGenerator :=
  let entity_name_lower := PyStr.lower config.(entity_name) in
  {| config := config;
     entity_name_lower := entity_name_lower;
     entity_name_plural := _pluralize entity_name_lower |}.

(** ** Helper methods (lines 937-1016) *)

Definition _get_default_value (prop : PropertyConfig) : string :=
  if String.eqb prop.(name) "id" then " = 0"
  else if prop.(optional) then ""
  else if String.eqb prop.(type) "string" then " = ''"
  else if String.eqb prop.(type) "number" then " = 0"
  else if String.eqb prop.(type) "boolean" then " = false"
  else if String.eqb prop.(type) "Date" then " = new Date()"
  else "".

Definition _generate_dto_properties (self : CodeGenerator) : string :=
  let lines :=
    map (fun prop =>
           let optional := if prop.(optional) then "?" else "" in
           let dto_type := if String.eqb prop.(type) "Date" then "string" else prop.(type) in
           "  " +:+ prop.(name) +:+ optional +:+ ": " +:+ dto_type +:+ ";")
        self.(config).(properties) in
  PyStr.join PyStr.newline lines.

Definition _generate_to_domain_mapping (self : CodeGenerator) : string :=
  let lines :=
    map (fun prop =>
           if String.eqb prop.(type) "Date"
           then "      new Date(dto." +:+ prop.(name) +:+ ")"
           else "      dto." +:+ prop.(name))
        self.(config).(properties) in
  PyStr.join ("," +:+ PyStr.newline) lines.

Definition _generate_to_dto_mapping (self : CodeGenerator) : string :=
  let lines :=
    map (fun prop =>
           if String.eqb prop.(type) "Date"
           then "      " +:+ prop.(name) +:+ ": entity." +:+ prop.(name) +:+ ".toISOString()"
           else "      " +:+ prop.(name) +:+ ": entity." +:+ prop.(name))
        self.(config).(properties) in
  PyStr.join ("," +:+ PyStr.newline) lines.

(** The loops below skip the property named [id] with [continue]. *)
Definition not_id (prop : PropertyConfig) : bool := negb (String.eqb prop.(name) "id").

Definition _get_create_params (self : CodeGenerator) : string :=
  let params :=
    map (fun prop =>
           let optional := if prop.(optional) then "?" else "" in
           prop.(name) +:+ optional +:+ ": " +:+ prop.(type))
        (List.filter not_id self.(config).(properties)) in
  PyStr.join ", " params.

Definition _get_create_args (self : CodeGenerator) : string :=
  let args := map (fun prop => prop.(name)) (List.filter not_id self.(config).(properties)) in
  PyStr.join ", " args.

Definition _get_entity_creation (self : CodeGenerator) : string :=
  let args :=
    map (fun prop => if String.eqb prop.(name) "id" then "0" else prop.(name))
        self.(config).(properties) in
  PyStr.join ", " args.

Definition _indent_code (text : string) (level : nat) : string :=
  let indent := PyStr.repeat "  " level in
  let lines := PyStr.split "010"%char text in
  PyStr.join PyStr.newline
    (map (fun line => if PyStr.truthy (PyStr.strip line) then indent +:+ line else line) lines).

(** ** Entity fragments (lines 131-262) *)

Definition _generate_properties (self : CodeGenerator) : string :=
  let lines :=
    map (fun prop =>
           let optional := if prop.(optional) then "?" else "" in
           let readonly := if String.eqb prop.(name) "id" then "readonly " else "" in
           "  public " +:+ readonly +:+ prop.(name) +:+ optional +:+ ": " +:+ prop.(type) +:+ ";")
        self.(config).(properties) in
  PyStr.join PyStr.newline lines.

Definition _generate_constructor_params (self : CodeGenerator) : string :=
  let params :=
    map (fun prop =>
           let optional := if prop.(optional) then "?" else "" in
           let default_value := _get_default_value prop in
           "    public " +:+ prop.(name) +:+ optional +:+ ": " +:+ prop.(type) +:+ default_value)
        self.(config).(properties) in
  PyStr.join ("," +:+ PyStr.newline) params.

(** The text one rule appends to [validation_code]: the body of the
    [if]/[elif] chain of the inner loop. *)
Definition rule_code (prop : PropertyConfig) (rule : ValidationRule.t) : string :=
  match rule.(ValidationRule.type) with
  | REQUIRED =>
      if String.eqb prop.(type) "string" then
        "    if (!this." +:+ prop.(name) +:+ " || this." +:+ prop.(name) +:+ ".trim().length === 0) {
"
        +:+ "      throw new Error('" +:+ (py_or rule.(ValidationRule.message) (prop.(name) +:+ " é obrigatório")) +:+ "');
"
        +:+ "    }
"
      else
        "    if (this." +:+ prop.(name) +:+ " === undefined || this." +:+ prop.(name) +:+ " === null) {
"
        +:+ "      throw new Error('" +:+ (py_or rule.(ValidationRule.message) (prop.(name) +:+ " é obrigatório")) +:+ "');
"
        +:+ "    }
"
  | MIN_LENGTH =>
      "    if (this." +:+ prop.(name) +:+ ".length < " +:+ (py_str rule.(ValidationRule.value)) +:+ ") {
"
      +:+ "      throw new Error('" +:+ (py_or rule.(ValidationRule.message) (prop.(name) +:+ " deve ter no mínimo " +:+ (py_str rule.(ValidationRule.value)) +:+ " caracteres")) +:+ "');
"
      +:+ "    }
"
  | MAX_LENGTH =>
      "    if (this." +:+ prop.(name) +:+ ".length > " +:+ (py_str rule.(ValidationRule.value)) +:+ ") {
"
      +:+ "      throw new Error('" +:+ (py_or rule.(ValidationRule.message) (prop.(name) +:+ " deve ter no máximo " +:+ (py_str rule.(ValidationRule.value)) +:+ " caracteres")) +:+ "');
"
      +:+ "    }
"
  | EMAIL =>
      "    const emailRegex = /^[^\s@]+@[^\s@]+\.[^\s@]+$/;
"
      +:+ "    if (!emailRegex.test(this." +:+ prop.(name) +:+ ")) {
"
      +:+ "      throw new Error('" +:+ (py_or rule.(ValidationRule.message) (prop.(name) +:+ " inválido")) +:+ "');
"
      +:+ "    }
"
  | MIN =>
      "    if (this." +:+ prop.(name) +:+ " < " +:+ (py_str rule.(ValidationRule.value)) +:+ ") {
"
      +:+ "      throw new Error('" +:+ (py_or rule.(ValidationRule.message) (prop.(name) +:+ " deve ser maior ou igual a " +:+ (py_str rule.(ValidationRule.value)))) +:+ "');
"
      +:+ "    }
"
  | MAX =>
      "    if (this." +:+ prop.(name) +:+ " > " +:+ (py_str rule.(ValidationRule.value)) +:+ ") {
"
      +:+ "      throw new Error('" +:+ (py_or rule.(ValidationRule.message) (prop.(name) +:+ " deve ser menor ou igual a " +:+ (py_str rule.(ValidationRule.value)))) +:+ "');
"
      +:+ "    }
"
  | PATTERN =>
      "    const pattern = new RegExp('" +:+ (py_str rule.(ValidationRule.value)) +:+ "');
"
      +:+ "    if (!pattern.test(this." +:+ prop.(name) +:+ ")) {
"
      +:+ "      throw new Error('" +:+ (py_or rule.(ValidationRule.message) (prop.(name) +:+ " inválido")) +:+ "');
"
      +:+ "    }
"
  end.

(** The two nested loops thread [validation_code] through every rule of
    every property, in order. *)
Definition _generate_validations (self : CodeGenerator) : string :=
  if negb self.(config).(include_validation) then ""
  else
    let validation_code := "private validate(): void {
" in
    let validation_code :=
      fold_left
        (fun validation_code prop =>
           match prop.(validation) with
           | [] => validation_code
           | _ => fold_left (fun validation_code rule => validation_code +:+ rule_code prop rule)
                            prop.(validation) validation_code
           end)
        self.(config).(properties) validation_code in
    validation_code +:+ "  }".

Definition _generate_copy_method (self : CodeGenerator) : string :=
  let updates_params :=
    PyStr.join ", " (map (fun p => p.(name) +:+ "?: " +:+ p.(type)) self.(config).(properties)) in
  let copy_args :=
    PyStr.join ("," +:+ PyStr.newline +:+ "      ")
               (map (fun p => "updates." +:+ p.(name) +:+ " ?? this." +:+ p.(name)) self.(config).(properties)) in
  "/**
   * Cria uma cópia do objeto
   */
  copy(updates?: { " +:+ updates_params +:+ " }): " +:+ self.(config).(entity_name) +:+ " {
    if (!updates) updates = {};
    return new " +:+ self.(config).(entity_name) +:+ "(
      " +:+ copy_args +:+ "
    );
  }".

Definition _generate_to_json_method (self : CodeGenerator) : string :=
  let json_fields :=
    map (fun prop =>
           if String.eqb prop.(type) "Date" then
             if prop.(optional)
             then prop.(name) +:+ ": this." +:+ prop.(name) +:+ "?.toISOString()"
             else prop.(name) +:+ ": this." +:+ prop.(name) +:+ ".toISOString()"
           else prop.(name) +:+ ": this." +:+ prop.(name))
        self.(config).(properties) in
  let json_body := PyStr.join ("," +:+ PyStr.newline +:+ "      ") json_fields in
  "/**
   * Converte para objeto simples
   */
  toJson(): Record<string, Object> {
    return {
      " +:+ json_body +:+ "
    };
  }".

Definition _generate_from_json_method (self : CodeGenerator) : string :=
  let from_json_args :=
    map (fun prop =>
           if String.eqb prop.(type) "Date"
           then "new Date(json." +:+ prop.(name) +:+ " as string)"
           else "json." +:+ prop.(name) +:+ " as " +:+ prop.(type))
        self.(config).(properties) in
  let from_json_body := PyStr.join ("," +:+ PyStr.newline +:+ "      ") from_json_args in
  "/**
   * Cria instância a partir de JSON
   */
  static fromJson(json: Record<string, Object>): " +:+ self.(config).(entity_name) +:+ " {
    return new " +:+ self.(config).(entity_name) +:+ "(
      " +:+ from_json_body +:+ "
    );
  }".

(** ** Clean Architecture generators (lines 101-821) *)

Definition _generate_entity (self : CodeGenerator) : string :=
  let properties := _generate_properties self in
  let constructor_params := _generate_constructor_params self in
  let validations := if self.(config).(include_validation) then _generate_validations self else "" in
  let copy_method := _generate_copy_method self in
  let to_json_method := _generate_to_json_method self in
  let from_json_method := _generate_from_json_method self in
  let validation_call := if self.(config).(include_validation) then "this.validate();" else "" in
  let validation_method :=
    if self.(config).(include_validation) then "
  " +:+ validations +:+ "
  " else "" in
  "// domain/entities/" +:+ self.(config).(entity_name) +:+ ".ets

export class " +:+ self.(config).(entity_name) +:+ " {
" +:+ properties +:+ "
  
  constructor(
" +:+ constructor_params +:+ "
  ) {
    " +:+ validation_call +:+ "
  }
  " +:+ validation_method +:+ "
" +:+ (_indent_code copy_method 1) +:+ "
  
" +:+ (_indent_code to_json_method 1) +:+ "
  
" +:+ (_indent_code from_json_method 1) +:+ "
}".

Definition _generate_repository_interface (self : CodeGenerator) : string :=
  "// domain/repositories/I" +:+ self.(config).(entity_name) +:+ "Repository.ets

import { " +:+ self.(config).(entity_name) +:+ " } from '../entities/" +:+ self.(config).(entity_name) +:+ "';

export interface I" +:+ self.(config).(entity_name) +:+ "Repository {
  get" +:+ self.(entity_name_plural) +:+ "(): Promise<" +:+ self.(config).(entity_name) +:+ "[]>;
  get" +:+ self.(config).(entity_name) +:+ "ById(id: number): Promise<" +:+ self.(config).(entity_name) +:+ ">;
  create" +:+ self.(config).(entity_name) +:+ "(entity: " +:+ self.(config).(entity_name) +:+ "): Promise<" +:+ self.(config).(entity_name) +:+ ">;
  update" +:+ self.(config).(entity_name) +:+ "(entity: " +:+ self.(config).(entity_name) +:+ "): Promise<" +:+ self.(config).(entity_name) +:+ ">;
  delete" +:+ self.(config).(entity_name) +:+ "(id: number): Promise<void>;
}".

Definition _generate_get_all_usecase (self : CodeGenerator) : string :=
  "// domain/usecases/" +:+ self.(entity_name_lower) +:+ "/Get" +:+ self.(entity_name_plural) +:+ "UseCase.ets

import { " +:+ self.(config).(entity_name) +:+ " } from '../../entities/" +:+ self.(config).(entity_name) +:+ "';
import { I" +:+ self.(config).(entity_name) +:+ "Repository } from '../../repositories/I" +:+ self.(config).(entity_name) +:+ "Repository';

export class Get" +:+ self.(entity_name_plural) +:+ "UseCase {
  constructor(private repository: I" +:+ self.(config).(entity_name) +:+ "Repository) {}
  
  async execute(): Promise<" +:+ self.(config).(entity_name) +:+ "[]> {
    return await this.repository.get" +:+ self.(entity_name_plural) +:+ "();
  }
}".

Definition _generate_get_by_id_usecase (self : CodeGenerator) : string :=
  "// domain/usecases/" +:+ self.(entity_name_lower) +:+ "/Get" +:+ self.(config).(entity_name) +:+ "ByIdUseCase.ets

import { " +:+ self.(config).(entity_name) +:+ " } from '../../entities/" +:+ self.(config).(entity_name) +:+ "';
import { I" +:+ self.(config).(entity_name) +:+ "Repository } from '../../repositories/I" +:+ self.(config).(entity_name) +:+ "Repository';

export class Get" +:+ self.(config).(entity_name) +:+ "ByIdUseCase {
  constructor(private repository: I" +:+ self.(config).(entity_name) +:+ "Repository) {}
  
  async execute(id: number): Promise<" +:+ self.(config).(entity_name) +:+ "> {
    if (id <= 0) {
      throw new Error('ID inválido');
    }
    return await this.repository.get" +:+ self.(config).(entity_name) +:+ "ById(id);
  }
}".

Definition _generate_create_usecase (self : CodeGenerator) : string :=
  let params := _get_create_params self in
  let entity_creation := _get_entity_creation self in
  "// domain/usecases/" +:+ self.(entity_name_lower) +:+ "/Create" +:+ self.(config).(entity_name) +:+ "UseCase.ets

import { " +:+ self.(config).(entity_name) +:+ " } from '../../entities/" +:+ self.(config).(entity_name) +:+ "';
import { I" +:+ self.(config).(entity_name) +:+ "Repository } from '../../repositories/I" +:+ self.(config).(entity_name) +:+ "Repository';

export class Create" +:+ self.(config).(entity_name) +:+ "UseCase {
  constructor(private repository: I" +:+ self.(config).(entity_name) +:+ "Repository) {}
  
  async execute(" +:+ params +:+ "): Promise<" +:+ self.(config).(entity_name) +:+ "> {
    const entity = new " +:+ self.(config).(entity_name) +:+ "(" +:+ entity_creation +:+ ");
    return await this.repository.create" +:+ self.(config).(entity_name) +:+ "(entity);
  }
}".

Definition _generate_update_usecase (self : CodeGenerator) : string :=
  "// domain/usecases/" +:+ self.(entity_name_lower) +:+ "/Update" +:+ self.(config).(entity_name) +:+ "UseCase.ets

import { " +:+ self.(config).(entity_name) +:+ " } from '../../entities/" +:+ self.(config).(entity_name) +:+ "';
import { I" +:+ self.(config).(entity_name) +:+ "Repository } from '../../repositories/I" +:+ self.(config).(entity_name) +:+ "Repository';

export class Update" +:+ self.(config).(entity_name) +:+ "UseCase {
  constructor(private repository: I" +:+ self.(config).(entity_name) +:+ "Repository) {}
  
  async execute(id: number, updates: Partial<" +:+ self.(config).(entity_name) +:+ ">): Promise<" +:+ self.(config).(entity_name) +:+ "> {
    const existing = await this.repository.get" +:+ self.(config).(entity_name) +:+ "ById(id);
    const updated = existing.copy(updates);
    return await this.repository.update" +:+ self.(config).(entity_name) +:+ "(updated);
  }
}".

Definition _generate_delete_usecase (self : CodeGenerator) : string :=
  "// domain/usecases/" +:+ self.(entity_name_lower) +:+ "/Delete" +:+ self.(config).(entity_name) +:+ "UseCase.ets

import { I" +:+ self.(config).(entity_name) +:+ "Repository } from '../../repositories/I" +:+ self.(config).(entity_name) +:+ "Repository';

export class Delete" +:+ self.(config).(entity_name) +:+ "UseCase {
  constructor(private repository: I" +:+ self.(config).(entity_name) +:+ "Repository) {}
  
  async execute(id: number): Promise<void> {
    if (id <= 0) {
      throw new Error('ID inválido');
    }
    await this.repository.delete" +:+ self.(config).(entity_name) +:+ "(id);
  }
}".

Definition _generate_model (self : CodeGenerator) : string :=
  let dto_properties := _generate_dto_properties self in
  let to_domain_mapping := _generate_to_domain_mapping self in
  let to_dto_mapping := _generate_to_dto_mapping self in
  "// data/models/" +:+ self.(config).(entity_name) +:+ "Model.ets

import { " +:+ self.(config).(entity_name) +:+ " } from '../../domain/entities/" +:+ self.(config).(entity_name) +:+ "';

export interface " +:+ self.(config).(entity_name) +:+ "DTO {
" +:+ dto_properties +:+ "
}

export class " +:+ self.(config).(entity_name) +:+ "Mapper {
  static toDomain(dto: " +:+ self.(config).(entity_name) +:+ "DTO): " +:+ self.(config).(entity_name) +:+ " {
    return new " +:+ self.(config).(entity_name) +:+ "(
" +:+ to_domain_mapping +:+ "
    );
  }
  
  static toDTO(entity: " +:+ self.(config).(entity_name) +:+ "): " +:+ self.(config).(entity_name) +:+ "DTO {
    return {
" +:+ to_dto_mapping +:+ "
    };
  }
  
  static toDomainList(dtos: " +:+ self.(config).(entity_name) +:+ "DTO[]): " +:+ self.(config).(entity_name) +:+ "[] {
    return dtos.map(dto => this.toDomain(dto));
  }
  
  static toDTOList(entities: " +:+ self.(config).(entity_name) +:+ "[]): " +:+ self.(config).(entity_name) +:+ "DTO[] {
    return entities.map(entity => this.toDTO(entity));
  }
}".

Definition _generate_remote_datasource_interface (self : CodeGenerator) : string :=
  "// data/datasources/I" +:+ self.(config).(entity_name) +:+ "RemoteDataSource.ets

import { " +:+ self.(config).(entity_name) +:+ "DTO } from '../models/" +:+ self.(config).(entity_name) +:+ "Model';

export interface I" +:+ self.(config).(entity_name) +:+ "RemoteDataSource {
  fetch" +:+ self.(entity_name_plural) +:+ "(): Promise<" +:+ self.(config).(entity_name) +:+ "DTO[]>;
  fetch" +:+ self.(config).(entity_name) +:+ "ById(id: number): Promise<" +:+ self.(config).(entity_name) +:+ "DTO>;
  create" +:+ self.(config).(entity_name) +:+ "(dto: " +:+ self.(config).(entity_name) +:+ "DTO): Promise<" +:+ self.(config).(entity_name) +:+ "DTO>;
  update" +:+ self.(config).(entity_name) +:+ "(dto: " +:+ self.(config).(entity_name) +:+ "DTO): Promise<" +:+ self.(config).(entity_name) +:+ "DTO>;
  delete" +:+ self.(config).(entity_name) +:+ "(id: number): Promise<void>;
}".

Definition _generate_remote_datasource_impl (self : CodeGenerator) : string :=
  "// data/datasources/" +:+ self.(config).(entity_name) +:+ "RemoteDataSourceImpl.ets

import http from '@ohos.net.http';
import { " +:+ self.(config).(entity_name) +:+ "DTO } from '../models/" +:+ self.(config).(entity_name) +:+ "Model';
import { I" +:+ self.(config).(entity_name) +:+ "RemoteDataSource } from './I" +:+ self.(config).(entity_name) +:+ "RemoteDataSource';

export class " +:+ self.(config).(entity_name) +:+ "RemoteDataSourceImpl implements I" +:+ self.(config).(entity_name) +:+ "RemoteDataSource {
  private baseUrl: string = 'https://api.example.com';
  private endpoint: string = '/" +:+ self.(entity_name_lower) +:+ "s';
  
  async fetch" +:+ self.(entity_name_plural) +:+ "(): Promise<" +:+ self.(config).(entity_name) +:+ "DTO[]> {
    const response = await this.makeRequest<{ data: " +:+ self.(config).(entity_name) +:+ "DTO[] }>(
      this.endpoint,
      'GET'
    );
    return response.data;
  }
  
  async fetch" +:+ self.(config).(entity_name) +:+ "ById(id: number): Promise<" +:+ self.(config).(entity_name) +:+ "DTO> {
    const response = await this.makeRequest<{ data: " +:+ self.(config).(entity_name) +:+ "DTO }>(
      `${this.endpoint}/${id}`,
      'GET'
    );
    return response.data;
  }
  
  async create" +:+ self.(config).(entity_name) +:+ "(dto: " +:+ self.(config).(entity_name) +:+ "DTO): Promise<" +:+ self.(config).(entity_name) +:+ "DTO> {
    const response = await this.makeRequest<{ data: " +:+ self.(config).(entity_name) +:+ "DTO }>(
      this.endpoint,
      'POST',
      dto
    );
    return response.data;
  }
  
  async update" +:+ self.(config).(entity_name) +:+ "(dto: " +:+ self.(config).(entity_name) +:+ "DTO): Promise<" +:+ self.(config).(entity_name) +:+ "DTO> {
    const response = await this.makeRequest<{ data: " +:+ self.(config).(entity_name) +:+ "DTO }>(
      `${this.endpoint}/${dto.id}`,
      'PUT',
      dto
    );
    return response.data;
  }
  
  async delete" +:+ self.(config).(entity_name) +:+ "(id: number): Promise<void> {
    await this.makeRequest<void>(`${this.endpoint}/${id}`, 'DELETE');
  }
  
  private async makeRequest<T>(
    endpoint: string,
    method: string,
    body?: Object
  ): Promise<T> {
    return new Promise((resolve, reject) => {
      const httpRequest = http.createHttp();
      
      httpRequest.request(`${this.baseUrl}${endpoint}`, {
        method: method as http.RequestMethod,
        header: { 'Content-Type': 'application/json' },
        extraData: body ? JSON.stringify(body) : undefined,
        connectTimeout: 30000,
        readTimeout: 30000,
      }, (err, data) => {
        if (!err && (data.responseCode === 200 || data.responseCode === 201)) {
          resolve(JSON.parse(data.result as string) as T);
        } else {
          reject(new Error(err?.message || 'Request failed'));
        }
        httpRequest.destroy();
      });
    });
  }
}".

Definition _generate_local_datasource_interface (self : CodeGenerator) : string :=
  "// data/datasources/I" +:+ self.(config).(entity_name) +:+ "LocalDataSource.ets

import { " +:+ self.(config).(entity_name) +:+ "DTO } from '../models/" +:+ self.(config).(entity_name) +:+ "Model';

export interface I" +:+ self.(config).(entity_name) +:+ "LocalDataSource {
  getCached" +:+ self.(entity_name_plural) +:+ "(): Promise<" +:+ self.(config).(entity_name) +:+ "DTO[]>;
  cache" +:+ self.(entity_name_plural) +:+ "(dtos: " +:+ self.(config).(entity_name) +:+ "DTO[]): Promise<void>;
  clearCache(): Promise<void>;
}".

Definition _generate_local_datasource_impl (self : CodeGenerator) : string :=
  "// data/datasources/" +:+ self.(config).(entity_name) +:+ "LocalDataSourceImpl.ets

import preferences from '@ohos.data.preferences';
import { " +:+ self.(config).(entity_name) +:+ "DTO } from '../models/" +:+ self.(config).(entity_name) +:+ "Model';
import { I" +:+ self.(config).(entity_name) +:+ "LocalDataSource } from './I" +:+ self.(config).(entity_name) +:+ "LocalDataSource';

export class " +:+ self.(config).(entity_name) +:+ "LocalDataSourceImpl implements I" +:+ self.(config).(entity_name) +:+ "LocalDataSource {
  private readonly CACHE_KEY = '" +:+ self.(entity_name_lower) +:+ "_cache';
  private preferencesStore?: preferences.Preferences;
  
  async initialize(context: Context): Promise<void> {
    this.preferencesStore = await preferences.getPreferences(context, 'app_cache');
  }
  
  async getCached" +:+ self.(entity_name_plural) +:+ "(): Promise<" +:+ self.(config).(entity_name) +:+ "DTO[]> {
    if (!this.preferencesStore) {
      throw new Error('DataSource not initialized');
    }
    
    const cached = await this.preferencesStore.get(this.CACHE_KEY, '[]');
    return JSON.parse(cached as string) as " +:+ self.(config).(entity_name) +:+ "DTO[];
  }
  
  async cache" +:+ self.(entity_name_plural) +:+ "(dtos: " +:+ self.(config).(entity_name) +:+ "DTO[]): Promise<void> {
    if (!this.preferencesStore) {
      throw new Error('DataSource not initialized');
    }
    
    await this.preferencesStore.put(this.CACHE_KEY, JSON.stringify(dtos));
    await this.preferencesStore.flush();
  }
  
  async clearCache(): Promise<void> {
    if (!this.preferencesStore) {
      throw new Error('DataSource not initialized');
    }
    
    await this.preferencesStore.delete(this.CACHE_KEY);
    await this.preferencesStore.flush();
  }
}".

(** The GetAll body of the repository implementation: [cache_logic]. *)
Definition cache_logic (self : CodeGenerator) : string :=
  if self.(config).(include_cache)
  then "try {
      const dtos = await this.remoteDataSource.fetch" +:+ self.(entity_name_plural) +:+ "();
      await this.localDataSource.cache" +:+ self.(entity_name_plural) +:+ "(dtos);
      return " +:+ self.(config).(entity_name) +:+ "Mapper.toDomainList(dtos);
    } catch (error) {
      const cachedDtos = await this.localDataSource.getCached" +:+ self.(entity_name_plural) +:+ "();
      return " +:+ self.(config).(entity_name) +:+ "Mapper.toDomainList(cachedDtos);
    }"
  else "const dtos = await this.remoteDataSource.fetch" +:+ self.(entity_name_plural) +:+ "();
    return " +:+ self.(config).(entity_name) +:+ "Mapper.toDomainList(dtos);".

Definition _generate_repository_impl (self : CodeGenerator) : string :=
  let cache_import :=
    if self.(config).(include_cache)
    then "import { I" +:+ self.(config).(entity_name) +:+ "LocalDataSource } from '../datasources/I" +:+ self.(config).(entity_name) +:+ "LocalDataSource';"
    else "" in
  let cache_constructor_param :=
    if self.(config).(include_cache)
    then ",
    private localDataSource: I" +:+ self.(config).(entity_name) +:+ "LocalDataSource"
    else "" in
  let cache_logic := cache_logic self in
  "// data/repositories/" +:+ self.(config).(entity_name) +:+ "RepositoryImpl.ets

import { " +:+ self.(config).(entity_name) +:+ " } from '../../domain/entities/" +:+ self.(config).(entity_name) +:+ "';
import { I" +:+ self.(config).(entity_name) +:+ "Repository } from '../../domain/repositories/I" +:+ self.(config).(entity_name) +:+ "Repository';
import { " +:+ self.(config).(entity_name) +:+ "Mapper } from '../models/" +:+ self.(config).(entity_name) +:+ "Model';
import { I" +:+ self.(config).(entity_name) +:+ "RemoteDataSource } from '../datasources/I" +:+ self.(config).(entity_name) +:+ "RemoteDataSource';
" +:+ cache_import +:+ "

export class " +:+ self.(config).(entity_name) +:+ "RepositoryImpl implements I" +:+ self.(config).(entity_name) +:+ "Repository {
  constructor(
    private remoteDataSource: I" +:+ self.(config).(entity_name) +:+ "RemoteDataSource" +:+ cache_constructor_param +:+ "
  ) {}
  
  async get" +:+ self.(entity_name_plural) +:+ "(): Promise<" +:+ self.(config).(entity_name) +:+ "[]> {
    " +:+ cache_logic +:+ "
  }
  
  async get" +:+ self.(config).(entity_name) +:+ "ById(id: number): Promise<" +:+ self.(config).(entity_name) +:+ "> {
    const dto = await this.remoteDataSource.fetch" +:+ self.(config).(entity_name) +:+ "ById(id);
    return " +:+ self.(config).(entity_name) +:+ "Mapper.toDomain(dto);
  }
  
  async create" +:+ self.(config).(entity_name) +:+ "(entity: " +:+ self.(config).(entity_name) +:+ "): Promise<" +:+ self.(config).(entity_name) +:+ "> {
    const dto = " +:+ self.(config).(entity_name) +:+ "Mapper.toDTO(entity);
    const createdDto = await this.remoteDataSource.create" +:+ self.(config).(entity_name) +:+ "(dto);
    return " +:+ self.(config).(entity_name) +:+ "Mapper.toDomain(createdDto);
  }
  
  async update" +:+ self.(config).(entity_name) +:+ "(entity: " +:+ self.(config).(entity_name) +:+ "): Promise<" +:+ self.(config).(entity_name) +:+ "> {
    const dto = " +:+ self.(config).(entity_name) +:+ "Mapper.toDTO(entity);
    const updatedDto = await this.remoteDataSource.update" +:+ self.(config).(entity_name) +:+ "(dto);
    return " +:+ self.(config).(entity_name) +:+ "Mapper.toDomain(updatedDto);
  }
  
  async delete" +:+ self.(config).(entity_name) +:+ "(id: number): Promise<void> {
    await this.remoteDataSource.delete" +:+ self.(config).(entity_name) +:+ "(id);
  }
}".

Definition _generate_viewmodel (self : CodeGenerator) : string :=
  "// presentation/viewmodels/" +:+ self.(config).(entity_name) +:+ "ViewModel.ets

import { BaseViewModel } from './base/BaseViewModel';
import { " +:+ self.(config).(entity_name) +:+ " } from '../../domain/entities/" +:+ self.(config).(entity_name) +:+ "';
import { Get" +:+ self.(entity_name_plural) +:+ "UseCase } from '../../domain/usecases/" +:+ self.(entity_name_lower) +:+ "/Get" +:+ self.(entity_name_plural) +:+ "UseCase';
import { Get" +:+ self.(config).(entity_name) +:+ "ByIdUseCase } from '../../domain/usecases/" +:+ self.(entity_name_lower) +:+ "/Get" +:+ self.(config).(entity_name) +:+ "ByIdUseCase';
import { Create" +:+ self.(config).(entity_name) +:+ "UseCase } from '../../domain/usecases/" +:+ self.(entity_name_lower) +:+ "/Create" +:+ self.(config).(entity_name) +:+ "UseCase';
import { Update" +:+ self.(config).(entity_name) +:+ "UseCase } from '../../domain/usecases/" +:+ self.(entity_name_lower) +:+ "/Update" +:+ self.(config).(entity_name) +:+ "UseCase';
import { Delete" +:+ self.(config).(entity_name) +:+ "UseCase } from '../../domain/usecases/" +:+ self.(entity_name_lower) +:+ "/Delete" +:+ self.(config).(entity_name) +:+ "UseCase';

@Observed
export class " +:+ self.(config).(entity_name) +:+ "ViewModel extends BaseViewModel {
  @State " +:+ self.(entity_name_lower) +:+ "s: " +:+ self.(config).(entity_name) +:+ "[] = [];
  @State selected" +:+ self.(config).(entity_name) +:+ ": " +:+ self.(config).(entity_name) +:+ " | null = null;
  
  constructor(
    private get" +:+ self.(entity_name_plural) +:+ "UseCase: Get" +:+ self.(entity_name_plural) +:+ "UseCase,
    private get" +:+ self.(config).(entity_name) +:+ "ByIdUseCase: Get" +:+ self.(config).(entity_name) +:+ "ByIdUseCase,
    private create" +:+ self.(config).(entity_name) +:+ "UseCase: Create" +:+ self.(config).(entity_name) +:+ "UseCase,
    private update" +:+ self.(config).(entity_name) +:+ "UseCase: Update" +:+ self.(config).(entity_name) +:+ "UseCase,
    private delete" +:+ self.(config).(entity_name) +:+ "UseCase: Delete" +:+ self.(config).(entity_name) +:+ "UseCase
  ) {
    super();
  }
  
  async load" +:+ self.(entity_name_plural) +:+ "(): Promise<void> {
    await this.executeUseCase(
      () => this.get" +:+ self.(entity_name_plural) +:+ "UseCase.execute(),
      (result) => {
        this." +:+ self.(entity_name_lower) +:+ "s = result;
      }
    );
  }
  
  async load" +:+ self.(config).(entity_name) +:+ "ById(id: number): Promise<void> {
    await this.executeUseCase(
      () => this.get" +:+ self.(config).(entity_name) +:+ "ByIdUseCase.execute(id),
      (result) => {
        this.selected" +:+ self.(config).(entity_name) +:+ " = result;
      }
    );
  }
  
  async create" +:+ self.(config).(entity_name) +:+ "(" +:+ (_get_create_params self) +:+ "): Promise<boolean> {
    let success = false;
    await this.executeUseCase(
      () => this.create" +:+ self.(config).(entity_name) +:+ "UseCase.execute(" +:+ (_get_create_args self) +:+ "),
      (result) => {
        this." +:+ self.(entity_name_lower) +:+ "s.push(result);
        success = true;
      }
    );
    return success;
  }
  
  async update" +:+ self.(config).(entity_name) +:+ "(id: number, updates: Partial<" +:+ self.(config).(entity_name) +:+ ">): Promise<boolean> {
    let success = false;
    await this.executeUseCase(
      () => this.update" +:+ self.(config).(entity_name) +:+ "UseCase.execute(id, updates),
      (result) => {
        const index = this." +:+ self.(entity_name_lower) +:+ "s.findIndex(e => e.id === id);
        if (index !== -1) {
          this." +:+ self.(entity_name_lower) +:+ "s[index] = result;
        }
        success = true;
      }
    );
    return success;
  }
  
  async delete" +:+ self.(config).(entity_name) +:+ "(id: number): Promise<boolean> {
    let success = false;
    await this.executeUseCase(
      () => this.delete" +:+ self.(config).(entity_name) +:+ "UseCase.execute(id),
      () => {
        this." +:+ self.(entity_name_lower) +:+ "s = this." +:+ self.(entity_name_lower) +:+ "s.filter(e => e.id !== id);
        success = true;
      }
    );
    return success;
  }
  
  select" +:+ self.(config).(entity_name) +:+ "(entity: " +:+ self.(config).(entity_name) +:+ "): void {
    this.selected" +:+ self.(config).(entity_name) +:+ " = entity;
  }
  
  clearSelected(): void {
    this.selected" +:+ self.(config).(entity_name) +:+ " = null;
  }
  
  onDestroy(): void {
    this." +:+ self.(entity_name_lower) +:+ "s = [];
    this.selected" +:+ self.(config).(entity_name) +:+ " = null;
  }
}".

Definition _generate_page (self : CodeGenerator) : string :=
  let first_prop :=
    List.find (fun p => String.eqb p.(type) "string" && negb (String.eqb p.(name) "id"))
              self.(config).(properties) in
  let second_prop :=
    List.find (fun p => String.eqb p.(type) "string" && negb (String.eqb p.(name) "id")
                        && negb (String.eqb p.(name)
                                   (match first_prop with Some f => f.(name) | None => "" end)))
              self.(config).(properties) in
  let first_display := match first_prop with Some f => f.(name) | None => "name" end in
  let second_display_code :=
    match second_prop with
    | Some second_prop => "
        Text(entity." +:+ second_prop.(name) +:+ ")
          .fontSize(14)
          .fontColor($r('app.color.text_secondary'))"
    | None => ""
    end in
  "// presentation/views/pages/" +:+ self.(config).(entity_name) +:+ "Page.ets

import { " +:+ self.(config).(entity_name) +:+ "ViewModel } from '../../viewmodels/" +:+ self.(config).(entity_name) +:+ "ViewModel';
import { " +:+ self.(config).(entity_name) +:+ " } from '../../../domain/entities/" +:+ self.(config).(entity_name) +:+ "';
import { AppContainer } from '../../../di/AppContainer';
import promptAction from '@ohos.promptAction';

@Entry
@Component
struct " +:+ self.(config).(entity_name) +:+ "Page {
  private container: AppContainer = AppContainer.getInstance();
  @State private viewModel: " +:+ self.(config).(entity_name) +:+ "ViewModel = this.container.create" +:+ self.(config).(entity_name) +:+ "ViewModel();
  
  aboutToAppear() {
    this.viewModel.load" +:+ self.(entity_name_plural) +:+ "();
  }
  
  aboutToDisappear() {
    this.viewModel.onDestroy();
  }
  
  @Builder
  " +:+ self.(config).(entity_name) +:+ "ListItem(entity: " +:+ self.(config).(entity_name) +:+ ") {
    Row() {
      Column({ space: 4 }) {
        Text(entity." +:+ first_display +:+ ")
          .fontSize(16)
          .fontWeight(FontWeight.Medium)
          .fontColor($r('app.color.text_primary'))" +:+ second_display_code +:+ "
      }
      .alignItems(HorizontalAlign.Start)
      .layoutWeight(1)
      
      Button('Deletar')
        .fontSize(14)
        .onClick(async () => {
          const success = await this.viewModel.delete" +:+ self.(config).(entity_name) +:+ "(entity.id);
          if (success) {
            promptAction.showToast({ message: 'Deletado com sucesso', duration: 2000 });
          }
        })
    }
    .width('100%')
    .padding(16)
    .backgroundColor(Color.White)
    .borderRadius(8)
    .onClick(() => {
      this.viewModel.select" +:+ self.(config).(entity_name) +:+ "(entity);
    })
  }
  
  @Builder
  EmptyState() {
    Column({ space: 16 }) {
      Text('Nenhum registro encontrado')
        .fontSize(16)
        .fontColor($r('app.color.text_secondary'))
      
      Button('Recarregar')
        .onClick(() => {
          this.viewModel.load" +:+ self.(entity_name_plural) +:+ "();
        })
    }
    .width('100%')
    .height('100%')
    .justifyContent(FlexAlign.Center)
  }
  
  build() {
    Navigation() {
      Column() {
        if (this.viewModel.isLoading && this.viewModel." +:+ self.(entity_name_lower) +:+ "s.length === 0) {
          LoadingProgress()
            .width(60)
            .height(60)
        } else if (this.viewModel.errorMessage) {
          Text(this.viewModel.errorMessage)
            .fontSize(16)
            .fontColor(Color.Red)
            .padding(16)
        } else if (this.viewModel." +:+ self.(entity_name_lower) +:+ "s.length === 0) {
          this.EmptyState();
        } else {
          List({ space: 8 }) {
            ForEach(
              this.viewModel." +:+ self.(entity_name_lower) +:+ "s,
              (entity: " +:+ self.(config).(entity_name) +:+ ") => {
                ListItem() {
                  this." +:+ self.(config).(entity_name) +:+ "ListItem(entity);
                }
              },
              (entity: " +:+ self.(config).(entity_name) +:+ ") => entity.id.toString()
            )
          }
          .width('100%')
          .layoutWeight(1)
          .padding(16)
        }
      }
      .width('100%')
      .height('100%')
    }
    .title('" +:+ self.(config).(entity_name) +:+ "s')
    .titleMode(NavigationTitleMode.Mini)
  }
}".

(** ** MVVM generators (lines 827-931) *)

Definition _generate_simple_model (self : CodeGenerator) : string :=
  _generate_entity self.

Definition _generate_simple_repository (self : CodeGenerator) : string :=
  "// data/repositories/" +:+ self.(config).(entity_name) +:+ "Repository.ets

import { " +:+ self.(config).(entity_name) +:+ " } from '../models/" +:+ self.(config).(entity_name) +:+ "';
import { ApiService } from '../datasources/remote/ApiService';

export class " +:+ self.(config).(entity_name) +:+ "Repository {
  private apiService: ApiService = new ApiService();
  private endpoint: string = '/" +:+ self.(entity_name_lower) +:+ "s';
  
  async get" +:+ self.(entity_name_plural) +:+ "(): Promise<" +:+ self.(config).(entity_name) +:+ "[]> {
    const response = await this.apiService.get<{ data: Record<string, Object>[] }>(this.endpoint);
    return response.data.map(data => " +:+ self.(config).(entity_name) +:+ ".fromJson(data));
  }
  
  async get" +:+ self.(config).(entity_name) +:+ "ById(id: number): Promise<" +:+ self.(config).(entity_name) +:+ "> {
    const response = await this.apiService.get<{ data: Record<string, Object> }>(`${this.endpoint}/${id}`);
    return " +:+ self.(config).(entity_name) +:+ ".fromJson(response.data);
  }
  
  async create" +:+ self.(config).(entity_name) +:+ "(entity: " +:+ self.(config).(entity_name) +:+ "): Promise<" +:+ self.(config).(entity_name) +:+ "> {
    const response = await this.apiService.post<{ data: Record<string, Object> }>(
      this.endpoint,
      entity.toJson()
    );
    return " +:+ self.(config).(entity_name) +:+ ".fromJson(response.data);
  }
  
  async update" +:+ self.(config).(entity_name) +:+ "(entity: " +:+ self.(config).(entity_name) +:+ "): Promise<" +:+ self.(config).(entity_name) +:+ "> {
    const response = await this.apiService.put<{ data: Record<string, Object> }>(
      `${this.endpoint}/${entity.id}`,
      entity.toJson()
    );
    return " +:+ self.(config).(entity_name) +:+ ".fromJson(response.data);
  }
  
  async delete" +:+ self.(config).(entity_name) +:+ "(id: number): Promise<void> {
    await this.apiService.delete<void>(`${this.endpoint}/${id}`);
  }
}".

Definition _generate_simple_viewmodel (self : CodeGenerator) : string :=
  "// viewmodels/" +:+ self.(config).(entity_name) +:+ "ViewModel.ets

import { BaseViewModel } from './base/BaseViewModel';
import { " +:+ self.(config).(entity_name) +:+ " } from '../data/models/" +:+ self.(config).(entity_name) +:+ "';
import { " +:+ self.(config).(entity_name) +:+ "Repository } from '../data/repositories/" +:+ self.(config).(entity_name) +:+ "Repository';

@Observed
export class " +:+ self.(config).(entity_name) +:+ "ViewModel extends BaseViewModel {
  @State " +:+ self.(entity_name_lower) +:+ "s: " +:+ self.(config).(entity_name) +:+ "[] = [];
  @State selected" +:+ self.(config).(entity_name) +:+ ": " +:+ self.(config).(entity_name) +:+ " | null = null;
  
  private repository: " +:+ self.(config).(entity_name) +:+ "Repository = new " +:+ self.(config).(entity_name) +:+ "Repository();
  
  async load" +:+ self.(entity_name_plural) +:+ "(): Promise<void> {
    await this.executeAsync(
      () => this.repository.get" +:+ self.(entity_name_plural) +:+ "(),
      (result) => {
        this." +:+ self.(entity_name_lower) +:+ "s = result;
      }
    );
  }
  
  async create" +:+ self.(config).(entity_name) +:+ "(" +:+ (_get_create_params self) +:+ "): Promise<boolean> {
    let success = false;
    const entity = new " +:+ self.(config).(entity_name) +:+ "(0, " +:+ (_get_create_args self) +:+ ");
    
    await this.executeAsync(
      () => this.repository.create" +:+ self.(config).(entity_name) +:+ "(entity),
      (result) => {
        this." +:+ self.(entity_name_lower) +:+ "s.push(result);
        success = true;
      }
    );
    return success;
  }
  
  async delete" +:+ self.(config).(entity_name) +:+ "(id: number): Promise<boolean> {
    let success = false;
    await this.executeAsync(
      () => this.repository.delete" +:+ self.(config).(entity_name) +:+ "(id),
      () => {
        this." +:+ self.(entity_name_lower) +:+ "s = this." +:+ self.(entity_name_lower) +:+ "s.filter(e => e.id !== id);
        success = true;
      }
    );
    return success;
  }
  
  onDestroy(): void {
    this." +:+ self.(entity_name_lower) +:+ "s = [];
    this.selected" +:+ self.(config).(entity_name) +:+ " = null;
  }
}".

Definition _generate_simple_page (self : CodeGenerator) : string :=
  _generate_page self.

(** ** [generate_all] (lines 54-87) *)

Definition generate_all (self : CodeGenerator) : gmap string string :=
  let files : gmap string string := ∅ in
  if String.eqb self.(config).(architecture) "clean" then
    let files := <[ "domain/entities/" +:+ self.(config).(entity_name) +:+ ".ets" := _generate_entity self ]> files in
    let files := <[ "domain/repositories/I" +:+ self.(config).(entity_name) +:+ "Repository.ets" := _generate_repository_interface self ]> files in
    let files := <[ "domain/usecases/" +:+ self.(entity_name_lower) +:+ "/Get" +:+ self.(entity_name_plural) +:+ "UseCase.ets" := _generate_get_all_usecase self ]> files in
    let files := <[ "domain/usecases/" +:+ self.(entity_name_lower) +:+ "/Get" +:+ self.(config).(entity_name) +:+ "ByIdUseCase.ets" := _generate_get_by_id_usecase self ]> files in
    let files := <[ "domain/usecases/" +:+ self.(entity_name_lower) +:+ "/Create" +:+ self.(config).(entity_name) +:+ "UseCase.ets" := _generate_create_usecase self ]> files in
    let files := <[ "domain/usecases/" +:+ self.(entity_name_lower) +:+ "/Update" +:+ self.(config).(entity_name) +:+ "UseCase.ets" := _generate_update_usecase self ]> files in
    let files := <[ "domain/usecases/" +:+ self.(entity_name_lower) +:+ "/Delete" +:+ self.(config).(entity_name) +:+ "UseCase.ets" := _generate_delete_usecase self ]> files in
    let files := <[ "data/models/" +:+ self.(config).(entity_name) +:+ "Model.ets" := _generate_model self ]> files in
    let files := <[ "data/datasources/I" +:+ self.(config).(entity_name) +:+ "RemoteDataSource.ets" := _generate_remote_datasource_interface self ]> files in
    let files := <[ "data/datasources/" +:+ self.(config).(entity_name) +:+ "RemoteDataSourceImpl.ets" := _generate_remote_datasource_impl self ]> files in
    let files :=
      if self.(config).(include_cache) then
        let files := <[ "data/datasources/I" +:+ self.(config).(entity_name) +:+ "LocalDataSource.ets" := _generate_local_datasource_interface self ]> files in
        let files := <[ "data/datasources/" +:+ self.(config).(entity_name) +:+ "LocalDataSourceImpl.ets" := _generate_local_datasource_impl self ]> files in
        files
      else files in
    let files := <[ "data/repositories/" +:+ self.(config).(entity_name) +:+ "RepositoryImpl.ets" := _generate_repository_impl self ]> files in
    let files := <[ "presentation/viewmodels/" +:+ self.(config).(entity_name) +:+ "ViewModel.ets" := _generate_viewmodel self ]> files in
    let files := <[ "presentation/views/pages/" +:+ self.(config).(entity_name) +:+ "Page.ets" := _generate_page self ]> files in
    files
  else
    let files := <[ "data/models/" +:+ self.(config).(entity_name) +:+ ".ets" := _generate_simple_model self ]> files in
    let files := <[ "data/repositories/" +:+ self.(config).(entity_name) +:+ "Repository.ets" := _generate_simple_repository self ]> files in
    let files := <[ "viewmodels/" +:+ self.(config).(entity_name) +:+ "ViewModel.ets" := _generate_simple_viewmodel self ]> files in
    let files := <[ "views/pages/" +:+ self.(config).(entity_name) +:+ "Page.ets" := _generate_simple_page self ]> files in
    files.

(** ** Command line front end ([cli.py], lines 101-155) *)

Module CLI.

Definition valid_types : list string := ["string"; "number"; "boolean"; "Date"].

(** One turn of the loop of [_parse_properties]: [None] is [continue]
    (the warning printed on that path is not modelled). *)
Definition parse_property (prop : string) : option PropertyConfig :=
  let prop := PyStr.strip prop in
  if negb (PyStr.has_char ":" prop) then None
  else
    let '(name, type_str) := PyStr.split_once ":" prop in
    let name := PyStr.strip name in
    let type_str := PyStr.strip type_str in
    let '(optional, type_str) :=
      if PyStr.endswith type_str "?"
      then (true, PyStr.strip (PyStr.but_last type_str))
      else (false, type_str) in
    if negb (existsb (String.eqb type_str) valid_types) then None
    else Some {| name := name; type := type_str; optional := optional; validation := [] |}.

Definition _parse_properties (props_string : string) : list PropertyConfig :=
  fold_left
    (fun properties prop =>
       match parse_property prop with
       | Some p => properties ++ [p]
       | None => properties
       end)
    (PyStr.split "," props_string) [].

(** The property [_parse_config] puts in front when none is named [id]. *)
Definition id_property : PropertyConfig :=
  {| name := "id"; type := "number"; optional := false; validation := [] |}.

(** The parsed arguments of the [generate] command that [_parse_config]
    reads. *)
Record Namespace : Set := {
  entity : string;
  props : string;
  arch : string;
  cache : bool;
  validation : bool
}.

Definition _parse_config (args : Namespace) : GeneratorConfig :=
  let properties := _parse_properties args.(props) in
  let properties :=
    if negb (existsb (fun p => String.eqb p.(name) "id") properties)
    then id_property :: properties
    else properties in
  {| entity_name := args.(entity);
     properties := properties;
     include_cache := args.(cache);
     include_validation := args.(validation);
     architecture := args.(arch) |}.

End CLI.

(** * Vocabulary of the statements *)

(** [t] starts with [m]; [m] occurs in [t]. *)
Definition starts (m t : string) : Prop := exists post, t = m +:+ post.
Definition occurs (m t : string) : Prop := exists pre post, t = pre +:+ m +:+ post.

(** The header comment line that names [path]. *)
Definition banner (path : string) : string := "// " +:+ path +:+ PyStr.newline.

(** The lower form as the specification words it: the first character
    lower-cased, the rest unchanged. *)
Definition lower_first_only (s : string) : string :=
  match s with
  | EmptyString => EmptyString
  | String c r => String (PyStr.lower_ascii c) r
  end.

(** *** Equality of configurations

    [@dataclass] generates [__eq__]: two objects of the same class are
    equal when their fields are, in order, under [==]; lists compare
    element by element, enumeration members by identity, [None] only
    with [None], an integer and a boolean by value ([0 == False]). *)

Definition ValidationType_eqb (a b : ValidationType) : bool :=
  match a, b with
  | REQUIRED, REQUIRED | MIN_LENGTH, MIN_LENGTH | MAX_LENGTH, MAX_LENGTH
  | EMAIL, EMAIL | MIN, MIN | MAX, MAX | PATTERN, PATTERN => true
  | _, _ => false
  end.

Definition PyValue_eqb (a b : PyValue) : bool :=
  match a, b with
  | PyInt x, PyInt y => Z.eqb x y
  | PyStr x, PyStr y => String.eqb x y
  | PyBool x, PyBool y => Bool.eqb x y
  | PyInt x, PyBool y | PyBool y, PyInt x => Z.eqb x (if y then 1 else 0)
  | _, _ => false
  end.

Definition option_eqb {A : Type} (eqb : A -> A -> bool) (a b : option A) : bool :=
  match a, b with
  | Some x, Some y => eqb x y
  | None, None => true
  | _, _ => false
  end.

Fixpoint list_eqb {A : Type} (eqb : A -> A -> bool) (l1 l2 : list A) : bool :=
  match l1, l2 with
  | [], [] => true
  | x :: r1, y :: r2 => eqb x y && list_eqb eqb r1 r2
  | _, _ => false
  end.

Definition ValidationRule_eqb (a b : ValidationRule.t) : bool :=
  ValidationType_eqb a.(ValidationRule.type) b.(ValidationRule.type)
  && option_eqb PyValue_eqb a.(ValidationRule.value) b.(ValidationRule.value)
  && option_eqb String.eqb a.(ValidationRule.message) b.(ValidationRule.message).

Definition PropertyConfig_eqb (a b : PropertyConfig) : bool :=
  String.eqb a.(name) b.(name)
  && String.eqb a.(type) b.(type)
  && Bool.eqb a.(optional) b.(optional)
  && list_eqb ValidationRule_eqb a.(validation) b.(validation).

Definition GeneratorConfig_eqb (a b : GeneratorConfig) : bool :=
  String.eqb a.(entity_name) b.(entity_name)
  && list_eqb PropertyConfig_eqb a.(properties) b.(properties)
  && Bool.eqb a.(include_cache) b.(include_cache)
  && Bool.eqb a.(include_validation) b.(include_validation)
  && String.eqb a.(architecture) b.(architecture).

(** *** Calling the generator

    [CodeGenerator(config).generate_all()] returns the dict unless an
    exception leaves the call.  The body of [generate_all] and of the
    methods it calls has no [raise] and no operation that fails on a
    configuration of the declared types, so the call always returns. *)
Inductive outcome : Type :=
  | Returns (files : gmap string string)
  | Raises (error : string).

Definition call_generate_all (cfg : GeneratorConfig) : outcome :=
  Returns (generate_all (__init__ cfg)).

(** *** Variations of a configuration *)

Definition with_architecture (a : string) (cfg : GeneratorConfig) : GeneratorConfig :=
  {| entity_name := cfg.(entity_name);
     properties := cfg.(properties);
     include_cache := cfg.(include_cache);
     include_validation := cfg.(include_validation);
     architecture := a |}.

Definition with_optional (b : bool) (p : PropertyConfig) : PropertyConfig :=
  {| name := p.(name); type := p.(type); optional := b; validation := p.(validation) |}.

Definition with_type (ty : string) (p : PropertyConfig) : PropertyConfig :=
  {| name := p.(name); type := ty; optional := p.(optional); validation := p.(validation) |}.

(** The generator whose properties are rewritten by [f], everything else
    kept. *)
Definition map_properties (f : PropertyConfig -> PropertyConfig) (self : CodeGenerator)
  : CodeGenerator :=
  {| config :=
       {| entity_name := self.(config).(entity_name);
          properties := map f self.(config).(properties);
          include_cache := self.(config).(include_cache);
          include_validation := self.(config).(include_validation);
          architecture := self.(config).(architecture) |};
     entity_name_lower := self.(entity_name_lower);
     entity_name_plural := self.(entity_name_plural) |}.

(** *** The GetAll body with a cache fall-back

    [body] is a [try] block that fetches from the remote source and
    stores the result in the cache, and whose [catch] block reads the
    cache instead. *)
Definition try_fallback (self : CodeGenerator) (body : string) : Prop :=
  exists attempt fallback,
    body = "try {" +:+ attempt +:+ "} catch (error) {" +:+ fallback +:+ "}"
    /\ occurs ("await this.remoteDataSource.fetch" +:+ self.(entity_name_plural) +:+ "();") attempt
    /\ occurs ("await this.localDataSource.cache" +:+ self.(entity_name_plural) +:+ "(dtos);") attempt
    /\ occurs ("await this.localDataSource.getCached" +:+ self.(entity_name_plural) +:+ "();") fallback.

(** The GetAll body without a cache: the remote call and the return. *)
Definition direct_remote (self : CodeGenerator) : string :=
  "const dtos = await this.remoteDataSource.fetch" +:+ self.(entity_name_plural) +:+ "();
    return " +:+ self.(config).(entity_name) +:+ "Mapper.toDomainList(dtos);".

(** *** The identifier property as the specification has it

    [id] is the first property, typed [number], not optional, with
    constructor default [0], and no other property is named [id]. *)
Definition id_invariant (ps : list PropertyConfig) : Prop :=
  exists p rest,
    ps = p :: rest
    /\ p.(name) = "id" /\ p.(type) = "number" /\ p.(optional) = false
    /\ _get_default_value p = " = 0"
    /\ Forall (fun q => q.(name) <> "id") rest.

Definition named_id (p : PropertyConfig) : bool := String.eqb p.(name) "id".

(** *** The use-case files

    The five use cases, by class name, and the path each is emitted at. *)
Definition usecase_names (self : CodeGenerator) : list string :=
  [ "Get" +:+ self.(entity_name_plural) +:+ "UseCase";
    "Get" +:+ self.(config).(entity_name) +:+ "ByIdUseCase";
    "Create" +:+ self.(config).(entity_name) +:+ "UseCase";
    "Update" +:+ self.(config).(entity_name) +:+ "UseCase";
    "Delete" +:+ self.(config).(entity_name) +:+ "UseCase" ].

Definition usecase_path (self : CodeGenerator) (class_name : string) : string :=
  "domain/usecases/" +:+ self.(entity_name_lower) +:+ "/" +:+ class_name +:+ ".ets".

(** *** Configurations of the scenarios *)

Definition plain (n ty : string) (opt : bool) : PropertyConfig :=
  {| name := n; type := ty; optional := opt; validation := [] |}.

(** [User] with [id: number], [name: string], [email: string?]. *)
Definition user_config (arch : string) (cache : bool) : GeneratorConfig :=
  {| entity_name := "User";
     properties := [plain "id" "number" false; plain "name" "string" false;
                    plain "email" "string" true];
     include_cache := cache;
     include_validation := false;
     architecture := arch |}.

(** A configuration whose architecture is neither [clean] nor [mvvm]. *)
Definition hexagonal_config : GeneratorConfig := user_config "hexagonal" false.

Definition blog_post_config : GeneratorConfig :=
  {| entity_name := "BlogPost";
     properties := [plain "id" "number" false; plain "title" "string" false];
     include_cache := false;
     include_validation := false;
     architecture := "clean" |}.

Definition category_config (arch : string) : GeneratorConfig :=
  {| entity_name := "Category";
     properties := [plain "id" "number" false; plain "name" "string" false];
     include_cache := false;
     include_validation := false;
     architecture := arch |}.

(** The command line [generate Item --props "name:string,id:string?"]. *)
Definition own_id_args : CLI.Namespace :=
  {| CLI.entity := "Item"; CLI.props := "name:string,id:string?";
     CLI.arch := "clean"; CLI.cache := false; CLI.validation := false |}.

(** The command line [generate Item --props "id:number,id:number"]. *)
Definition twice_id_args : CLI.Namespace :=
  {| CLI.entity := "Item"; CLI.props := "id:number,id:number";
     CLI.arch := "clean"; CLI.cache := false; CLI.validation := false |}.

(** The command line [generate Item --props "name:string"]. *)
Definition no_id_args : CLI.Namespace :=
  {| CLI.entity := "Item"; CLI.props := "name:string";
     CLI.arch := "clean"; CLI.cache := false; CLI.validation := false |}.

(** * Interactive front end ([cli.py], lines 172-300)

    The session reads its answers with [input()], one line each.  The
    model takes the lines typed, in order; the prompts and messages
    printed are not modelled.  When the lines run out [input()] raises
    [EOFError], which the [except Exception] clause of the function
    catches: nothing is generated. *)

Module Interactive.

(** [c.upper()] on one byte: a..z (97..122) move to A..Z. *)
Definition upper_ascii (c : ascii) : ascii :=
  let n := nat_of_ascii c in
  if ((97 <=? n) && (n <=? 122))%nat then ascii_of_nat (n - 32) else c.

(** How a session ends: the generator runs on [config] and the files are
    written under [output_dir], or one of the four ways out before
    that. *)
Inductive result : Set :=
  | Generated (config : GeneratorConfig) (output_dir : string)
  | MissingName
  | NoProperties
  | Cancelled
  | Failed.

(** One answer of the property loop that is neither [fim] nor empty
    (lines 214-236); [None] is [continue]. *)
Definition parse_line (prop_input : string) : option PropertyConfig :=
  if negb (PyStr.has_char ":" prop_input) then None
  else
    let '(name, type_str) := PyStr.split_once ":" prop_input in
    let name := PyStr.strip name in
    let type_str := PyStr.strip type_str in
    let '(optional, type_str) :=
      if PyStr.endswith type_str "?"
      then (true, PyStr.strip (PyStr.but_last type_str))
      else (false, type_str) in
    if negb (existsb (String.eqb type_str) CLI.valid_types) then None
    else Some {| name := name; type := type_str; optional := optional; validation := [] |}.

(** The [while True] loop (lines 205-239): the properties collected when
    [fim] is read, and the lines left. *)
Fixpoint collect (inputs : list string) (properties : list PropertyConfig)
  : option (list PropertyConfig * list string) :=
  match inputs with
  | [] => None
  | line :: inputs =>
      let prop_input := PyStr.strip line in
      if String.eqb (PyStr.lower prop_input) "fim" then Some (properties, inputs)
      else if negb (PyStr.truthy prop_input) then collect inputs properties
      else match parse_line prop_input with
           | Some p => collect inputs (properties ++ [p])
           | None => collect inputs properties
           end
  end.

Definition _interactive_mode (inputs : list string) : result :=
  match inputs with
  | [] => Failed
  | line :: inputs =>
      match PyStr.strip line with
      | EmptyString => MissingName
      | String c rest =>
          let entity_name := String (upper_ascii c) rest in
          match inputs with
          | [] => Failed
          | line :: inputs =>
              let arch_choice :=
                if PyStr.truthy (PyStr.strip line) then PyStr.strip line else "1" in
              let architecture := if String.eqb arch_choice "1" then "clean" else "mvvm" in
              match collect inputs [CLI.id_property] with
              | None => Failed
              | Some (properties, inputs) =>
                  if Nat.eqb (List.length properties) 1 then NoProperties
                  else
                    match inputs with
                    | cache_line :: validation_line :: dir_line :: confirm_line :: _ =>
                        let include_cache :=
                          String.eqb (PyStr.lower (PyStr.strip cache_line)) "s" in
                        let include_validation :=
                          String.eqb (PyStr.lower (PyStr.strip validation_line)) "s" in
                        let output_dir :=
                          if PyStr.truthy (PyStr.strip dir_line) then PyStr.strip dir_line
                          else "./generated" in
                        let confirm := PyStr.lower (PyStr.strip confirm_line) in
                        if String.eqb confirm "n" then Cancelled
                        else
                          Generated
                            {| entity_name := entity_name;
                               properties := properties;
                               include_cache := include_cache;
                               include_validation := include_validation;
                               architecture := architecture |}
                            output_dir
                    | _ => Failed
                    end
              end
          end
      end
  end.

End Interactive.

(** * Further vocabulary *)

(** [t] ends with [m]. *)
Definition ends (m t : string) : Prop := exists pre, t = pre +:+ m.

(** The texts of a list, one after the other. *)
Definition concat_all (l : list string) : string := fold_right String.append "" l.

Definition with_validation (rules : list ValidationRule.t) (p : PropertyConfig)
  : PropertyConfig :=
  {| name := p.(name); type := p.(type); optional := p.(optional); validation := rules |}.

Definition with_cache (b : bool) (cfg : GeneratorConfig) : GeneratorConfig :=
  {| entity_name := cfg.(entity_name);
     properties := cfg.(properties);
     include_cache := b;
     include_validation := cfg.(include_validation);
     architecture := cfg.(architecture) |}.

(** A [Date] property declared as a [string] one. *)
Definition date_as_string (p : PropertyConfig) : PropertyConfig :=
  if String.eqb p.(type) "Date" then with_type "string" p else p.

(** What [_indent_code] does to one line. *)
Definition indent_line (level : nat) (line : string) : string :=
  if PyStr.truthy (PyStr.strip line) then PyStr.repeat "  " level +:+ line else line.

(** No line break in [s]. *)
Definition one_line (s : string) : bool := negb (PyStr.has_char "010" s).

(** The test of [_generate_page] for a property it may display. *)
Definition displayable (p : PropertyConfig) : bool :=
  String.eqb p.(type) "string" && negb (String.eqb p.(name) "id").

(** The top-level directories of the two layouts. *)
Definition top_directories : list string :=
  ["domain/"; "data/"; "presentation/"; "viewmodels/"; "views/"].

(** A title that is required and at least five characters long. *)
Definition title_property : PropertyConfig :=
  {| name := "title"; type := "string"; optional := false;
     validation := [ ValidationRule.mk REQUIRED None None;
                     ValidationRule.mk MIN_LENGTH (Some (PyInt 5)) None ] |}.

Definition title_config (validate : bool) : GeneratorConfig :=
  {| entity_name := "Post";
     properties := [plain "id" "number" false; title_property];
     include_cache := false;
     include_validation := validate;
     architecture := "clean" |}.

(** A session that answers every question. *)
Definition product_session : list string :=
  [" product "; ""; "name:string"; "bad"; "price : number?"; "FIM"; "s"; "n"; ""; ""].

(** [s.isascii()]: every byte of the text is below 128, so that every
    character is one byte and [lower], [upper] and [strip] of the model
    are the ones of Python. *)
Fixpoint ascii_only (s : string) : bool :=
  match s with
  | EmptyString => true
  | String c r => (nat_of_ascii c <? 128)%nat && ascii_only r
  end.

(** *** Equal configurations

    The path the entity text is stored at: [domain/entities/] under
    [clean], [data/models/] otherwise. *)
Definition entity_path (self : CodeGenerator) : string :=
  if String.eqb self.(config).(architecture) "clean"
  then "domain/entities/" +:+ self.(config).(entity_name) +:+ ".ets"
  else "data/models/" +:+ self.(config).(entity_name) +:+ ".ets".

(** The generator with the rules of every property taken away. *)
Definition strip_rules (self : CodeGenerator) : CodeGenerator :=
  map_properties (with_validation []) self.

(** The kinds of rule whose check writes the value of the rule. *)
Definition renders_value (t : ValidationType) : bool :=
  match t with
  | REQUIRED | EMAIL => false
  | _ => true
  end.

(** The rule values that the checks write are written the same way by
    [str] in both configurations, property by property and rule by
    rule. *)
Definition same_rendering (c1 c2 : GeneratorConfig) : bool :=
  list_eqb
    (fun p q =>
       list_eqb (fun r r' => negb (renders_value r.(ValidationRule.type))
                             || String.eqb (py_str r.(ValidationRule.value))
                                           (py_str r'.(ValidationRule.value)))
                p.(validation) q.(validation))
    c1.(properties) c2.(properties).

(** The texts of a generator other than the entity. *)
Definition other_texts (self : CodeGenerator) : list string :=
  [ _generate_repository_interface self;
    _generate_get_all_usecase self;
    _generate_get_by_id_usecase self;
    _generate_create_usecase self;
    _generate_update_usecase self;
    _generate_delete_usecase self;
    _generate_model self;
    _generate_remote_datasource_interface self;
    _generate_remote_datasource_impl self;
    _generate_local_datasource_interface self;
    _generate_local_datasource_impl self;
    _generate_repository_impl self;
    _generate_viewmodel self;
    _generate_page self;
    _generate_simple_repository self;
    _generate_simple_viewmodel self ].

(** An optional age with one rule of kind [t] and value [v], and a user
    who has it. *)
Definition age_with (t : ValidationType) (v : PyValue) : PropertyConfig :=
  {| name := "age"; type := "number"; optional := true;
     validation := [ ValidationRule.mk t (Some v) None ] |}.

Definition age_config (validate : bool) (t : ValidationType) (v : PyValue)
  : GeneratorConfig :=
  {| entity_name := "User";
     properties := [plain "id" "number" false; age_with t v];
     include_cache := false;
     include_validation := validate;
     architecture := "clean" |}.

(** *** The checks of [validate()]

    The checks of the rules of a list of properties, in order. *)
Definition checks (ps : list PropertyConfig) : string :=
  concat_all (List.flat_map (fun p => map (rule_code p) p.(validation)) ps).

(** *** The references to the lower form

    The lines of both view models that name the list field, which is the
    lower form followed by [s]. *)
Definition list_field_lines (self : CodeGenerator) : list string :=
  [ "  @State " +:+ self.(entity_name_lower) +:+ "s: " +:+ self.(config).(entity_name) +:+ "[] = [];";
    "        this." +:+ self.(entity_name_lower) +:+ "s = result;";
    "        this." +:+ self.(entity_name_lower) +:+ "s.push(result);";
    "        this." +:+ self.(entity_name_lower) +:+ "s = this." +:+ self.(entity_name_lower)
      +:+ "s.filter(e => e.id !== id);";
    "    this." +:+ self.(entity_name_lower) +:+ "s = [];" ].

(** The two lines of the update method of the clean view model. *)
Definition list_field_update_lines (self : CodeGenerator) : list string :=
  [ "        const index = this." +:+ self.(entity_name_lower) +:+ "s.findIndex(e => e.id === id);";
    "          this." +:+ self.(entity_name_lower) +:+ "s[index] = result;" ].

(** The lines of the page that read the list field of the view model. *)
Definition page_list_lines (self : CodeGenerator) : list string :=
  [ "        if (this.viewModel.isLoading && this.viewModel." +:+ self.(entity_name_lower)
      +:+ "s.length === 0) {";
    "        } else if (this.viewModel." +:+ self.(entity_name_lower) +:+ "s.length === 0) {";
    "              this.viewModel." +:+ self.(entity_name_lower) +:+ "s," ].

(** * Facts about the string primitives *)

#[local] Arguments String.append !_ _ / : simpl nomatch.

Section StringFacts.

Implicit Types (s t m w : string) (c d : ascii).

Lemma length_app s t : String.length (s +:+ t) = (String.length s + String.length t)%nat.
Proof. induction s as [|c s IH]; simpl; [reflexivity | now rewrite IH]. Qed.

Lemma app_assoc s t w : (s +:+ t) +:+ w = s +:+ t +:+ w.
Proof. induction s as [|c s IH]; simpl; [reflexivity | now rewrite IH]. Qed.

Lemma app_nil_r s : s +:+ "" = s.
Proof. induction s as [|c s IH]; simpl; [reflexivity | now rewrite IH]. Qed.

Lemma app_inv_head s t w : s +:+ t = s +:+ w -> t = w.
Proof. induction s as [|c s IH]; simpl; intros H; [assumption | injection H; auto]. Qed.

Lemma drop_app s t : PyStr.drop (String.length s) (s +:+ t) = t.
Proof. induction s as [|c s IH]; simpl; [now destruct t | assumption]. Qed.

Lemma take_app s t : PyStr.take (String.length s) (s +:+ t) = s.
Proof. induction s as [|c s IH]; simpl; [now destruct t | now rewrite IH]. Qed.

(** Every non-empty string is a stem followed by its last character. *)
Lemma nonempty_snoc s : s <> "" -> exists w c, s = w +:+ String c "".
Proof.
  induction s as [|a s IH]; [congruence | intros _].
  destruct s as [|b s].
  - now exists "", a.
  - destruct IH as (w & c & ->); [discriminate |].
    now exists (String a w), c.
Qed.

Lemma endswith_snoc w c d :
  PyStr.endswith (w +:+ String c "") (String d "") = Ascii.eqb c d.
Proof.
  unfold PyStr.endswith. rewrite length_app. simpl String.length.
  replace (String.length w + 1 - 1)%nat with (String.length w) by lia.
  rewrite drop_app.
  replace (1 <=? String.length w + 1)%nat with true by (symmetry; apply Nat.leb_le; lia).
  simpl. now destruct (Ascii.eqb c d).
Qed.

Lemma but_last_snoc w c : PyStr.but_last (w +:+ String c "") = w.
Proof.
  unfold PyStr.but_last. rewrite length_app. simpl String.length.
  replace (String.length w + 1 - 1)%nat with (String.length w) by lia.
  apply take_app.
Qed.

Lemma starts_nil t : starts "" t.
Proof. now exists t. Qed.

Lemma starts_cons c m t : starts m t -> starts (String c m) (String c t).
Proof. intros [post ->]. now exists post. Qed.

Lemma starts_app s m t : starts m t -> starts (s +:+ m) (s +:+ t).
Proof. intros [post ->]. exists post. now rewrite app_assoc. Qed.

Lemma occurs_here m t : starts m t -> occurs m t.
Proof. intros [post ->]. now exists "", post. Qed.

Lemma occurs_cons c m t : occurs m t -> occurs m (String c t).
Proof. intros (pre & post & ->). now exists (String c pre), post. Qed.

Lemma occurs_drop (n : nat) m t : occurs m (PyStr.drop n t) -> occurs m t.
Proof.
  revert t. induction n as [|n IH]; intros t; simpl; [trivial |].
  destruct t as [|c t]; [trivial |]. intros H. apply occurs_cons, IH, H.
Qed.

Lemma occurs_app s m t : occurs m t -> occurs m (s +:+ t).
Proof. intros (pre & post & ->). exists (s +:+ pre), post. now rewrite app_assoc. Qed.

(** The executable tests decide the two relations. *)
Lemma startswith_starts t m : PyStr.startswith t m = true <-> starts m t.
Proof.
  revert t. induction m as [|a m IH]; intros t; simpl.
  - split; [intros _; apply starts_nil | reflexivity].
  - destruct t as [|b t]; [split; [discriminate | intros [post H]; discriminate] |].
    destruct (Ascii.eqb_spec a b) as [->|Hne].
    + rewrite IH. split; [apply starts_cons |].
      intros [post H]. simpl in H. injection H as H. now exists post.
    + split; [discriminate |]. intros [post H]. simpl in H. congruence.
Qed.

Lemma contains_occurs t m : PyStr.contains t m = true <-> occurs m t.
Proof.
  induction t as [|b t IH]; simpl.
  - rewrite orb_false_r, startswith_starts. split; [apply occurs_here |].
    intros (pre & post & H). destruct pre; simpl in H; [now exists post | discriminate].
  - rewrite orb_true_iff, startswith_starts, IH. split.
    + intros [H|H]; [now apply occurs_here | now apply occurs_cons].
    + intros (pre & post & H). destruct pre as [|a pre]; simpl in H.
      * left. now exists post.
      * right. injection H as _ H. now exists pre, post.
Qed.

(** The primitives on small inputs. *)
Example lower_keeps_non_letters : PyStr.lower "BlogPost_2" = "blogpost_2".
Proof. reflexivity. Qed.

Example split_keeps_empty_fields : PyStr.split "," "a:b,,c" = ["a:b"; ""; "c"].
Proof. reflexivity. Qed.

Example strip_both_ends : PyStr.strip "  email : string? " = "email : string?".
Proof. reflexivity. Qed.

Example str_of_int_signs :
  PyStr.str_of_int 150 = "150" /\ PyStr.str_of_int 0 = "0" /\ PyStr.str_of_int (-3) = "-3".
Proof. repeat split; reflexivity. Qed.

Example indent_skips_blank_lines :
  _indent_code "/**
   * x
   */

  f() {}" 1 = "  /**
     * x
     */

    f() {}".
Proof. reflexivity. Qed.

End StringFacts.

(** Literal segments are reduced to their characters and the appends are
    nested to the right. *)
Ltac str_norm := simpl; repeat (rewrite app_assoc; simpl).

(** Search for a prefix or an occurrence through literal characters and
    symbolic segments. *)
Ltac starts_tac :=
  repeat first [ apply starts_nil | apply starts_cons | apply starts_app ].

(** [m] is a prefix of [t], read off the two terms. *)
Ltac is_prefix m t :=
  lazymatch m with
  | EmptyString => idtac
  | String ?c ?m' => lazymatch t with String c ?t' => is_prefix m' t' end
  | String.append ?s ?m' => lazymatch t with String.append s ?t' => is_prefix m' t' end
  end.

(** Walk along [t], counting literal characters in [k], to the first
    place where [m] is a prefix. *)
Ltac scan m t k :=
  first
    [ is_prefix m t; apply (occurs_drop k); simpl PyStr.drop;
      apply occurs_here; solve [starts_tac]
    | lazymatch t with
      | String _ ?t' => scan m t' constr:(S k)
      | String.append _ ?t' =>
          apply (occurs_drop k); simpl PyStr.drop; apply occurs_app; scan m t' constr:(O)
      end ].

Ltac occurs_tac := lazymatch goal with |- occurs ?m ?t => scan m t constr:(O) end.

(** Two paths or texts differ: at a literal character, after a common
    symbolic segment, or in length. *)
Ltac str_neq :=
  let H := fresh "H" in
  intros H; simpl in H;
  first [ congruence
        | simplify_eq; apply app_inv_head in H; congruence
        | apply (f_equal String.length) in H; simpl in H;
          rewrite ?length_app in H; simpl in H; lia ].

(** * Naming *)

Section Naming.

Lemma pluralize_snoc (stem : string) (c : ascii) :
  _pluralize (stem +:+ String c "") =
    if Ascii.eqb c "y"%char then stem +:+ "ies"
    else if Ascii.eqb c "s"%char || Ascii.eqb c "x"%char || Ascii.eqb c "z"%char
         then (stem +:+ String c "") +:+ "es"
         else (stem +:+ String c "") +:+ "s".
Proof.
  unfold _pluralize. rewrite !endswith_snoc, but_last_snoc. reflexivity.
Qed.

(** C5. The plural of a non-empty word (a stem and a last character): a
    final [y] is replaced by [ies]; after a final [s], [x] or [z] the
    word gets [es]; any other word gets [s].  So [category] gives
    [categories], [bus] gives [buses] and [user] gives [users]. *)
Theorem pluralize_rule :
  (forall (stem : string) (c : ascii),
      _pluralize (stem +:+ String c "") =
        if Ascii.eqb c "y"%char then stem +:+ "ies"
        else if Ascii.eqb c "s"%char || Ascii.eqb c "x"%char || Ascii.eqb c "z"%char
             then (stem +:+ String c "") +:+ "es"
             else (stem +:+ String c "") +:+ "s")
  /\ _pluralize "category" = "categories"
  /\ _pluralize "bus" = "buses"
  /\ _pluralize "user" = "users".
Proof.
  split; [apply pluralize_snoc | repeat split; reflexivity].
Qed.

(** The plural is the word followed by [s] exactly when the word does
    not end in [y], [s], [x] or [z]. *)
Lemma pluralize_appends_s_iff (stem : string) (c : ascii) :
  _pluralize (stem +:+ String c "") = (stem +:+ String c "") +:+ "s"
  <-> Ascii.eqb c "y"%char || Ascii.eqb c "s"%char || Ascii.eqb c "x"%char
      || Ascii.eqb c "z"%char = false.
Proof.
  rewrite pluralize_snoc.
  destruct (Ascii.eqb_spec c "y"%char) as [-> | Hy]; simpl.
  - split; [| discriminate]. rewrite app_assoc. intros H.
    apply app_inv_head in H. discriminate H.
  - destruct (Ascii.eqb c "s" || Ascii.eqb c "x" || Ascii.eqb c "z"); [| tauto].
    split; [| discriminate]. intros H. apply app_inv_head in H. discriminate H.
Qed.

(** The plural the generator stores is the plural of its lower form. *)
Lemma init_plural (cfg : GeneratorConfig) :
  entity_name_plural (__init__ cfg) = _pluralize (entity_name_lower (__init__ cfg)).
Proof. reflexivity. Qed.

(** [str.lower] changes nothing but the letters A..Z, and keeps the length. *)
Lemma lower_length (s : string) : String.length (PyStr.lower s) = String.length s.
Proof. induction s as [|c s IH]; simpl; congruence. Qed.

Lemma lower_get (s : string) (i : nat) :
  String.get i (PyStr.lower s) = option_map PyStr.lower_ascii (String.get i s).
Proof.
  revert i. induction s as [|c s IH]; intros i; simpl; [reflexivity |].
  destruct i; [reflexivity | apply IH].
Qed.

Lemma lower_first_only_iff (c : ascii) (r : string) :
  PyStr.lower (String c r) = lower_first_only (String c r) <-> PyStr.lower r = r.
Proof. simpl. split; [intros H; now injection H | intros ->; reflexivity]. Qed.

End Naming.

(** * The file map *)

Section FileMap.

Variable self : CodeGenerator.

Let E := self.(config).(entity_name).

(** Under [clean] every emitted text opens with the comment line that
    names the path it is stored at. *)
Lemma clean_banners :
  self.(config).(architecture) = "clean" ->
  map_Forall (fun path text => starts (banner path) text) (generate_all self).
Proof.
  intros Harch. unfold generate_all. rewrite Harch. simpl String.eqb. cbv iota.
  destruct (include_cache (config self));
    repeat lazymatch goal with
           | |- map_Forall _ (<[_:=_]> _) => apply map_Forall_insert_2
           | |- map_Forall _ ∅ => apply map_Forall_empty
           end;
    unfold banner, _generate_entity, _generate_repository_interface,
      _generate_get_all_usecase, _generate_get_by_id_usecase, _generate_create_usecase,
      _generate_update_usecase, _generate_delete_usecase, _generate_model,
      _generate_remote_datasource_interface, _generate_remote_datasource_impl,
      _generate_local_datasource_interface, _generate_local_datasource_impl,
      _generate_repository_impl, _generate_viewmodel, _generate_page, PyStr.newline;
    str_norm; solve [starts_tac].
Qed.

(** Under [clean] the five use-case files are emitted in the directory
    named by the lower form. *)
Lemma clean_usecases_emitted (class_name : string) :
  self.(config).(architecture) = "clean" ->
  In class_name (usecase_names self) ->
  usecase_path self class_name ∈ dom (generate_all self).
Proof.
  intros Harch Hin. unfold generate_all. rewrite Harch. simpl String.eqb. cbv iota.
  unfold usecase_names in Hin. simpl In in Hin. unfold usecase_path.
  destruct (include_cache (config self)); rewrite !dom_insert_L;
    repeat (destruct Hin as [<- | Hin]; [str_norm; set_solver |]); destruct Hin.
Qed.

(** The view model imports each use case from that same directory. *)
Lemma viewmodel_imports (class_name : string) :
  In class_name (usecase_names self) ->
  occurs ("import { " +:+ class_name +:+ " } from '../../domain/usecases/"
            +:+ self.(entity_name_lower) +:+ "/" +:+ class_name +:+ "';")
         (_generate_viewmodel self).
Proof.
  intros Hin. unfold usecase_names in Hin. simpl In in Hin.
  unfold _generate_viewmodel.
  repeat (destruct Hin as [<- | Hin]; [str_norm; occurs_tac |]); destruct Hin.
Qed.

(** The local data source keys its cache by the lower form. *)
Lemma cache_key_lower :
  occurs ("private readonly CACHE_KEY = '" +:+ self.(entity_name_lower) +:+ "_cache';")
         (_generate_local_datasource_impl self).
Proof. unfold _generate_local_datasource_impl. str_norm. occurs_tac. Qed.

End FileMap.

(** Closed facts about finite maps and sets are decided by evaluation. *)
Ltac decide_by_eval := apply (bool_decide_unpack _); vm_compute; exact I.

(** * Equality of configurations *)

Section ConfigEquality.

Lemma list_eqb_refl {A : Type} (eqb : A -> A -> bool) :
  (forall x, eqb x x = true) -> forall l, list_eqb eqb l l = true.
Proof. intros Hrefl. induction l as [|x l IH]; simpl; [reflexivity | now rewrite Hrefl]. Qed.

Lemma ValidationRule_eqb_refl a : ValidationRule_eqb a a = true.
Proof.
  destruct a as [t v m]. unfold ValidationRule_eqb. simpl.
  assert (Ht : ValidationType_eqb t t = true) by now destruct t.
  assert (Hv : option_eqb PyValue_eqb v v = true).
  { destruct v as [[z|x|b]|]; simpl;
      [apply Z.eqb_refl | apply String.eqb_refl | now destruct b | reflexivity]. }
  assert (Hm : option_eqb String.eqb m m = true).
  { destruct m; simpl; [apply String.eqb_refl | reflexivity]. }
  now rewrite Ht, Hv, Hm.
Qed.

Lemma PropertyConfig_eqb_refl a : PropertyConfig_eqb a a = true.
Proof.
  destruct a as [n t o v]. unfold PropertyConfig_eqb. simpl.
  rewrite !String.eqb_refl, Bool.eqb_reflx, (list_eqb_refl _ ValidationRule_eqb_refl).
  reflexivity.
Qed.

(** Every configuration equals itself: a second call on the same
    configuration is a call on an equal one. *)
Lemma GeneratorConfig_eqb_refl a : GeneratorConfig_eqb a a = true.
Proof.
  destruct a as [e p c v ar]. unfold GeneratorConfig_eqb. simpl.
  rewrite !String.eqb_refl, !Bool.eqb_reflx, (list_eqb_refl _ PropertyConfig_eqb_refl).
  reflexivity.
Qed.

End ConfigEquality.

(** * The lower form of the entity name *)

Section LowerForm.

(** C4 (as stated, refuted). [__init__] lower-cases the whole name:
    [BlogPost] derives [blogpost], not [blogPost]. *)
Lemma lower_form_changes_inner_capitals :
  entity_name blog_post_config <> ""
  /\ entity_name_lower (__init__ blog_post_config) = "blogpost"
  /\ lower_first_only (entity_name blog_post_config) = "blogPost"
  /\ ~ (forall cfg : GeneratorConfig,
          entity_name cfg <> "" ->
          entity_name_lower (__init__ cfg) = lower_first_only (entity_name cfg)).
Proof.
  repeat split; try reflexivity; try discriminate.
  intros H. specialize (H blog_post_config). simpl in H.
  assert (Hne : "BlogPost" <> "") by discriminate.
  specialize (H Hne). discriminate H.
Qed.

End LowerForm.

(** * The User scenario *)

Section UserScenario.

(** C2 (as stated, refuted). The scenario without cache yields 13 files,
    not 11; with cache it yields 15, not 13. *)
Lemma user_scenario_counts_13_and_15 :
  size (generate_all (__init__ (user_config "clean" false))) = 13%nat
  /\ size (generate_all (__init__ (user_config "clean" false))) <> 11%nat
  /\ size (generate_all (__init__ (user_config "clean" true))) = 15%nat
  /\ size (generate_all (__init__ (user_config "clean" true))) <> 13%nat.
Proof. vm_compute. repeat split; discriminate. Qed.

(** C2 (amended). The scenario without cache yields exactly these 13
    files: the entity, the repository interface, the five use cases, the
    DTO and mapper (one file), the remote data source interface and
    implementation, the repository implementation, the view model and
    the page, and neither local data source file.  With cache it yields
    the same 13 paths and the two local data source files, 15 in all;
    every text but the repository implementation's is unchanged. *)
Theorem user_scenario_files :
  let without := generate_all (__init__ (user_config "clean" false)) in
  let with_cache := generate_all (__init__ (user_config "clean" true)) in
  dom without =
    list_to_set
      [ "domain/entities/User.ets";
        "domain/repositories/IUserRepository.ets";
        "domain/usecases/user/GetusersUseCase.ets";
        "domain/usecases/user/GetUserByIdUseCase.ets";
        "domain/usecases/user/CreateUserUseCase.ets";
        "domain/usecases/user/UpdateUserUseCase.ets";
        "domain/usecases/user/DeleteUserUseCase.ets";
        "data/models/UserModel.ets";
        "data/datasources/IUserRemoteDataSource.ets";
        "data/datasources/UserRemoteDataSourceImpl.ets";
        "data/repositories/UserRepositoryImpl.ets";
        "presentation/viewmodels/UserViewModel.ets";
        "presentation/views/pages/UserPage.ets" ]
  /\ size without = 13%nat
  /\ ("data/datasources/IUserLocalDataSource.ets" ∉ dom without)
  /\ ("data/datasources/UserLocalDataSourceImpl.ets" ∉ dom without)
  /\ dom with_cache =
       dom without ∪ {[ "data/datasources/IUserLocalDataSource.ets";
                        "data/datasources/UserLocalDataSourceImpl.ets" ]}
  /\ size with_cache = 15%nat
  /\ delete "data/repositories/UserRepositoryImpl.ets" without ⊆ with_cache.
Proof.
  intros without with_cache. subst without with_cache.
  repeat split; decide_by_eval.
Qed.

End UserScenario.

(** * Caching *)

Section Caching.

Variable self : CodeGenerator.

(** Where [generate_all] stores the two local data source files and the
    repository implementation. *)
Let local_interface_path : string :=
  "data/datasources/I" +:+ self.(config).(entity_name) +:+ "LocalDataSource.ets".
Let local_impl_path : string :=
  "data/datasources/" +:+ self.(config).(entity_name) +:+ "LocalDataSourceImpl.ets".
Let repository_impl_path : string :=
  "data/repositories/" +:+ self.(config).(entity_name) +:+ "RepositoryImpl.ets".

(** A path that is none of the keys is not in the map. *)
Ltac not_a_key :=
  let Hin := fresh "Hin" in
  intros Hin; rewrite ?dom_insert_L, ?dom_empty_L in Hin;
  rewrite ?elem_of_union, ?elem_of_singleton in Hin;
  repeat (destruct Hin as [Hin | Hin]; [revert Hin; str_neq |]);
  first [ revert Hin; str_neq | exact (not_elem_of_empty _ Hin) ].

Lemma local_files_iff (path : string) :
  path = local_interface_path \/ path = local_impl_path ->
  path ∈ dom (generate_all self)
  <-> self.(config).(architecture) = "clean" /\ self.(config).(include_cache) = true.
Proof.
  intros Hpath. unfold generate_all.
  destruct (String.eqb_spec (architecture (config self)) "clean") as [Harch | Harch];
    destruct (include_cache (config self)) eqn:Hcache.
  - split; [auto |]. intros _. rewrite !dom_insert_L.
    destruct Hpath as [-> | ->]; subst local_interface_path local_impl_path; set_solver.
  - split; [| intros [_ H]; discriminate H]. intros Hin. exfalso. revert Hin.
    destruct Hpath as [-> | ->]; subst local_interface_path local_impl_path; not_a_key.
  - split; [| intros [H _]; contradiction]. intros Hin. exfalso. revert Hin.
    destruct Hpath as [-> | ->]; subst local_interface_path local_impl_path; not_a_key.
  - split; [| intros [H _]; contradiction]. intros Hin. exfalso. revert Hin.
    destruct Hpath as [-> | ->]; subst local_interface_path local_impl_path; not_a_key.
Qed.

(** Under [clean] the repository implementation is the text stored at
    its path. *)
Lemma repository_impl_stored :
  self.(config).(architecture) = "clean" ->
  generate_all self !! repository_impl_path = Some (_generate_repository_impl self).
Proof.
  intros Harch. unfold generate_all. rewrite Harch. simpl String.eqb. cbv iota.
  subst repository_impl_path.
  rewrite lookup_insert_ne by str_neq.
  rewrite lookup_insert_ne by str_neq.
  apply lookup_insert_eq.
Qed.

(** In the other mode there is no repository implementation file. *)
Lemma repository_impl_only_clean :
  self.(config).(architecture) <> "clean" ->
  repository_impl_path ∉ dom (generate_all self).
Proof.
  intros Harch. apply String.eqb_neq in Harch. unfold generate_all. rewrite Harch.
  subst repository_impl_path. not_a_key.
Qed.

(** The body of the generated GetAll method is [cache_logic]. *)
Lemma get_all_body :
  occurs ("  async get" +:+ self.(entity_name_plural) +:+ "(): Promise<"
            +:+ self.(config).(entity_name) +:+ "[]> {
    " +:+ cache_logic self +:+ "
  }
")
         (_generate_repository_impl self).
Proof. unfold _generate_repository_impl. str_norm. occurs_tac. Qed.

Lemma cache_logic_with_cache :
  self.(config).(include_cache) = true -> try_fallback self (cache_logic self).
Proof.
  intros Hcache. unfold cache_logic. rewrite Hcache.
  exists ("
      const dtos = await this.remoteDataSource.fetch" +:+ self.(entity_name_plural) +:+ "();
      await this.localDataSource.cache" +:+ self.(entity_name_plural) +:+ "(dtos);
      return " +:+ self.(config).(entity_name) +:+ "Mapper.toDomainList(dtos);
    "),
    ("
      const cachedDtos = await this.localDataSource.getCached" +:+ self.(entity_name_plural) +:+ "();
      return " +:+ self.(config).(entity_name) +:+ "Mapper.toDomainList(cachedDtos);
    ").
  split; [str_norm; reflexivity |].
  repeat split; str_norm; occurs_tac.
Qed.

Lemma cache_logic_without_cache :
  self.(config).(include_cache) = false ->
  cache_logic self = direct_remote self /\ ~ try_fallback self (cache_logic self).
Proof.
  intros Hcache. unfold cache_logic. rewrite Hcache. split; [reflexivity |].
  intros (attempt & fallback & Hbody & _). simpl in Hbody. discriminate Hbody.
Qed.

(** The import block: the local data source is imported after the remote
    one when there is a cache; otherwise the line is empty. *)
Lemma imports_with_cache :
  self.(config).(include_cache) = true ->
  occurs ("RemoteDataSource';
import { I" +:+ self.(config).(entity_name) +:+ "LocalDataSource } from '../datasources/I"
            +:+ self.(config).(entity_name) +:+ "LocalDataSource';

export class ")
         (_generate_repository_impl self).
Proof.
  intros Hcache. unfold _generate_repository_impl. rewrite Hcache. str_norm. occurs_tac.
Qed.

Lemma imports_without_cache :
  self.(config).(include_cache) = false ->
  occurs ("import { I" +:+ self.(config).(entity_name)
            +:+ "RemoteDataSource } from '../datasources/I"
            +:+ self.(config).(entity_name) +:+ "RemoteDataSource';


export class " +:+ self.(config).(entity_name) +:+ "RepositoryImpl implements I"
            +:+ self.(config).(entity_name) +:+ "Repository {
  constructor(
    private remoteDataSource: I" +:+ self.(config).(entity_name) +:+ "RemoteDataSource
  ) {}")
         (_generate_repository_impl self).
Proof.
  intros Hcache. unfold _generate_repository_impl. rewrite Hcache. str_norm. occurs_tac.
Qed.

End Caching.

(** C3. The two local data source files are in the file map exactly when
    the architecture is [clean] and the cache is included.  The
    repository implementation (the text stored at its path under
    [clean]; the other mode has no such file) has [cache_logic] as the
    body of GetAll; that body is the
    try-remote, cache-result, fall-back-to-cache block exactly when the
    cache is included.  With the cache the local data source is
    imported; without it GetAll calls the remote source directly, and
    neither the import nor the constructor mentions a local source. *)
Theorem local_datasource_iff_cache (self : CodeGenerator) :
  let E := self.(config).(entity_name) in
  (forall path,
      path = "data/datasources/I" +:+ E +:+ "LocalDataSource.ets"
      \/ path = "data/datasources/" +:+ E +:+ "LocalDataSourceImpl.ets" ->
      (path ∈ dom (generate_all self)
       <-> self.(config).(architecture) = "clean" /\ self.(config).(include_cache) = true))
  /\ (self.(config).(architecture) = "clean" ->
      generate_all self !! ("data/repositories/" +:+ E +:+ "RepositoryImpl.ets")
      = Some (_generate_repository_impl self))
  /\ (self.(config).(architecture) <> "clean" ->
      "data/repositories/" +:+ E +:+ "RepositoryImpl.ets" ∉ dom (generate_all self))
  /\ occurs ("  async get" +:+ self.(entity_name_plural) +:+ "(): Promise<" +:+ E +:+ "[]> {
    " +:+ cache_logic self +:+ "
  }
")
            (_generate_repository_impl self)
  /\ (try_fallback self (cache_logic self) <-> self.(config).(include_cache) = true)
  /\ (self.(config).(include_cache) = true ->
      occurs ("RemoteDataSource';
import { I" +:+ E +:+ "LocalDataSource } from '../datasources/I" +:+ E +:+ "LocalDataSource';

export class ")
             (_generate_repository_impl self))
  /\ (self.(config).(include_cache) = false ->
      cache_logic self = direct_remote self
      /\ occurs ("import { I" +:+ E +:+ "RemoteDataSource } from '../datasources/I"
                   +:+ E +:+ "RemoteDataSource';


export class " +:+ E +:+ "RepositoryImpl implements I" +:+ E +:+ "Repository {
  constructor(
    private remoteDataSource: I" +:+ E +:+ "RemoteDataSource
  ) {}")
                (_generate_repository_impl self)).
Proof.
  intros E. subst E.
  split; [intros path Hpath; now apply local_files_iff |].
  split; [apply repository_impl_stored |].
  split; [apply repository_impl_only_clean |].
  split; [apply get_all_body |].
  split; [| split].
  - split; [| apply cache_logic_with_cache].
    intros Htry. destruct (include_cache (config self)) eqn:Hcache; [reflexivity |].
    exfalso. exact (proj2 (cache_logic_without_cache self Hcache) Htry).
  - apply imports_with_cache.
  - intros Hcache. split; [apply (cache_logic_without_cache self Hcache) |].
    now apply imports_without_cache.
Qed.

Lemma local_datasource_iff_cache_witness :
  "data/datasources/IUserLocalDataSource.ets"
    ∈ dom (generate_all (__init__ (user_config "clean" true)))
  /\ cache_logic (__init__ (user_config "clean" false))
     = direct_remote (__init__ (user_config "clean" false)).
Proof.
  destruct (local_datasource_iff_cache (__init__ (user_config "clean" true)))
    as (Hfiles & _).
  destruct (local_datasource_iff_cache (__init__ (user_config "clean" false)))
    as (_ & _ & _ & _ & _ & _ & Hdirect).
  split.
  - apply (Hfiles "data/datasources/IUserLocalDataSource.ets").
    + left. reflexivity.
    + split; reflexivity.
  - apply Hdirect. reflexivity.
Defined.

(** On the User scenario: without cache the repository implementation
    has no [catch] and names no local data source; with cache it has
    the remote fetch and the cache fall-back. *)
Example user_repository_texts :
  let without := _generate_repository_impl (__init__ (user_config "clean" false)) in
  let with_cache := _generate_repository_impl (__init__ (user_config "clean" true)) in
  PyStr.contains without "catch" = false
  /\ PyStr.contains without "ocalDataSource" = false
  /\ PyStr.contains without "await this.remoteDataSource.fetchusers();" = true
  /\ PyStr.contains with_cache "await this.remoteDataSource.fetchusers();" = true
  /\ PyStr.contains with_cache "await this.localDataSource.getCachedusers();" = true
  /\ PyStr.contains with_cache "import { IUserLocalDataSource } from" = true.
Proof. vm_compute. repeat split. Qed.

(** * The architecture selector *)

Section Architecture.

(** C7 (as stated, refuted). For the architecture [hexagonal] the call
    raises nothing: it returns the four MVVM files, the same map as for
    [mvvm]. *)
Lemma unknown_architecture_is_not_rejected :
  architecture hexagonal_config <> "clean"
  /\ architecture hexagonal_config <> "mvvm"
  /\ (forall error, call_generate_all hexagonal_config <> Raises error)
  /\ call_generate_all hexagonal_config = call_generate_all (user_config "mvvm" false)
  /\ (exists files, call_generate_all hexagonal_config = Returns files /\ size files = 4%nat).
Proof.
  split; [discriminate |]. split; [discriminate |].
  split; [intros error; discriminate |].
  split; [reflexivity |].
  eexists. split; [reflexivity | vm_compute; reflexivity].
Qed.

(** The four paths of the MVVM mode are distinct, whatever the name. *)
Lemma mvvm_size (self : CodeGenerator) :
  self.(config).(architecture) <> "clean" -> size (generate_all self) = 4%nat.
Proof.
  intros Harch. apply String.eqb_neq in Harch. unfold generate_all. rewrite Harch.
  rewrite !map_size_insert_None, map_size_empty; [reflexivity | ..];
    rewrite ?lookup_insert_ne by str_neq; apply lookup_empty.
Qed.

(** C7 (amended). Every architecture value other than [clean], inside
    the enumeration or not, selects the MVVM mode: the call raises
    nothing and returns the file map of [mvvm], whose paths are the
    model, the repository, the view model and the page. *)
Theorem any_other_architecture_is_mvvm (cfg : GeneratorConfig) :
  cfg.(architecture) <> "clean" ->
  let E := cfg.(entity_name) in
  call_generate_all cfg = Returns (generate_all (__init__ (with_architecture "mvvm" cfg)))
  /\ dom (generate_all (__init__ cfg))
     = {[ "data/models/" +:+ E +:+ ".ets";
          "data/repositories/" +:+ E +:+ "Repository.ets";
          "viewmodels/" +:+ E +:+ "ViewModel.ets";
          "views/pages/" +:+ E +:+ "Page.ets" ]}
  /\ size (generate_all (__init__ cfg)) = 4%nat.
Proof.
  intros Harch E. subst E. split; [| split].
  - apply String.eqb_neq in Harch. unfold call_generate_all, generate_all.
    simpl architecture. rewrite Harch. reflexivity.
  - apply String.eqb_neq in Harch. unfold generate_all.
    simpl architecture. rewrite Harch. rewrite !dom_insert_L, dom_empty_L.
    simpl entity_name. apply set_eq. intros path. set_unfold. tauto.
  - now apply mvvm_size.
Qed.

Lemma any_other_architecture_is_mvvm_witness :
  call_generate_all hexagonal_config
  = Returns (generate_all (__init__ (with_architecture "mvvm" hexagonal_config)))
  /\ dom (generate_all (__init__ hexagonal_config))
     = {[ "data/models/User.ets"; "data/repositories/UserRepository.ets";
          "viewmodels/UserViewModel.ets"; "views/pages/UserPage.ets" ]}
  /\ size (generate_all (__init__ hexagonal_config)) = 4%nat.
Proof.
  apply (any_other_architecture_is_mvvm hexagonal_config). discriminate.
Defined.

End Architecture.

(** * Header comments *)

Section Banners.

Variable self : CodeGenerator.

Let E := self.(config).(entity_name).

(** In the MVVM mode the model is the entity text and the page is the
    clean page text: both open with the header of the clean path, not of
    the path they are stored at.  The repository and the view model open
    with their own path. *)
Lemma mvvm_banners :
  self.(config).(architecture) <> "clean" ->
  let files := generate_all self in
  (files !! ("data/models/" +:+ E +:+ ".ets") = Some (_generate_entity self)
   /\ starts (banner ("domain/entities/" +:+ E +:+ ".ets")) (_generate_entity self)
   /\ ~ starts (banner ("data/models/" +:+ E +:+ ".ets")) (_generate_entity self))
  /\ (files !! ("views/pages/" +:+ E +:+ "Page.ets") = Some (_generate_page self)
      /\ starts (banner ("presentation/views/pages/" +:+ E +:+ "Page.ets")) (_generate_page self)
      /\ ~ starts (banner ("views/pages/" +:+ E +:+ "Page.ets")) (_generate_page self))
  /\ (files !! ("data/repositories/" +:+ E +:+ "Repository.ets")
      = Some (_generate_simple_repository self)
      /\ starts (banner ("data/repositories/" +:+ E +:+ "Repository.ets"))
                (_generate_simple_repository self))
  /\ (files !! ("viewmodels/" +:+ E +:+ "ViewModel.ets") = Some (_generate_simple_viewmodel self)
      /\ starts (banner ("viewmodels/" +:+ E +:+ "ViewModel.ets"))
                (_generate_simple_viewmodel self)).
Proof.
  intros Harch files. subst files E. apply String.eqb_neq in Harch.
  unfold generate_all. rewrite Harch.
  repeat split.
  - rewrite !lookup_insert_ne by str_neq. apply lookup_insert_eq.
  - unfold banner, _generate_entity. str_norm. solve [starts_tac].
  - unfold banner, _generate_entity. intros [post H]. simpl in H. discriminate H.
  - apply lookup_insert_eq.
  - unfold banner, _generate_page. str_norm. solve [starts_tac].
  - unfold banner, _generate_page. intros [post H]. simpl in H. discriminate H.
  - rewrite !lookup_insert_ne by str_neq. apply lookup_insert_eq.
  - unfold banner, _generate_simple_repository. str_norm. solve [starts_tac].
  - rewrite !lookup_insert_ne by str_neq. apply lookup_insert_eq.
  - unfold banner, _generate_simple_viewmodel. str_norm. solve [starts_tac].
Qed.

(** The request base path of both remote-access texts is the lower form
    followed by [s]. *)
Lemma endpoint_line :
  occurs ("  private endpoint: string = '/" +:+ self.(entity_name_lower) +:+ "s';")
         (_generate_remote_datasource_impl self)
  /\ occurs ("  private endpoint: string = '/" +:+ self.(entity_name_lower) +:+ "s';")
            (_generate_simple_repository self).
Proof.
  split.
  - unfold _generate_remote_datasource_impl. str_norm. occurs_tac.
  - unfold _generate_simple_repository. str_norm. occurs_tac.
Qed.

End Banners.

(** C9 (at a failing input). For the User schema in the MVVM mode, the
    text stored at [data/models/User.ets] opens with the header of
    [domain/entities/User.ets], and the text stored at
    [views/pages/UserPage.ets] with the header of
    [presentation/views/pages/UserPage.ets]: neither header names the
    path of its file. *)
Theorem mvvm_user_banners_name_clean_paths :
  let files := generate_all (__init__ (user_config "mvvm" false)) in
  (exists text,
      files !! "data/models/User.ets" = Some text
      /\ PyStr.startswith text (banner "domain/entities/User.ets") = true
      /\ PyStr.startswith text (banner "data/models/User.ets") = false)
  /\ (exists text,
         files !! "views/pages/UserPage.ets" = Some text
         /\ PyStr.startswith text (banner "presentation/views/pages/UserPage.ets") = true
         /\ PyStr.startswith text (banner "views/pages/UserPage.ets") = false).
Proof.
  split; eexists; (split; [vm_compute; reflexivity |]); split; vm_compute; reflexivity.
Qed.

(** C6 (at a failing input). For the entity Category the plural is
    [categories], but the base path in the clean remote data source and
    in the MVVM repository is [/categorys]; [/categories] occurs in
    neither text. *)
Theorem category_endpoint_is_not_the_plural :
  let clean := __init__ (category_config "clean") in
  let mvvm := __init__ (category_config "mvvm") in
  clean.(entity_name_lower) = "category"
  /\ clean.(entity_name_plural) = "categories"
  /\ generate_all clean !! "data/datasources/CategoryRemoteDataSourceImpl.ets"
     = Some (_generate_remote_datasource_impl clean)
  /\ PyStr.contains (_generate_remote_datasource_impl clean)
                    "private endpoint: string = '/categorys';" = true
  /\ PyStr.contains (_generate_remote_datasource_impl clean) "/categories" = false
  /\ generate_all mvvm !! "data/repositories/CategoryRepository.ets"
     = Some (_generate_simple_repository mvvm)
  /\ PyStr.contains (_generate_simple_repository mvvm)
                    "private endpoint: string = '/categorys';" = true
  /\ PyStr.contains (_generate_simple_repository mvvm) "/categories" = false.
Proof. repeat split; vm_compute; reflexivity. Qed.

(** * Validation and optional properties *)

Section Validation.

Lemma rule_code_optional (p : PropertyConfig) (r : ValidationRule.t) (b : bool) :
  rule_code (with_optional b p) r = rule_code p r.
Proof. reflexivity. Qed.

Lemma rule_code_type (p : PropertyConfig) (r : ValidationRule.t) (ty : string) :
  r.(ValidationRule.type) <> REQUIRED ->
  rule_code (with_type ty p) r = rule_code p r.
Proof.
  intros Hkind. unfold rule_code.
  destruct (ValidationRule.type r); [contradiction | reflexivity ..].
Qed.

(** The loop over the properties does not look at their optional flag. *)
Lemma validation_loop_optional (f : PropertyConfig -> bool) (ps : list PropertyConfig)
      (code : string) :
  fold_left
    (fun validation_code prop =>
       match prop.(validation) with
       | [] => validation_code
       | _ => fold_left (fun validation_code rule => validation_code +:+ rule_code prop rule)
                        prop.(validation) validation_code
       end)
    (map (fun p => with_optional (f p) p) ps) code
  = fold_left
      (fun validation_code prop =>
         match prop.(validation) with
         | [] => validation_code
         | _ => fold_left (fun validation_code rule => validation_code +:+ rule_code prop rule)
                          prop.(validation) validation_code
         end)
      ps code.
Proof.
  revert code. induction ps as [|p ps IH]; intros code; [reflexivity |].
  simpl. rewrite IH. reflexivity.
Qed.

Lemma validations_optional (self : CodeGenerator) (f : PropertyConfig -> bool) :
  _generate_validations (map_properties (fun p => with_optional (f p) p) self)
  = _generate_validations self.
Proof.
  unfold _generate_validations. simpl.
  destruct (include_validation (config self)); [| reflexivity]. simpl.
  rewrite validation_loop_optional. reflexivity.
Qed.

(** The method for the optional [age] of the usage example. *)
Example optional_age_checks :
  _generate_validations
    (__init__ {| entity_name := "User";
                 properties :=
                   [ plain "id" "number" false;
                     {| name := "age"; type := "number"; optional := true;
                        validation := [ ValidationRule.mk MIN (Some (PyInt 0)) None;
                                        ValidationRule.mk MAX (Some (PyInt 150)) None ] |} ];
                 include_cache := false;
                 include_validation := true;
                 architecture := "clean" |})
  = "private validate(): void {
    if (this.age < 0) {
      throw new Error('age deve ser maior ou igual a 0');
    }
    if (this.age > 150) {
      throw new Error('age deve ser menor ou igual a 150');
    }
  }".
Proof. vm_compute. reflexivity. Qed.

End Validation.

(** * The identifier property *)

Section Identifier.

Lemma existsb_false_Forall (ps : list PropertyConfig) :
  existsb (fun p => String.eqb p.(name) "id") ps = false ->
  Forall (fun q => q.(name) <> "id") ps.
Proof.
  induction ps as [|p ps IH]; simpl; intros H; [constructor |].
  apply orb_false_iff in H as [Hp Hps].
  constructor; [now apply String.eqb_neq | auto].
Qed.

Lemma default_of_id (p : PropertyConfig) : p.(name) = "id" -> _get_default_value p = " = 0".
Proof. intros H. unfold _get_default_value. rewrite H. reflexivity. Qed.

(** C8 (as stated, refuted). A caller who names a property [id] gets it
    as written: for [name:string,id:string?] the schema has [id] second,
    typed string and optional; for [id:number,id:number] it has it
    twice. *)
Lemma caller_supplied_id_is_kept_as_written :
  properties (CLI._parse_config own_id_args)
  = [plain "name" "string" false; plain "id" "string" true]
  /\ ~ id_invariant (properties (CLI._parse_config own_id_args))
  /\ properties (CLI._parse_config twice_id_args)
     = [plain "id" "number" false; plain "id" "number" false]
  /\ ~ id_invariant (properties (CLI._parse_config twice_id_args)).
Proof.
  split; [vm_compute; reflexivity |]. split; [| split; [vm_compute; reflexivity |]].
  - intros (p & rest & Hps & Hname & _). vm_compute in Hps.
    injection Hps as <- _. discriminate Hname.
  - intros (p & rest & Hps & _ & _ & _ & _ & Hrest). vm_compute in Hps.
    injection Hps as _ <-. inversion Hrest as [|q l Hq _]. now apply Hq.
Qed.

(** C8 (amended). When the caller's list has no property named [id],
    the schema is that list behind a synthesized [id]: first, typed
    number, not optional, default [0], and the only [id]; the class and
    the constructor declare it first.  When the caller's list names
    [id], the list is passed on unchanged.  In both cases every property
    named [id] gets the constructor default [0]. *)
Theorem id_is_synthesized_only_when_missing (args : CLI.Namespace) :
  let supplied := CLI._parse_properties args.(CLI.props) in
  let cfg := CLI._parse_config args in
  (existsb named_id supplied = false ->
   cfg.(properties) = CLI.id_property :: supplied
   /\ id_invariant cfg.(properties)
   /\ starts "  public readonly id: number;" (_generate_properties (__init__ cfg))
   /\ starts "    public id: number = 0" (_generate_constructor_params (__init__ cfg)))
  /\ (existsb named_id supplied = true -> cfg.(properties) = supplied)
  /\ (forall p, In p cfg.(properties) -> p.(name) = "id" -> _get_default_value p = " = 0").
Proof.
  intros supplied cfg. subst supplied cfg. unfold CLI._parse_config, named_id. simpl.
  split; [| split].
  - intros Hnone. rewrite Hnone. simpl.
    split; [reflexivity |]. split; [| split].
    + exists CLI.id_property, (CLI._parse_properties (CLI.props args)).
      repeat split; try reflexivity. now apply existsb_false_Forall.
    + unfold _generate_properties. simpl.
      destruct (CLI._parse_properties (CLI.props args)); simpl; solve [starts_tac].
    + unfold _generate_constructor_params. simpl.
      destruct (CLI._parse_properties (CLI.props args)); simpl; solve [starts_tac].
  - intros Hsome. rewrite Hsome. reflexivity.
  - intros p _ Hname. now apply default_of_id.
Qed.

Lemma id_is_synthesized_only_when_missing_witness :
  (properties (CLI._parse_config no_id_args)
   = CLI.id_property :: CLI._parse_properties (CLI.props no_id_args)
   /\ id_invariant (properties (CLI._parse_config no_id_args)))
  /\ properties (CLI._parse_config own_id_args)
     = CLI._parse_properties (CLI.props own_id_args)
  /\ _get_default_value (plain "id" "string" true) = " = 0".
Proof.
  destruct (id_is_synthesized_only_when_missing no_id_args) as (Hno & _ & _).
  destruct (id_is_synthesized_only_when_missing own_id_args) as (_ & Hown & Hdef).
  split; [| split].
  - destruct Hno as (Hps & Hinv & _); [vm_compute; reflexivity |]. split; assumption.
  - apply Hown. vm_compute. reflexivity.
  - apply Hdef; [| reflexivity]. vm_compute. right. left. reflexivity.
Defined.

End Identifier.

(** * Indentation *)

Section Indentation.

Implicit Types (s t : string) (c sep : ascii) (l : list string).

Lemma split_nonempty sep s : PyStr.split sep s <> [].
Proof.
  destruct s as [|c s]; simpl; [discriminate |].
  destruct (Ascii.eqb c sep); [discriminate |].
  destruct (PyStr.split sep s); discriminate.
Qed.

Lemma join_cons sep_text s l : l <> [] -> PyStr.join sep_text (s :: l) = s +:+ sep_text +:+ PyStr.join sep_text l.
Proof. destruct l; [congruence | reflexivity]. Qed.

(** Joining what [split] gives back restores the text. *)
Lemma join_split sep s : PyStr.join (String sep "") (PyStr.split sep s) = s.
Proof.
  induction s as [|c s IH]; [reflexivity |]. simpl.
  destruct (Ascii.eqb_spec c sep) as [-> | Hne].
  - rewrite join_cons by apply split_nonempty. rewrite IH. reflexivity.
  - destruct (PyStr.split sep s) as [|h t] eqn:Hsplit; [now apply split_nonempty in Hsplit |].
    destruct t as [|h' t].
    + unfold PyStr.join in *. simpl in *. congruence.
    + rewrite join_cons by discriminate. rewrite join_cons in IH by discriminate.
      rewrite <- IH. reflexivity.
Qed.

Lemma split_no_sep sep s : PyStr.has_char sep s = false -> PyStr.split sep s = [s].
Proof.
  induction s as [|c s IH]; simpl; [reflexivity |]. intros H.
  apply orb_false_iff in H as [Hc Hs]. rewrite Ascii.eqb_sym, Hc, (IH Hs). reflexivity.
Qed.

Lemma split_app sep s t :
  PyStr.has_char sep s = false ->
  PyStr.split sep (s +:+ String sep t) = s :: PyStr.split sep t.
Proof.
  induction s as [|c s IH]; simpl; intros H.
  - rewrite Ascii.eqb_refl. reflexivity.
  - apply orb_false_iff in H as [Hc Hs]. rewrite Ascii.eqb_sym, Hc, (IH Hs). reflexivity.
Qed.

(** The pieces [split] gives have no separator in them. *)
Lemma split_pieces sep s : Forall (fun piece => PyStr.has_char sep piece = false) (PyStr.split sep s).
Proof.
  induction s as [|c s IH]; simpl; [repeat constructor |].
  destruct (Ascii.eqb_spec c sep) as [-> | Hne]; [constructor; [reflexivity | assumption] |].
  destruct (PyStr.split sep s) as [|h t]; [repeat constructor; simpl |].
  - rewrite orb_false_r. apply Ascii.eqb_neq. congruence.
  - inversion IH as [|? ? Hh Ht]; subst. constructor; [| assumption]. simpl.
    rewrite Hh, orb_false_r. apply Ascii.eqb_neq. congruence.
Qed.

(** Splitting a join of separator-free pieces gives the pieces back. *)
Lemma split_join sep l :
  l <> [] -> Forall (fun piece => PyStr.has_char sep piece = false) l ->
  PyStr.split sep (PyStr.join (String sep "") l) = l.
Proof.
  induction l as [|s l IH]; [congruence |]. intros _ Hall.
  inversion Hall as [|? ? Hs Hl]; subst.
  destruct l as [|s' l]; [now apply split_no_sep |].
  rewrite join_cons by discriminate.
  change (s +:+ String sep "" +:+ PyStr.join (String sep "") (s' :: l))
    with (s +:+ String sep (PyStr.join (String sep "") (s' :: l))).
  rewrite split_app by assumption. rewrite IH by (discriminate || assumption). reflexivity.
Qed.

Lemma repeat_add (s : string) (a b : nat) :
  PyStr.repeat s (a + b) = PyStr.repeat s a +:+ PyStr.repeat s b.
Proof. induction a as [|a IH]; simpl; [reflexivity |]. now rewrite IH, app_assoc. Qed.

Lemma lstrip_indent (n : nat) s : PyStr.lstrip (PyStr.repeat "  " n +:+ s) = PyStr.lstrip s.
Proof. induction n as [|n IH]; simpl; [reflexivity | assumption]. Qed.

Lemma has_char_app c s t : PyStr.has_char c (s +:+ t) = PyStr.has_char c s || PyStr.has_char c t.
Proof. induction s as [|d s IH]; simpl; [reflexivity |]. now rewrite IH, orb_assoc. Qed.

Lemma indent_one_line (n : nat) : PyStr.has_char "010" (PyStr.repeat "  " n) = false.
Proof. induction n as [|n IH]; simpl; [reflexivity | assumption]. Qed.

Lemma indent_line_add (a b : nat) (line : string) :
  indent_line b (indent_line a line) = indent_line (a + b) line.
Proof.
  unfold indent_line. destruct (PyStr.truthy (PyStr.strip line)) eqn:Hblank.
  - unfold PyStr.strip in *. rewrite lstrip_indent, Hblank.
    rewrite Nat.add_comm, repeat_add, app_assoc. reflexivity.
  - rewrite Hblank. reflexivity.
Qed.

Lemma indent_line_one_line (n : nat) (line : string) :
  PyStr.has_char "010" line = false -> PyStr.has_char "010" (indent_line n line) = false.
Proof.
  intros H. unfold indent_line. destruct (PyStr.truthy (PyStr.strip line)); [| assumption].
  now rewrite has_char_app, indent_one_line, H.
Qed.

Lemma indent_code_lines (text : string) (level : nat) :
  PyStr.split "010" (_indent_code text level)
  = map (indent_line level) (PyStr.split "010" text).
Proof.
  unfold _indent_code. apply split_join.
  - intros Hnil. apply map_eq_nil in Hnil. exact (split_nonempty _ _ Hnil).
  - apply List.Forall_map. eapply List.Forall_impl; [| apply split_pieces].
    intros line. apply indent_line_one_line.
Qed.

(** X1. Indenting by no level changes nothing. *)
Theorem indent_code_zero (text : string) : _indent_code text 0 = text.
Proof.
  unfold _indent_code. simpl PyStr.repeat.
  rewrite (map_ext _ (fun line => line)).
  - rewrite map_id. apply join_split.
  - intros line. now destruct (PyStr.truthy (PyStr.strip line)).
Qed.

(** X2. Indenting twice is indenting once by the sum of the levels. *)
Theorem indent_code_twice (text : string) (a b : nat) :
  _indent_code (_indent_code text a) b = _indent_code text (a + b).
Proof.
  unfold _indent_code at 1. fold (indent_line b). rewrite indent_code_lines.
  rewrite map_map. unfold _indent_code. f_equal. apply map_ext. intros line.
  apply indent_line_add.
Qed.

(** X3. Indentation keeps the lines: as many lines come out as went in;
    a line of ASCII characters that is blank (empty, or white space
    only) is left as it is, and any other line of ASCII characters gets
    two blanks per level in front. *)
Theorem indent_code_line_by_line (text : string) (level : nat) :
  List.length (PyStr.split "010" (_indent_code text level))
  = List.length (PyStr.split "010" text)
  /\ (forall i line,
        PyStr.split "010" text !! i = Some line ->
        ascii_only line = true ->
        PyStr.split "010" (_indent_code text level) !! i
        = Some (if PyStr.truthy (PyStr.strip line)
                then PyStr.repeat "  " level +:+ line else line)).
Proof.
  rewrite indent_code_lines. split; [apply length_map |].
  intros i line Hline _. rewrite list_lookup_fmap. now rewrite Hline.
Qed.

Lemma indent_code_line_by_line_witness :
  PyStr.split "010" (_indent_code "a
 
  b" 2) !! 1%nat = Some " "
  /\ PyStr.split "010" (_indent_code "a
 
  b" 2) !! 2%nat = Some "      b".
Proof.
  split.
  - apply (proj2 (indent_code_line_by_line "a
 
  b" 2) 1%nat " "); reflexivity.
  - apply (proj2 (indent_code_line_by_line "a
 
  b" 2) 2%nat "  b"); reflexivity.
Defined.

End Indentation.

(** * Derived names *)

Section DerivedNames.

Lemma pluralize_cases (word : string) :
  _pluralize word = word +:+ "s"
  \/ _pluralize word = word +:+ "es"
  \/ exists stem, word = stem +:+ "y" /\ _pluralize word = stem +:+ "ies".
Proof.
  destruct (String.eqb_spec word "") as [-> | Hne]; [left; reflexivity |].
  destruct (nonempty_snoc word Hne) as (stem & c & ->). rewrite pluralize_snoc.
  destruct (Ascii.eqb_spec c "y"%char) as [-> | Hy]; [right; right; now exists stem |].
  destruct (Ascii.eqb c "s" || Ascii.eqb c "x" || Ascii.eqb c "z"); auto.
Qed.

Lemma endswith_s (s : string) : PyStr.endswith (s +:+ "s") "s" = true.
Proof. apply (endswith_snoc s "s" "s"). Qed.

Lemma pluralize_length (word : string) :
  (String.length word + 1 <= String.length (_pluralize word) <= String.length word + 2)%nat.
Proof.
  destruct (pluralize_cases word) as [-> | [-> | (stem & -> & ->)]];
    rewrite ?length_app; simpl; lia.
Qed.

(** X4. The plural always ends in [s], and is one or two characters longer
    than the word. *)
Theorem pluralize_ends_in_s (word : string) :
  PyStr.endswith (_pluralize word) "s" = true
  /\ (String.length word + 1 <= String.length (_pluralize word) <= String.length word + 2)%nat.
Proof.
  destruct (pluralize_cases word) as [-> | [-> | (stem & -> & ->)]].
  - split; [apply endswith_s | rewrite length_app; simpl; lia].
  - split; [| rewrite length_app; simpl; lia].
    change "es" with ("e" +:+ "s"). rewrite <- app_assoc. apply endswith_s.
  - split; [| rewrite !length_app; simpl; lia].
    change "ies" with ("ie" +:+ "s"). rewrite <- app_assoc. apply endswith_s.
Qed.

Lemma lower_ascii_idem (c : ascii) : PyStr.lower_ascii (PyStr.lower_ascii c) = PyStr.lower_ascii c.
Proof. destruct c as [[] [] [] [] [] [] [] []]; reflexivity. Qed.

Lemma lower_idem (s : string) : PyStr.lower (PyStr.lower s) = PyStr.lower s.
Proof. induction s as [|c s IH]; simpl; [reflexivity |]. now rewrite lower_ascii_idem, IH. Qed.

Lemma lower_app (s t : string) : PyStr.lower (s +:+ t) = PyStr.lower s +:+ PyStr.lower t.
Proof. induction s as [|c s IH]; simpl; [reflexivity | now rewrite IH]. Qed.

Lemma lower_take (n : nat) (s : string) : PyStr.lower (PyStr.take n s) = PyStr.take n (PyStr.lower s).
Proof.
  revert s. induction n as [|n IH]; intros [|c s]; simpl; try reflexivity. now rewrite IH.
Qed.

Lemma lower_pluralize (word : string) :
  PyStr.lower word = word -> PyStr.lower (_pluralize word) = _pluralize word.
Proof.
  intros Hlow. unfold _pluralize, PyStr.but_last.
  repeat match goal with |- context [if ?b then _ else _] => destruct b end;
    rewrite lower_app, ?lower_take, Hlow; reflexivity.
Qed.

(** X5. Both derived names are in lower case: lower-casing them again
    changes nothing.  The generated method names built from the plural
    therefore carry no capital of the entity name. *)
Theorem derived_names_are_lower_case (cfg : GeneratorConfig) :
  PyStr.lower (entity_name_lower (__init__ cfg)) = entity_name_lower (__init__ cfg)
  /\ PyStr.lower (entity_name_plural (__init__ cfg)) = entity_name_plural (__init__ cfg).
Proof.
  simpl. split; [apply lower_idem | apply lower_pluralize, lower_idem].
Qed.

End DerivedNames.

(** * Shape of the file map *)

Section Shape.

Lemma take_drop (n : nat) (s : string) : PyStr.take n s +:+ PyStr.drop n s = s.
Proof. revert s. induction n as [|n IH]; intros [|c s]; simpl; try reflexivity. now rewrite IH. Qed.

Lemma ends_endswith (m t : string) : PyStr.endswith t m = true -> ends m t.
Proof.
  unfold PyStr.endswith. intros H. apply andb_true_iff in H as [_ H].
  apply String.eqb_eq in H. set (n := (String.length t - String.length m)%nat) in H.
  exists (PyStr.take n t). rewrite <- H. symmetry. apply take_drop.
Qed.

Lemma ends_cons (c : ascii) (m t : string) : ends m t -> ends m (String c t).
Proof. intros [pre ->]. now exists (String c pre). Qed.

Lemma ends_app (s m t : string) : ends m t -> ends m (s +:+ t).
Proof. intros [pre ->]. exists (s +:+ pre). now rewrite app_assoc. Qed.

End Shape.

(** The end of a text made of literal characters and symbolic segments. *)
Ltac ends_tac :=
  lazymatch goal with
  | |- ends _ (String _ _) => first [ apply ends_endswith; reflexivity | apply ends_cons; ends_tac ]
  | |- ends _ (_ +:+ _) => apply ends_app; ends_tac
  end.

(** Two paths differ, possibly only in length once every segment is
    measured. *)
Ltac str_neq_len :=
  first [ str_neq
        | let H := fresh "H" in
          intros H; apply (f_equal String.length) in H; simpl in H;
          repeat (rewrite length_app in H; simpl in H); lia ].

Ltac under_tac :=
  first [ apply Exists_cons_hd; solve [starts_tac] | apply Exists_cons_tl; under_tac ].

Section FileMapShape.

Variable self : CodeGenerator.

(** X6. Every path of the file map ends in [.ets] and lies under one of the
    top-level directories of the two layouts. *)
Theorem paths_shape :
  map_Forall (fun path _ => ends ".ets" path /\ Exists (fun d => starts d path) top_directories)
             (generate_all self).
Proof.
  unfold generate_all, top_directories.
  destruct (String.eqb (architecture (config self)) "clean");
    [destruct (include_cache (config self)) |];
    repeat lazymatch goal with
           | |- map_Forall _ (<[_:=_]> _) => apply map_Forall_insert_2
           | |- map_Forall _ ∅ => apply map_Forall_empty
           end;
    (split; [simpl; ends_tac | simpl; under_tac]).
Qed.

(** Without a collision between the GetAll and the GetById use case, the
    clean file map has 13 files, or 15 with the cache. *)
Lemma clean_size :
  self.(config).(architecture) = "clean" ->
  String.length self.(entity_name_plural) <> (String.length self.(config).(entity_name) + 4)%nat ->
  size (generate_all self) = if self.(config).(include_cache) then 15%nat else 13%nat.
Proof.
  intros Harch Hlen. unfold generate_all. rewrite Harch. simpl String.eqb. cbv iota.
  destruct (include_cache (config self));
    rewrite !map_size_insert_None, map_size_empty;
    lazymatch goal with
    | |- _ !! _ = None => rewrite ?lookup_insert_ne by str_neq_len; apply lookup_empty
    | |- _ => reflexivity
    end.
Qed.

(** Under [clean] the entity and the page are stored at their paths. *)
Lemma clean_entity_and_page_stored :
  self.(config).(architecture) = "clean" ->
  generate_all self !! ("domain/entities/" +:+ self.(config).(entity_name) +:+ ".ets")
  = Some (_generate_entity self)
  /\ generate_all self
       !! ("presentation/views/pages/" +:+ self.(config).(entity_name) +:+ "Page.ets")
     = Some (_generate_page self).
Proof.
  intros Harch. unfold generate_all. rewrite Harch. simpl String.eqb. cbv iota.
  destruct (include_cache (config self)); (split; [| apply lookup_insert_eq]);
    rewrite !lookup_insert_ne by str_neq; apply lookup_insert_eq.
Qed.

End FileMapShape.

Lemma paths_shape_witness :
  ends ".ets" "views/pages/UserPage.ets"
  /\ Exists (fun d => starts d "views/pages/UserPage.ets") top_directories.
Proof.
  apply (paths_shape (__init__ (user_config "mvvm" false)) "views/pages/UserPage.ets"
           (_generate_simple_page (__init__ (user_config "mvvm" false)))).
  vm_compute. reflexivity.
Defined.

Section FileMapModes.

(** X7. The number of files depends on the mode and the cache flag only: 4
    outside [clean], 13 under [clean], 15 with the cache.  No two files
    of a configuration share a path. *)
Theorem file_count (cfg : GeneratorConfig) :
  size (generate_all (__init__ cfg))
  = if String.eqb cfg.(architecture) "clean"
    then (if cfg.(include_cache) then 15%nat else 13%nat)
    else 4%nat.
Proof.
  destruct (String.eqb_spec (architecture cfg) "clean") as [Harch | Harch].
  - apply (clean_size (__init__ cfg) Harch). simpl.
    pose proof (pluralize_length (PyStr.lower (entity_name cfg))) as Hlen.
    rewrite lower_length in Hlen. lia.
  - now apply mvvm_size.
Qed.

(** X8. Outside [clean] the cache flag changes nothing in the file map. *)
Theorem mvvm_ignores_cache (cfg : GeneratorConfig) (b : bool) :
  cfg.(architecture) <> "clean" ->
  generate_all (__init__ (with_cache b cfg)) = generate_all (__init__ cfg).
Proof.
  intros Harch. apply String.eqb_neq in Harch. unfold generate_all.
  simpl architecture. rewrite Harch. reflexivity.
Qed.

Lemma mvvm_ignores_cache_witness :
  generate_all (__init__ (with_cache true (user_config "mvvm" false)))
  = generate_all (__init__ (user_config "mvvm" false)).
Proof. apply (mvvm_ignores_cache (user_config "mvvm" false) true). discriminate. Defined.

(** X9. The two modes share the entity and the page: the model of the other
    mode is, byte for byte, the [clean] entity of the same schema, and
    its page the [clean] page. *)
Theorem modes_share_entity_and_page (cfg : GeneratorConfig) (a : string) :
  a <> "clean" ->
  let E := cfg.(entity_name) in
  let clean := generate_all (__init__ (with_architecture "clean" cfg)) in
  let other := generate_all (__init__ (with_architecture a cfg)) in
  (exists text,
      other !! ("data/models/" +:+ E +:+ ".ets") = Some text
      /\ clean !! ("domain/entities/" +:+ E +:+ ".ets") = Some text)
  /\ (exists text,
         other !! ("views/pages/" +:+ E +:+ "Page.ets") = Some text
         /\ clean !! ("presentation/views/pages/" +:+ E +:+ "Page.ets") = Some text).
Proof.
  intros Ha E clean other. subst E clean other.
  destruct (mvvm_banners (__init__ (with_architecture a cfg)) Ha)
    as ((Hmodel & _) & (Hpage & _) & _).
  destruct (clean_entity_and_page_stored (__init__ (with_architecture "clean" cfg)) eq_refl)
    as (Hentity & Hpage').
  split; eexists; split; [exact Hmodel | exact Hentity | exact Hpage | exact Hpage'].
Qed.

Lemma modes_share_entity_and_page_witness :
  exists text,
    generate_all (__init__ (with_architecture "mvvm" blog_post_config))
      !! "data/models/BlogPost.ets" = Some text
    /\ generate_all (__init__ (with_architecture "clean" blog_post_config))
         !! "domain/entities/BlogPost.ets" = Some text.
Proof.
  apply (modes_share_entity_and_page blog_post_config "mvvm"). discriminate.
Defined.

End FileMapModes.

(** * The validation method as a whole *)

Section ValidationMethod.

Lemma concat_all_app (l1 l2 : list string) :
  concat_all (l1 ++ l2) = concat_all l1 +:+ concat_all l2.
Proof. induction l1 as [|s l1 IH]; simpl; [reflexivity |]. now rewrite IH, app_assoc. Qed.

Lemma fold_rules (p : PropertyConfig) (rules : list ValidationRule.t) (code : string) :
  fold_left (fun validation_code rule => validation_code +:+ rule_code p rule) rules code
  = code +:+ concat_all (map (rule_code p) rules).
Proof.
  revert code. induction rules as [|r rules IH]; intros code; simpl.
  - now rewrite app_nil_r.
  - now rewrite IH, app_assoc.
Qed.

Lemma fold_properties (ps : list PropertyConfig) (code : string) :
  fold_left
    (fun validation_code prop =>
       match prop.(validation) with
       | [] => validation_code
       | _ => fold_left (fun validation_code rule => validation_code +:+ rule_code prop rule)
                        prop.(validation) validation_code
       end)
    ps code
  = code +:+ concat_all (List.flat_map (fun p => map (rule_code p) p.(validation)) ps).
Proof.
  revert code. induction ps as [|p ps IH]; intros code; simpl.
  - now rewrite app_nil_r.
  - rewrite IH, concat_all_app, <- app_assoc. f_equal.
    destruct (validation p) as [|r rules] eqn:Hrules; [simpl; now rewrite app_nil_r |].
    apply fold_rules.
Qed.

Lemma validations_concat (self : CodeGenerator) :
  self.(config).(include_validation) = true ->
  _generate_validations self
  = "private validate(): void {
" +:+ concat_all (List.flat_map (fun p => map (rule_code p) p.(validation))
                                self.(config).(properties)) +:+ "  }".
Proof.
  intros Hflag. unfold _generate_validations. rewrite Hflag. simpl negb. cbv iota.
  rewrite fold_properties, app_assoc. reflexivity.
Qed.

(** X10. With validation on, the method is its opening line, then the checks
    of every rule, property by property in declaration order and rule by
    rule within a property, then the closing brace; a property without
    rules adds nothing.  So of two rules of one property, the check of
    the one declared first comes first in the text. *)
Theorem validations_in_declaration_order (self : CodeGenerator) :
  self.(config).(include_validation) = true ->
  _generate_validations self
  = "private validate(): void {
" +:+ concat_all (List.flat_map (fun p => map (rule_code p) p.(validation))
                                self.(config).(properties)) +:+ "  }"
  /\ (forall before p after rules1 r1 rules2 r2 rules3,
         self.(config).(properties) = before ++ p :: after ->
         p.(validation) = rules1 ++ r1 :: rules2 ++ r2 :: rules3 ->
         exists pre mid post,
           _generate_validations self
           = pre +:+ rule_code p r1 +:+ mid +:+ rule_code p r2 +:+ post).
Proof.
  intros Hflag. split; [now apply validations_concat |].
  intros before p after rules1 r1 rules2 r2 rules3 Hprops Hrules.
  rewrite (validations_concat self Hflag), Hprops.
  rewrite flat_map_app. simpl List.flat_map. rewrite Hrules.
  rewrite !map_app. simpl map. rewrite !map_app. simpl map.
  rewrite !concat_all_app. simpl concat_all. rewrite !concat_all_app. simpl concat_all.
  exists ("private validate(): void {
" +:+ concat_all (List.flat_map (fun q => map (rule_code q) q.(validation)) before)
      +:+ concat_all (map (rule_code p) rules1)),
    (concat_all (map (rule_code p) rules2)),
    (concat_all (map (rule_code p) rules3)
       +:+ concat_all (List.flat_map (fun q => map (rule_code q) q.(validation)) after)
       +:+ "  }").
  rewrite !app_assoc. reflexivity.
Qed.

Lemma validations_in_declaration_order_witness :
  exists pre mid post,
    _generate_validations
      (__init__ (title_config true))
    = pre +:+ rule_code title_property (ValidationRule.mk REQUIRED None None)
          +:+ mid +:+ rule_code title_property (ValidationRule.mk MIN_LENGTH (Some (PyInt 5)) None)
          +:+ post.
Proof.
  destruct (validations_in_declaration_order (__init__ (title_config true)) eq_refl)
    as [_ Horder].
  apply (Horder [plain "id" "number" false] title_property [] []
                (ValidationRule.mk REQUIRED None None) []
                (ValidationRule.mk MIN_LENGTH (Some (PyInt 5)) None) []); reflexivity.
Defined.

(** The entity fragments read the name, the type and the optional flag
    of a property, never its rules. *)
Lemma entity_fragments_ignore_rules (self : CodeGenerator)
      (f : PropertyConfig -> list ValidationRule.t) :
  let self' := map_properties (fun p => with_validation (f p) p) self in
  _generate_properties self' = _generate_properties self
  /\ _generate_constructor_params self' = _generate_constructor_params self
  /\ _generate_copy_method self' = _generate_copy_method self
  /\ _generate_to_json_method self' = _generate_to_json_method self
  /\ _generate_from_json_method self' = _generate_from_json_method self.
Proof.
  unfold _generate_properties, _generate_constructor_params, _generate_copy_method,
    _generate_to_json_method, _generate_from_json_method. simpl.
  rewrite !map_map. repeat split; reflexivity.
Qed.

(** X11. With validation off, the rules of the properties have no effect on
    the entity: the text is the same whatever rules they carry, the
    constructor body is empty and the copy method follows it directly,
    with no validation method in between. *)
Theorem entity_without_validation (self : CodeGenerator)
        (f : PropertyConfig -> list ValidationRule.t) :
  self.(config).(include_validation) = false ->
  _generate_entity (map_properties (fun p => with_validation (f p) p) self)
  = _generate_entity self
  /\ occurs ("
  ) {
    
  }
  
" +:+ _indent_code (_generate_copy_method self) 1 +:+ "
") (_generate_entity self).
Proof.
  intros Hflag. split.
  - destruct (entity_fragments_ignore_rules self f) as (H1 & H2 & H3 & H4 & H5).
    unfold _generate_entity. simpl include_validation. rewrite Hflag.
    cbv zeta in H1, H2, H3, H4, H5. rewrite H1, H2, H3, H4, H5. reflexivity.
  - unfold _generate_entity. rewrite Hflag.
    set (copy := _indent_code (_generate_copy_method self) 1).
    set (json := _indent_code (_generate_to_json_method self) 1).
    set (from := _indent_code (_generate_from_json_method self) 1).
    set (props := _generate_properties self).
    set (params := _generate_constructor_params self).
    str_norm. occurs_tac.
Qed.

Lemma entity_without_validation_witness :
  _generate_entity
    (map_properties (fun p => with_validation [] p) (__init__ (title_config false)))
  = _generate_entity (__init__ (title_config false)).
Proof.
  apply (entity_without_validation (__init__ (title_config false)) (fun _ => [])).
  reflexivity.
Defined.

End ValidationMethod.

(** * The property parser *)

Section PropertyParser.

Lemma parse_property_some (s : string) (p : PropertyConfig) :
  CLI.parse_property s = Some p ->
  In p.(type) CLI.valid_types /\ p.(validation) = [].
Proof.
  unfold CLI.parse_property.
  destruct (negb (PyStr.has_char ":" (PyStr.strip s))); [discriminate |].
  destruct (PyStr.split_once ":" (PyStr.strip s)) as [n ty].
  destruct (PyStr.endswith (PyStr.strip ty) "?");
    match goal with
    | |- context [existsb ?f ?l] => destruct (existsb f l) eqn:Hvalid
    end; simpl; try discriminate;
    intros H; injection H as <-; simpl; (split; [| reflexivity]);
    apply existsb_exists in Hvalid as (t & Hin & Ht);
    apply String.eqb_eq in Ht; now subst.
Qed.

Lemma parse_loop_acc (l : list string) (acc : list PropertyConfig) :
  fold_left
    (fun properties prop =>
       match CLI.parse_property prop with
       | Some p => properties ++ [p]
       | None => properties
       end) l acc
  = acc ++ fold_left
             (fun properties prop =>
                match CLI.parse_property prop with
                | Some p => properties ++ [p]
                | None => properties
                end) l [].
Proof.
  revert acc. induction l as [|s l IH]; intros acc; simpl; [now rewrite List.app_nil_r |].
  rewrite IH. rewrite (IH (match CLI.parse_property s with Some p => [p] | None => [] end)).
  destruct (CLI.parse_property s); simpl; [now rewrite <- List.app_assoc | reflexivity].
Qed.

Lemma parse_loop_Forall (P : PropertyConfig -> Prop) :
  (forall s p, CLI.parse_property s = Some p -> P p) ->
  forall l acc, Forall P acc ->
    Forall P (fold_left
                (fun properties prop =>
                   match CLI.parse_property prop with
                   | Some p => properties ++ [p]
                   | None => properties
                   end) l acc).
Proof.
  intros HP. induction l as [|s l IH]; intros acc Hacc; simpl; [assumption |].
  apply IH. destruct (CLI.parse_property s) as [p|] eqn:Hp; [| assumption].
  apply Forall_app. split; [assumption |]. constructor; [eauto | constructor].
Qed.

(** Splitting at a separator splits the list of pieces. *)
Lemma split_at_sep (sep : ascii) (a b : string) :
  PyStr.split sep (a +:+ String sep b) = PyStr.split sep a ++ PyStr.split sep b.
Proof.
  induction a as [|c a IH]; simpl.
  - now rewrite Ascii.eqb_refl.
  - destruct (Ascii.eqb c sep); [now rewrite IH |]. rewrite IH.
    destruct (PyStr.split sep a) as [|h t] eqn:Hsplit; [now apply split_nonempty in Hsplit |].
    reflexivity.
Qed.

Lemma parse_properties_typed (props_string : string) :
  Forall (fun p => In p.(type) CLI.valid_types /\ p.(validation) = [])
         (CLI._parse_properties props_string).
Proof.
  unfold CLI._parse_properties. apply parse_loop_Forall; [| constructor].
  apply parse_property_some.
Qed.

(** X12. Every property the parser returns has one of the four types and no
    validation rule, whatever the text; so has every property of the
    configuration built from the command line. *)
Theorem parsed_properties_are_well_typed (args : CLI.Namespace) :
  Forall (fun p => In p.(type) CLI.valid_types /\ p.(validation) = [])
         (CLI._parse_properties args.(CLI.props))
  /\ Forall (fun p => In p.(type) CLI.valid_types /\ p.(validation) = [])
            (CLI._parse_config args).(properties).
Proof.
  split; [apply parse_properties_typed |].
  unfold CLI._parse_config. simpl properties.
  destruct (negb (existsb _ _)); [| apply parse_properties_typed].
  constructor; [split; [simpl; auto | reflexivity] | apply parse_properties_typed].
Qed.

(** X13. The entries are parsed one by one: the properties of two texts
    joined by a comma are those of the first followed by those of the
    second, so an entry that is skipped leaves the others as they are;
    the empty text has no property. *)
Theorem parse_properties_comma (a b : string) :
  CLI._parse_properties (a +:+ "," +:+ b) = CLI._parse_properties a ++ CLI._parse_properties b
  /\ CLI._parse_properties "" = [].
Proof.
  split; [| reflexivity]. unfold CLI._parse_properties.
  change (a +:+ "," +:+ b) with (a +:+ String "," b).
  rewrite split_at_sep, fold_left_app. apply parse_loop_acc.
Qed.

Lemma length_lstrip (s : string) : (String.length (PyStr.lstrip s) <= String.length s)%nat.
Proof.
  induction s as [|c s IH]; simpl; [lia |]. destruct (PyStr.is_space c); simpl; lia.
Qed.

Lemma length_rstrip (s : string) : (String.length (PyStr.rstrip s) <= String.length s)%nat.
Proof.
  induction s as [|c s IH]; simpl; [lia |].
  destruct (PyStr.rstrip s); [destruct (PyStr.is_space c) |]; simpl in *; lia.
Qed.

(** A text that [strip] leaves alone does not begin with white space. *)
Lemma stripped_head (c : ascii) (s : string) :
  PyStr.strip (String c s) = String c s -> PyStr.is_space c = false.
Proof.
  unfold PyStr.strip. simpl. destruct (PyStr.is_space c); [| reflexivity].
  intros H. apply (f_equal String.length) in H. simpl in H.
  pose proof (length_rstrip (PyStr.lstrip s)). pose proof (length_lstrip s). lia.
Qed.

Lemma rstrip_app (s t : string) (d : ascii) (t' : string) :
  PyStr.rstrip t = String d t' -> PyStr.rstrip (s +:+ t) = s +:+ String d t'.
Proof.
  intros Ht. induction s as [|c s IH]; simpl; [assumption |].
  rewrite IH. now destruct s.
Qed.

Lemma lstrip_stripped (n rest : string) :
  PyStr.strip n = n ->
  PyStr.lstrip (n +:+ String ":" rest) = n +:+ String ":" rest.
Proof.
  destruct n as [|c n]; [reflexivity |]. intros H. apply stripped_head in H.
  simpl. now rewrite H.
Qed.

Lemma split_once_app (sep : ascii) (n rest : string) :
  PyStr.has_char sep n = false ->
  PyStr.split_once sep (n +:+ String sep rest) = (n, rest).
Proof.
  induction n as [|c n IH]; simpl; [now rewrite Ascii.eqb_refl |]. intros H.
  apply orb_false_iff in H as [Hc Hn]. rewrite Ascii.eqb_sym, Hc, (IH Hn). reflexivity.
Qed.

Lemma rstrip_idem (s : string) : PyStr.rstrip (PyStr.rstrip s) = PyStr.rstrip s.
Proof.
  induction s as [|c s IH]; [reflexivity |]. simpl.
  destruct (PyStr.rstrip s) as [|d s'] eqn:Hs.
  - destruct (PyStr.is_space c) eqn:Hc; [reflexivity |]. simpl. now rewrite Hc.
  - change (PyStr.rstrip (String c (String d s')))
      with (match PyStr.rstrip (String d s') with
            | EmptyString => if PyStr.is_space c then EmptyString else String c EmptyString
            | r' => String c r'
            end).
    now rewrite IH.
Qed.

Lemma rstrip_head (c : ascii) (s : string) :
  PyStr.is_space c = false -> exists s', PyStr.rstrip (String c s) = String c s'.
Proof.
  intros Hc. simpl. destruct (PyStr.rstrip s) as [|d s']; [rewrite Hc |]; eauto.
Qed.

Lemma lstrip_head (s : string) :
  PyStr.lstrip s = "" \/ exists c s', PyStr.lstrip s = String c s' /\ PyStr.is_space c = false.
Proof.
  induction s as [|c s IH]; [now left |]. simpl.
  destruct (PyStr.is_space c) eqn:Hc; [assumption | right; eauto].
Qed.

(** [strip] leaves a stripped text alone. *)
Lemma strip_idem (s : string) : PyStr.strip (PyStr.strip s) = PyStr.strip s.
Proof.
  unfold PyStr.strip. destruct (lstrip_head s) as [-> | (c & s' & -> & Hc)]; [reflexivity |].
  destruct (rstrip_head c s' Hc) as [r Hr]. rewrite Hr.
  assert (Hl : PyStr.lstrip (String c r) = String c r) by (simpl; now rewrite Hc).
  rewrite Hl, <- Hr. apply rstrip_idem.
Qed.

(** X14. White space around an entry, around its name and around its type is
    ignored: the entry and its stripped form give the same result, and a
    parsed name has no white space at its ends. *)
Theorem parse_property_ignores_spaces (s : string) :
  CLI.parse_property (PyStr.strip s) = CLI.parse_property s
  /\ (forall p, CLI.parse_property s = Some p -> PyStr.strip p.(name) = p.(name)).
Proof.
  split.
  - unfold CLI.parse_property. rewrite strip_idem. reflexivity.
  - intros p. unfold CLI.parse_property.
    destruct (negb (PyStr.has_char ":" (PyStr.strip s))); [discriminate |].
    destruct (PyStr.split_once ":" (PyStr.strip s)) as [n ty].
    destruct (PyStr.endswith (PyStr.strip ty) "?");
      match goal with
      | |- context [existsb ?f ?l] => destruct (existsb f l)
      end; simpl; try discriminate;
      intros H; injection H as <-; simpl; apply strip_idem.
Qed.

Lemma parse_property_ignores_spaces_witness :
  PyStr.strip (name (plain "email" "string" true)) = name (plain "email" "string" true).
Proof.
  apply (proj2 (parse_property_ignores_spaces "  email : string ? ")). reflexivity.
Defined.

Lemma parse_property_accepts (n ty : string) (b : bool) :
  PyStr.strip n = n ->
  PyStr.has_char ":" n = false ->
  In ty CLI.valid_types ->
  CLI.parse_property (n +:+ ":" +:+ ty +:+ (if b then "?" else ""))
  = Some {| name := n; type := ty; optional := b; validation := [] |}.
Proof.
  intros Hstrip Hcolon Hty.
  assert (Hwhole : forall rest d rest',
             PyStr.rstrip (String ":" rest) = String d rest' ->
             String d rest' = String ":" rest ->
             PyStr.strip (n +:+ String ":" rest) = n +:+ String ":" rest).
  { intros rest d rest' Hr Heq. unfold PyStr.strip.
    rewrite (lstrip_stripped n rest Hstrip), (rstrip_app n _ d rest' Hr), Heq. reflexivity. }
  unfold CLI.parse_property, CLI.valid_types in *. simpl In in Hty.
  destruct Hty as [<- | [<- | [<- | [<- | []]]]]; destruct b;
    match goal with
    | |- context [n +:+ ":" +:+ ?t +:+ ?q] =>
        let rest := eval vm_compute in (t +:+ q) in
        change (n +:+ ":" +:+ t +:+ q) with (n +:+ String ":" rest);
        rewrite (Hwhole rest ":"%char rest eq_refl eq_refl)
    end;
    rewrite has_char_app, orb_true_r; simpl negb; cbv iota;
    rewrite (split_once_app ":" _ _ Hcolon), Hstrip; reflexivity.
Qed.

(** X15. A text that is one entry [name:type] or [name:type?], with a name
    of ASCII characters that has no colon, no comma and no white space
    at its ends (the empty name included) and one of the four types,
    gives exactly that property, optional with the question mark. *)
Theorem parse_properties_accepts (n ty : string) (b : bool) :
  ascii_only n = true ->
  PyStr.strip n = n ->
  PyStr.has_char ":" n = false ->
  PyStr.has_char "," n = false ->
  In ty CLI.valid_types ->
  CLI._parse_properties (n +:+ ":" +:+ ty +:+ (if b then "?" else ""))
  = [ {| name := n; type := ty; optional := b; validation := [] |} ].
Proof.
  intros _ Hstrip Hcolon Hcomma Hty. unfold CLI._parse_properties.
  rewrite split_no_sep.
  - cbv [fold_left]. now rewrite parse_property_accepts.
  - rewrite has_char_app, Hcomma. unfold CLI.valid_types in Hty. simpl In in Hty.
    destruct Hty as [<- | [<- | [<- | [<- | []]]]]; destruct b; reflexivity.
Qed.

Lemma parse_properties_accepts_witness :
  CLI._parse_properties ("email" +:+ ":" +:+ "Date" +:+ "?")
  = [ {| name := "email"; type := "Date"; optional := true; validation := [] |} ].
Proof.
  apply (parse_properties_accepts "email" "Date" true); [reflexivity .. |].
  simpl. auto.
Defined.

(** X16. From the command line the properties never carry a rule, so with
    [--validation] the generated method has no check at all. *)
Theorem cli_validation_method_is_empty (args : CLI.Namespace) :
  args.(CLI.validation) = true ->
  _generate_validations (__init__ (CLI._parse_config args))
  = "private validate(): void {
  }".
Proof.
  intros Hflag. rewrite validations_concat by exact Hflag.
  assert (Hnone : forall ps : list PropertyConfig,
             Forall (fun p => In p.(type) CLI.valid_types /\ p.(validation) = []) ps ->
             List.flat_map (fun p => map (rule_code p) p.(validation)) ps = []).
  { induction ps as [|p ps IH]; intros Hall; [reflexivity |].
    inversion Hall as [|? ? [_ Hp] Hps]; subst. simpl. rewrite Hp. simpl. auto. }
  unfold CLI._parse_config. simpl properties.
  destruct (negb (existsb _ _)).
  - rewrite Hnone; [reflexivity |]. constructor; [split; [simpl; auto | reflexivity] |].
    apply parse_properties_typed.
  - rewrite Hnone; [reflexivity |]. apply parse_properties_typed.
Qed.

Lemma cli_validation_method_is_empty_witness :
  _generate_validations
    (__init__ (CLI._parse_config
                 {| CLI.entity := "Item"; CLI.props := "name:string";
                    CLI.arch := "clean"; CLI.cache := false; CLI.validation := true |}))
  = "private validate(): void {
  }".
Proof.
  apply (cli_validation_method_is_empty
           {| CLI.entity := "Item"; CLI.props := "name:string";
              CLI.arch := "clean"; CLI.cache := false; CLI.validation := true |}).
  reflexivity.
Defined.

End PropertyParser.

(** * Arguments, display and mapping fragments *)

Section Fragments.

Variable self : CodeGenerator.

Lemma filter_not_id (ps : list PropertyConfig) :
  Forall (fun q => q.(name) <> "id") ps -> List.filter not_id ps = ps.
Proof.
  induction ps as [|p ps IH]; intros Hall; [reflexivity |].
  inversion Hall as [|? ? Hp Hps]; subst. simpl. unfold not_id at 1.
  apply String.eqb_neq in Hp. rewrite Hp. simpl. now rewrite IH.
Qed.

Lemma creation_names (ps : list PropertyConfig) :
  Forall (fun q => q.(name) <> "id") ps ->
  map (fun prop => if String.eqb prop.(name) "id" then "0" else prop.(name)) ps
  = map (fun prop => prop.(name)) ps.
Proof.
  induction ps as [|p ps IH]; intros Hall; [reflexivity |].
  inversion Hall as [|? ? Hp Hps]; subst. simpl.
  apply String.eqb_neq in Hp. rewrite Hp. now rewrite IH.
Qed.

(** X17. When [id] is the first property, the only one of that name, and not
    the only property, the entity the clean Create use case builds and
    the one the MVVM view model builds are the same expression: [0]
    followed by the create arguments. *)
Theorem create_arguments_agree (p0 : PropertyConfig) (rest : list PropertyConfig) :
  self.(config).(properties) = p0 :: rest ->
  p0.(name) = "id" ->
  Forall (fun q => q.(name) <> "id") rest ->
  rest <> [] ->
  _get_entity_creation self = "0, " +:+ _get_create_args self
  /\ occurs ("const entity = new " +:+ self.(config).(entity_name) +:+ "("
               +:+ _get_entity_creation self +:+ ");")
            (_generate_create_usecase self)
  /\ occurs ("const entity = new " +:+ self.(config).(entity_name) +:+ "(0, "
               +:+ _get_create_args self +:+ ");")
            (_generate_simple_viewmodel self).
Proof.
  intros Hprops Hname Hrest Hne. split; [| split].
  - unfold _get_entity_creation, _get_create_args. rewrite Hprops.
    assert (Hfilter : List.filter not_id (p0 :: rest) = rest).
    { simpl List.filter. unfold not_id at 1. rewrite Hname, String.eqb_refl.
      now apply filter_not_id. }
    rewrite Hfilter, map_cons, Hname, String.eqb_refl, (creation_names rest Hrest).
    rewrite join_cons; [reflexivity |]. now destruct rest.
  - unfold _generate_create_usecase.
    set (creation := _get_entity_creation self). set (params := _get_create_params self).
    str_norm. occurs_tac.
  - unfold _generate_simple_viewmodel.
    set (args := _get_create_args self). set (params := _get_create_params self).
    str_norm. occurs_tac.
Qed.

Lemma occurs_join (sep x : string) (l : list string) :
  In x l -> occurs x (PyStr.join sep l).
Proof.
  induction l as [|a l IH]; [contradiction |]. intros [-> | Hin].
  - destruct l as [|b l]; [exists "", ""; now rewrite app_nil_r |].
    rewrite join_cons by discriminate. now exists "", (sep +:+ PyStr.join sep (b :: l)).
  - destruct l as [|b l]; [contradiction |].
    rewrite join_cons by discriminate. apply occurs_app, occurs_app, IH, Hin.
Qed.

End Fragments.

Lemma create_arguments_agree_witness :
  _get_entity_creation (__init__ (user_config "mvvm" false))
  = "0, " +:+ _get_create_args (__init__ (user_config "mvvm" false)).
Proof.
  apply (create_arguments_agree (__init__ (user_config "mvvm" false))
           (plain "id" "number" false)
           [plain "name" "string" false; plain "email" "string" true]).
  - reflexivity.
  - reflexivity.
  - repeat constructor; discriminate.
  - discriminate.
Defined.

Section FragmentsAcross.

(** X18. The mapper does not read the optional flag: its two bodies are the
    same whatever the flags, and every [Date] property, optional or
    not, is converted in [toDTO] by a plain [.toISOString()] call. *)
Theorem mapper_ignores_optional (self : CodeGenerator) :
  (forall f : PropertyConfig -> bool,
      let self' := map_properties (fun p => with_optional (f p) p) self in
      _generate_to_domain_mapping self' = _generate_to_domain_mapping self
      /\ _generate_to_dto_mapping self' = _generate_to_dto_mapping self)
  /\ (forall p, In p self.(config).(properties) -> p.(type) = "Date" ->
        occurs ("      " +:+ p.(name) +:+ ": entity." +:+ p.(name) +:+ ".toISOString()")
               (_generate_to_dto_mapping self)).
Proof.
  split.
  - intros f. unfold _generate_to_domain_mapping, _generate_to_dto_mapping. simpl.
    rewrite !map_map. split; reflexivity.
  - intros p Hin Hdate. unfold _generate_to_dto_mapping. apply occurs_join.
    apply in_map_iff. exists p. split; [| assumption]. rewrite Hdate. reflexivity.
Qed.

Lemma mapper_ignores_optional_witness :
  occurs ("      " +:+ "seen" +:+ ": entity." +:+ "seen" +:+ ".toISOString()")
         (_generate_to_dto_mapping
            (__init__ {| entity_name := "Visit";
                         properties := [plain "id" "number" false; plain "seen" "Date" true];
                         include_cache := false; include_validation := false;
                         architecture := "clean" |})).
Proof.
  apply (proj2 (mapper_ignores_optional _) (plain "seen" "Date" true)).
  - simpl. right. left. reflexivity.
  - reflexivity.
Defined.

(** X19. The DTO declares a [Date] property as a string: its text is the one
    the same schema gives with every [Date] property declared [string]. *)
Theorem dto_dates_are_strings (self : CodeGenerator) :
  _generate_dto_properties (map_properties date_as_string self)
  = _generate_dto_properties self.
Proof.
  unfold _generate_dto_properties. simpl. rewrite map_map. f_equal.
  apply map_ext. intros p. unfold date_as_string.
  destruct (String.eqb (type p) "Date") eqn:Hdate; simpl; [reflexivity |].
  now rewrite Hdate.
Qed.

(** X20. The list item of the page shows the first string property that is
    not [id], or [name] when there is none, whether or not a property of
    that name exists.  A second line is shown for the next such property
    with a different name; without one the first line closes the
    column. *)
Theorem page_display (self : CodeGenerator) :
  let first := List.find displayable self.(config).(properties) in
  let first_name := match first with Some f => f.(name) | None => "" end in
  let second :=
    List.find (fun p => displayable p && negb (String.eqb p.(name) first_name))
              self.(config).(properties) in
  occurs ("        Text(entity." +:+ match first with Some f => f.(name) | None => "name" end
            +:+ ")
          .fontSize(16)")
         (_generate_page self)
  /\ (forall q, second = Some q ->
        q.(name) <> first_name /\ q.(type) = "string" /\ q.(name) <> "id"
        /\ occurs ("          .fontColor($r('app.color.text_primary'))
        Text(entity." +:+ q.(name) +:+ ")
          .fontSize(14)")
                  (_generate_page self))
  /\ (second = None ->
      occurs ("          .fontColor($r('app.color.text_primary'))
      }
")
             (_generate_page self)).
Proof.
  intros first first_name second. unfold _generate_page.
  change (List.find (fun p => String.eqb (type p) "string" && negb (String.eqb (name p) "id"))
                    (properties (config self))) with first.
  change (List.find _ (properties (config self))) with second.
  split; [| split].
  - destruct first as [f|]; destruct second as [q|]; str_norm; occurs_tac.
  - intros q Hq. pose proof (find_some _ _ Hq) as [_ Hpred].
    apply andb_true_iff in Hpred as [Hdisp Hother].
    apply andb_true_iff in Hdisp as [Hty Hid].
    apply String.eqb_eq in Hty. apply negb_true_iff, String.eqb_neq in Hid, Hother.
    repeat split; try assumption.
    rewrite Hq. destruct first as [f|]; str_norm; occurs_tac.
  - intros Hnone. rewrite Hnone. destruct first as [f|]; str_norm; occurs_tac.
Qed.

Lemma page_display_witness :
  occurs ("          .fontColor($r('app.color.text_primary'))
        Text(entity." +:+ "email" +:+ ")
          .fontSize(14)")
         (_generate_page (__init__ (user_config "clean" false)))
  /\ occurs ("          .fontColor($r('app.color.text_primary'))
      }
")
            (_generate_page (__init__ blog_post_config)).
Proof.
  destruct (page_display (__init__ (user_config "clean" false))) as (_ & Hsecond & _).
  destruct (page_display (__init__ blog_post_config)) as (_ & _ & Hnone).
  split.
  - apply (Hsecond (plain "email" "string" true)). reflexivity.
  - apply Hnone. reflexivity.
Defined.

End FragmentsAcross.

(** * The interactive session *)

Section Session.

Lemma parse_line_some (s : string) (p : PropertyConfig) :
  Interactive.parse_line s = Some p ->
  In p.(type) CLI.valid_types /\ p.(validation) = [].
Proof.
  unfold Interactive.parse_line.
  destruct (negb (PyStr.has_char ":" s)); [discriminate |].
  destruct (PyStr.split_once ":" s) as [n ty].
  destruct (PyStr.endswith (PyStr.strip ty) "?");
    match goal with
    | |- context [existsb ?f ?l] => destruct (existsb f l) eqn:Hvalid
    end; simpl; try discriminate;
    intros H; injection H as <-; simpl; (split; [| reflexivity]);
    apply existsb_exists in Hvalid as (t & Hin & Ht);
    apply String.eqb_eq in Ht; now subst.
Qed.

(** The loop only adds, at the end, properties with a valid type and no
    rule. *)
Lemma collect_adds (inputs : list string) :
  forall properties properties' rest,
    Interactive.collect inputs properties = Some (properties', rest) ->
    exists added,
      properties' = properties ++ added
      /\ Forall (fun p => In p.(type) CLI.valid_types /\ p.(validation) = []) added.
Proof.
  induction inputs as [|line inputs IH]; intros properties properties' rest; simpl;
    [discriminate |].
  destruct (String.eqb (PyStr.lower (PyStr.strip line)) "fim").
  - intros H. injection H as <- <-. exists []. split; [now rewrite List.app_nil_r | constructor].
  - destruct (negb (PyStr.truthy (PyStr.strip line))); [apply IH |].
    destruct (Interactive.parse_line (PyStr.strip line)) as [p|] eqn:Hp; [| apply IH].
    intros H. apply IH in H as (added & -> & Hadded).
    exists (p :: added). split; [now rewrite <- List.app_assoc |].
    constructor; [now apply (parse_line_some _ _ Hp) | assumption].
Qed.

(** X21. Whatever is typed, a session that reaches the generator hands it a
    schema whose first property is the synthesized [id], followed by at
    least one property, each with one of the four types and no rule; an
    architecture that is [clean] or [mvvm]; a name that is not empty;
    and a directory that is not empty. *)
Theorem interactive_config_invariants (inputs : list string) (cfg : GeneratorConfig)
        (output_dir : string) :
  Interactive._interactive_mode inputs = Interactive.Generated cfg output_dir ->
  (exists rest,
      cfg.(properties) = CLI.id_property :: rest
      /\ rest <> []
      /\ Forall (fun p => In p.(type) CLI.valid_types /\ p.(validation) = []) rest)
  /\ (cfg.(architecture) = "clean" \/ cfg.(architecture) = "mvvm")
  /\ cfg.(entity_name) <> ""
  /\ output_dir <> "".
Proof.
  unfold Interactive._interactive_mode.
  destruct inputs as [|l1 inputs]; [discriminate |].
  destruct (PyStr.strip l1) as [|c r]; [discriminate |].
  destruct inputs as [|l2 inputs]; [discriminate |].
  destruct (Interactive.collect inputs [CLI.id_property]) as [[props rest]|] eqn:Hcollect;
    [| discriminate].
  destruct (Nat.eqb_spec (List.length props) 1) as [| Hlen]; [discriminate |].
  destruct rest as [|l3 [|l4 [|l5 [|l6 rest]]]]; try discriminate.
  destruct (String.eqb (PyStr.lower (PyStr.strip l6)) "n"); [discriminate |].
  intros H. injection H as <- <-. simpl.
  apply collect_adds in Hcollect as (added & -> & Hadded).
  split; [| split; [| split]].
  - exists added. split; [reflexivity |]. split; [| assumption].
    intros ->. now apply Hlen.
  - destruct (String.eqb _ "1"); auto.
  - discriminate.
  - destruct (PyStr.strip l5); simpl; discriminate.
Qed.

Lemma interactive_config_invariants_witness :
  exists rest,
    [plain "id" "number" false; plain "name" "string" false; plain "price" "number" true]
    = CLI.id_property :: rest
    /\ rest <> []
    /\ Forall (fun p => In p.(type) CLI.valid_types /\ p.(validation) = []) rest.
Proof.
  apply (interactive_config_invariants product_session
           {| entity_name := "Product";
              properties := [plain "id" "number" false; plain "name" "string" false;
                             plain "price" "number" true];
              include_cache := true; include_validation := false;
              architecture := "clean" |}
           "./generated").
  vm_compute. reflexivity.
Defined.

End Session.

(** * Header comments and base paths, for every schema *)

Section EverySchema.

(** X22. Under [clean] every file of the map opens with the comment line that
    names its own path. *)
Theorem clean_files_name_their_path (cfg : GeneratorConfig) :
  cfg.(architecture) = "clean" ->
  forall path text,
    generate_all (__init__ cfg) !! path = Some text -> starts (banner path) text.
Proof. intros Harch path text. apply (clean_banners (__init__ cfg) Harch). Qed.

Lemma clean_files_name_their_path_witness :
  starts (banner "data/models/UserModel.ets") (_generate_model (__init__ (user_config "clean" false))).
Proof.
  apply (clean_files_name_their_path (user_config "clean" false) eq_refl
           "data/models/UserModel.ets").
  vm_compute. reflexivity.
Defined.

(** X23. Outside [clean], the repository and the view model open with their
    own path, while the model opens with the path of the [clean] entity
    and the page with the path of the [clean] page, whatever the
    schema. *)
Theorem mvvm_files_and_their_headers (cfg : GeneratorConfig) :
  cfg.(architecture) <> "clean" ->
  let E := cfg.(entity_name) in
  let files := generate_all (__init__ cfg) in
  (exists text, files !! ("data/repositories/" +:+ E +:+ "Repository.ets") = Some text
                /\ starts (banner ("data/repositories/" +:+ E +:+ "Repository.ets")) text)
  /\ (exists text, files !! ("viewmodels/" +:+ E +:+ "ViewModel.ets") = Some text
                   /\ starts (banner ("viewmodels/" +:+ E +:+ "ViewModel.ets")) text)
  /\ (exists text, files !! ("data/models/" +:+ E +:+ ".ets") = Some text
                   /\ starts (banner ("domain/entities/" +:+ E +:+ ".ets")) text
                   /\ ~ starts (banner ("data/models/" +:+ E +:+ ".ets")) text)
  /\ (exists text, files !! ("views/pages/" +:+ E +:+ "Page.ets") = Some text
                   /\ starts (banner ("presentation/views/pages/" +:+ E +:+ "Page.ets")) text
                   /\ ~ starts (banner ("views/pages/" +:+ E +:+ "Page.ets")) text).
Proof.
  intros Harch E files. subst E files.
  destruct (mvvm_banners (__init__ cfg) Harch) as (Hmodel & Hpage & Hrepo & Hvm).
  repeat split; eexists; first [exact Hrepo | exact Hvm | exact Hmodel | exact Hpage].
Qed.

Lemma mvvm_files_and_their_headers_witness :
  exists text,
    generate_all (__init__ (category_config "mvvm")) !! "data/repositories/CategoryRepository.ets"
    = Some text
    /\ starts (banner "data/repositories/CategoryRepository.ets") text.
Proof.
  apply (mvvm_files_and_their_headers (category_config "mvvm")). discriminate.
Defined.

(** X24. The base path of the remote data source and of the MVVM repository
    is a slash, the lower form and [s].  It is the plural exactly when
    the lower form does not end in [y], [s], [x] or [z]. *)
Theorem endpoint_and_plural (cfg : GeneratorConfig) :
  let self := __init__ cfg in
  occurs ("  private endpoint: string = '/" +:+ self.(entity_name_lower) +:+ "s';")
         (_generate_remote_datasource_impl self)
  /\ occurs ("  private endpoint: string = '/" +:+ self.(entity_name_lower) +:+ "s';")
            (_generate_simple_repository self)
  /\ (forall stem c,
         self.(entity_name_lower) = stem +:+ String c "" ->
         (self.(entity_name_lower) +:+ "s" = self.(entity_name_plural)
          <-> Ascii.eqb c "y" || Ascii.eqb c "s" || Ascii.eqb c "x" || Ascii.eqb c "z" = false)).
Proof.
  intros self. split; [apply endpoint_line |]. split; [apply endpoint_line |].
  intros stem c Hlower. subst self.
  change (entity_name_plural (__init__ cfg))
    with (_pluralize (entity_name_lower (__init__ cfg))).
  rewrite Hlower. rewrite <- pluralize_appends_s_iff. split; intros H; symmetry; exact H.
Qed.

Lemma endpoint_and_plural_witness :
  "category" +:+ "s" <> entity_name_plural (__init__ (category_config "clean")).
Proof.
  destruct (endpoint_and_plural (category_config "clean")) as (_ & _ & H).
  intros Heq. apply (H "categor" "y"%char eq_refl) in Heq. discriminate Heq.
Defined.

End EverySchema.

(** * The checks that [validate()] contains *)

Section ValidationChecks.

(** The method is its opening line, the checks of the properties before
    [p], the checks of the rules of [p] before [r], the check of [r],
    the remaining checks and the closing brace, with nothing in
    between. *)
Lemma validations_around (self : CodeGenerator) (before after : list PropertyConfig)
      (p : PropertyConfig) (rules1 rules2 : list ValidationRule.t) (r : ValidationRule.t) :
  self.(config).(include_validation) = true ->
  self.(config).(properties) = before ++ p :: after ->
  p.(validation) = rules1 ++ r :: rules2 ->
  _generate_validations self
  = "private validate(): void {
" +:+ checks before +:+ concat_all (map (rule_code p) rules1)
      +:+ rule_code p r
      +:+ concat_all (map (rule_code p) rules2) +:+ checks after +:+ "  }".
Proof.
  intros Hflag Hprops Hrules. rewrite (validations_concat self Hflag), Hprops.
  unfold checks. rewrite flat_map_app. simpl List.flat_map. rewrite Hrules.
  rewrite map_app. simpl map.
  rewrite !concat_all_app. simpl concat_all. rewrite ?concat_all_app.
  rewrite !app_assoc. reflexivity.
Qed.

End ValidationChecks.

(** C10. With validation on, [validate()] holds the check of every rule
    of every property, optional or not, one directly after the other
    between the opening line and the closing brace.  The check of a
    MIN_LENGTH, MAX_LENGTH, MIN or MAX rule is the comparison, the
    [throw] and the closing brace, and that of a PATTERN rule the
    regular expression, its test, the [throw] and the closing brace: no
    [undefined] or [null] guard is part of them.  No check depends on
    the optional flag, and only that of a REQUIRED rule depends on the
    type. *)
Theorem validation_ignores_optional :
  (forall (self : CodeGenerator) (before after : list PropertyConfig) (p : PropertyConfig)
          (rules1 rules2 : list ValidationRule.t) (r : ValidationRule.t),
      self.(config).(include_validation) = true ->
      self.(config).(properties) = before ++ p :: after ->
      p.(validation) = rules1 ++ r :: rules2 ->
      _generate_validations self
      = "private validate(): void {
" +:+ checks before +:+ concat_all (map (rule_code p) rules1)
          +:+ rule_code p r
          +:+ concat_all (map (rule_code p) rules2) +:+ checks after +:+ "  }")
  /\ (forall (p : PropertyConfig) (v : option PyValue) (msg : option string),
         rule_code p (ValidationRule.mk MIN_LENGTH v msg)
         = "    if (this." +:+ p.(name) +:+ ".length < " +:+ py_str v +:+ ") {
      throw new Error('"
             +:+ py_or msg (p.(name) +:+ " deve ter no mínimo " +:+ py_str v +:+ " caracteres")
             +:+ "');
    }
"
         /\ rule_code p (ValidationRule.mk MAX_LENGTH v msg)
            = "    if (this." +:+ p.(name) +:+ ".length > " +:+ py_str v +:+ ") {
      throw new Error('"
                +:+ py_or msg (p.(name) +:+ " deve ter no máximo " +:+ py_str v +:+ " caracteres")
                +:+ "');
    }
"
         /\ rule_code p (ValidationRule.mk MIN v msg)
            = "    if (this." +:+ p.(name) +:+ " < " +:+ py_str v +:+ ") {
      throw new Error('"
                +:+ py_or msg (p.(name) +:+ " deve ser maior ou igual a " +:+ py_str v)
                +:+ "');
    }
"
         /\ rule_code p (ValidationRule.mk MAX v msg)
            = "    if (this." +:+ p.(name) +:+ " > " +:+ py_str v +:+ ") {
      throw new Error('"
                +:+ py_or msg (p.(name) +:+ " deve ser menor ou igual a " +:+ py_str v)
                +:+ "');
    }
"
         /\ rule_code p (ValidationRule.mk PATTERN v msg)
            = "    const pattern = new RegExp('" +:+ py_str v +:+ "');
    if (!pattern.test(this." +:+ p.(name) +:+ ")) {
      throw new Error('" +:+ py_or msg (p.(name) +:+ " inválido") +:+ "');
    }
")
  /\ (forall (p : PropertyConfig) (r : ValidationRule.t) (b : bool),
         rule_code (with_optional b p) r = rule_code p r)
  /\ (forall (self : CodeGenerator) (f : PropertyConfig -> bool),
         _generate_validations (map_properties (fun p => with_optional (f p) p) self)
         = _generate_validations self)
  /\ (forall (p : PropertyConfig) (r : ValidationRule.t) (ty : string),
         r.(ValidationRule.type) <> REQUIRED ->
         rule_code (with_type ty p) r = rule_code p r)
  /\ rule_code (plain "age" "string" true) (ValidationRule.mk REQUIRED None None)
     <> rule_code (plain "age" "number" true) (ValidationRule.mk REQUIRED None None).
Proof.
  split; [exact validations_around |].
  split.
  { intros p v msg. unfold rule_code. simpl ValidationRule.type. cbv iota.
    simpl ValidationRule.value. simpl ValidationRule.message.
    repeat split; str_norm; reflexivity. }
  split; [exact rule_code_optional |].
  split; [exact validations_optional |].
  split; [exact rule_code_type |].
  vm_compute; discriminate.
Qed.

Lemma validation_ignores_optional_witness :
  _generate_validations (__init__ (age_config true MIN (PyInt 0)))
  = "private validate(): void {
" +:+ checks [plain "id" "number" false] +:+ concat_all (map (rule_code (age_with MIN (PyInt 0))) [])
      +:+ rule_code (age_with MIN (PyInt 0)) (ValidationRule.mk MIN (Some (PyInt 0)) None)
      +:+ concat_all (map (rule_code (age_with MIN (PyInt 0))) []) +:+ checks [] +:+ "  }"
  /\ rule_code (with_type "Date" (age_with MIN (PyInt 0)))
               (ValidationRule.mk MIN (Some (PyInt 0)) None)
     = rule_code (age_with MIN (PyInt 0)) (ValidationRule.mk MIN (Some (PyInt 0)) None).
Proof.
  split.
  - apply (proj1 validation_ignores_optional
             (__init__ (age_config true MIN (PyInt 0)))
             [plain "id" "number" false] [] (age_with MIN (PyInt 0)) [] []
             (ValidationRule.mk MIN (Some (PyInt 0)) None)); reflexivity.
  - apply (proj1 (proj2 (proj2 (proj2 (proj2 validation_ignores_optional))))).
    discriminate.
Defined.

(** * The lower form, where it is derived and where it is used *)

Section LowerFormUses.

Variable self : CodeGenerator.

(** Both view models name their list field by the lower form. *)
Lemma viewmodel_list_field :
  Forall (fun line => occurs line (_generate_viewmodel self))
         (list_field_lines self ++ list_field_update_lines self)
  /\ Forall (fun line => occurs line (_generate_simple_viewmodel self))
            (list_field_lines self).
Proof.
  unfold list_field_lines, list_field_update_lines. simpl app. split.
  - unfold _generate_viewmodel. str_norm.
    repeat (apply List.Forall_cons || apply List.Forall_nil); occurs_tac.
  - unfold _generate_simple_viewmodel. str_norm.
    repeat (apply List.Forall_cons || apply List.Forall_nil); occurs_tac.
Qed.

(** The page reads that field of the view model. *)
Lemma page_list_field :
  Forall (fun line => occurs line (_generate_page self)) (page_list_lines self).
Proof.
  unfold page_list_lines, _generate_page.
  match goal with
  | |- context [List.find ?f ?l] => generalize (List.find f l); intros first
  end.
  match goal with
  | |- context [List.find ?f ?l] => generalize (List.find f l); intros second
  end.
  destruct second; str_norm;
    repeat (apply List.Forall_cons || apply List.Forall_nil); occurs_tac.
Qed.

End LowerFormUses.

(** C4 (amended). For an entity name of ASCII characters, the lower form
    is the name with every letter A..Z lower-cased ([str.lower]), of the
    same length; it equals the first-character-only form exactly when
    the rest of the name has no capital; the plural is derived from it.
    Whatever the lower form of a generator is, every path and text that
    refers to it uses that one value: the use-case files are emitted in
    the directory it names, each under a header naming that path, and
    the view model imports every use case from that directory; the cache
    key is built from it; the request base path of both remote-access
    texts, the list field of both view models and the references of the
    page to that field are the lower form followed by [s]. *)
Theorem lower_form_is_whole_name_lowercased :
  (forall cfg : GeneratorConfig,
      ascii_only cfg.(entity_name) = true ->
      let lower := (__init__ cfg).(entity_name_lower) in
      lower = PyStr.lower cfg.(entity_name)
      /\ String.length lower = String.length cfg.(entity_name)
      /\ (forall i, String.get i lower
                    = option_map PyStr.lower_ascii (String.get i cfg.(entity_name)))
      /\ (forall c r, cfg.(entity_name) = String c r ->
            (lower = lower_first_only cfg.(entity_name) <-> PyStr.lower r = r))
      /\ (__init__ cfg).(entity_name_plural) = _pluralize lower)
  /\ (forall self : CodeGenerator,
         let lower := self.(entity_name_lower) in
         (forall class_name, In class_name (usecase_names self) ->
            occurs ("import { " +:+ class_name +:+ " } from '../../domain/usecases/"
                      +:+ lower +:+ "/" +:+ class_name +:+ "';")
                   (_generate_viewmodel self)
            /\ (self.(config).(architecture) = "clean" ->
                exists text,
                  generate_all self !! usecase_path self class_name = Some text
                  /\ starts (banner (usecase_path self class_name)) text))
         /\ occurs ("private readonly CACHE_KEY = '" +:+ lower +:+ "_cache';")
                   (_generate_local_datasource_impl self)
         /\ occurs ("  private endpoint: string = '/" +:+ lower +:+ "s';")
                   (_generate_remote_datasource_impl self)
         /\ occurs ("  private endpoint: string = '/" +:+ lower +:+ "s';")
                   (_generate_simple_repository self)
         /\ Forall (fun line => occurs line (_generate_viewmodel self))
                   (list_field_lines self ++ list_field_update_lines self)
         /\ Forall (fun line => occurs line (_generate_simple_viewmodel self))
                   (list_field_lines self)
         /\ Forall (fun line => occurs line (_generate_page self)) (page_list_lines self)).
Proof.
  split.
  - intros cfg _ lower. subst lower.
    split; [reflexivity |].
    split; [apply lower_length |].
    split; [intros i; apply lower_get |].
    split; [intros c r Hname; simpl; rewrite Hname; apply lower_first_only_iff |].
    reflexivity.
  - intros self lower. subst lower.
    split.
    { intros class_name Hin. split; [now apply viewmodel_imports |].
      intros Harch.
      assert (Hdom : usecase_path self class_name ∈ dom (generate_all self))
        by now apply clean_usecases_emitted.
      apply elem_of_dom in Hdom as [text Htext].
      exists text. split; [assumption |].
      exact (clean_banners self Harch _ _ Htext). }
    split; [apply cache_key_lower |].
    split; [apply endpoint_line |].
    split; [apply endpoint_line |].
    split; [apply viewmodel_list_field |].
    split; [apply viewmodel_list_field | apply page_list_field].
Qed.

Lemma lower_form_is_whole_name_lowercased_witness :
  (entity_name_lower (__init__ blog_post_config) = PyStr.lower (entity_name blog_post_config)
   /\ (entity_name_lower (__init__ blog_post_config)
       = lower_first_only (entity_name blog_post_config)
       <-> PyStr.lower "logPost" = "logPost"))
  /\ exists text,
      generate_all (__init__ blog_post_config)
        !! usecase_path (__init__ blog_post_config) "GetblogpostsUseCase" = Some text
      /\ starts (banner (usecase_path (__init__ blog_post_config) "GetblogpostsUseCase")) text.
Proof.
  split.
  - destruct (proj1 lower_form_is_whole_name_lowercased blog_post_config eq_refl)
      as (Hlower & _ & _ & Hfirst & _).
    split; [exact Hlower |]. apply (Hfirst "B"%char "logPost"). reflexivity.
  - destruct (proj2 lower_form_is_whole_name_lowercased (__init__ blog_post_config))
      as (H & _).
    destruct (H "GetblogpostsUseCase") as [_ Hfile].
    + simpl. left. reflexivity.
    + apply Hfile. reflexivity.
Defined.

(** * Equal configurations *)

Section EqualConfigurations.

Lemma append_inv_tail (s1 s2 t : string) : s1 +:+ t = s2 +:+ t -> s1 = s2.
Proof.
  revert s2. induction s1 as [|c s1 IH]; intros [|d s2] H; simpl in H.
  - reflexivity.
  - exfalso. apply (f_equal String.length) in H. simpl in H. rewrite length_app in H. lia.
  - exfalso. apply (f_equal String.length) in H. simpl in H. rewrite length_app in H. lia.
  - injection H as -> H. f_equal. now apply IH.
Qed.

Lemma cons_inv_tail (c : ascii) (s t : string) : String c s = String c t -> s = t.
Proof. now intros [= ->]. Qed.

(** *** No generator but [_generate_validations] reads the rules *)

Lemma filter_strip (ps : list PropertyConfig) :
  List.filter not_id (map (with_validation []) ps)
  = map (with_validation []) (List.filter not_id ps).
Proof.
  induction ps as [|p ps IH]; [reflexivity |].
  simpl. change (not_id (with_validation [] p)) with (not_id p).
  destruct (not_id p); simpl; now rewrite IH.
Qed.

Lemma find_strip (P : PropertyConfig -> bool) (ps : list PropertyConfig) :
  (forall p, P (with_validation [] p) = P p) ->
  List.find P (map (with_validation []) ps)
  = option_map (with_validation []) (List.find P ps).
Proof.
  intros HP. induction ps as [|p ps IH]; [reflexivity |].
  simpl. rewrite HP. destruct (P p); [reflexivity | exact IH].
Qed.

Lemma helpers_strip (self : CodeGenerator) :
  _generate_dto_properties (strip_rules self) = _generate_dto_properties self
  /\ _generate_to_domain_mapping (strip_rules self) = _generate_to_domain_mapping self
  /\ _generate_to_dto_mapping (strip_rules self) = _generate_to_dto_mapping self
  /\ _get_create_params (strip_rules self) = _get_create_params self
  /\ _get_create_args (strip_rules self) = _get_create_args self
  /\ _get_entity_creation (strip_rules self) = _get_entity_creation self.
Proof.
  unfold _generate_dto_properties, _generate_to_domain_mapping, _generate_to_dto_mapping,
    _get_create_params, _get_create_args, _get_entity_creation, strip_rules.
  simpl. rewrite !filter_strip, !map_map. repeat split; reflexivity.
Qed.

Lemma page_strip (self : CodeGenerator) :
  _generate_page (strip_rules self) = _generate_page self.
Proof.
  unfold _generate_page, strip_rules, map_properties.
  cbn [config properties entity_name entity_name_lower entity_name_plural].
  rewrite find_strip by (intros p; reflexivity).
  destruct (List.find _ (properties (config self))) as [first|];
    cbv zeta; cbn [option_map with_validation name];
    rewrite find_strip by (intros p; reflexivity);
    match goal with
    | |- context [option_map _ ?x] => destruct x
    end; reflexivity.
Qed.

Lemma other_texts_strip (self : CodeGenerator) :
  other_texts (strip_rules self) = other_texts self.
Proof.
  destruct (helpers_strip self) as (H1 & H2 & H3 & H4 & H5 & H6).
  unfold other_texts. rewrite page_strip.
  unfold _generate_create_usecase, _generate_model, _generate_viewmodel,
    _generate_simple_viewmodel.
  rewrite H1, H2, H3, H4, H5, H6. reflexivity.
Qed.

(** *** What equal configurations share *)

Lemma stripped_properties (ps qs : list PropertyConfig) :
  list_eqb PropertyConfig_eqb ps qs = true ->
  map (with_validation []) ps = map (with_validation []) qs.
Proof.
  revert qs. induction ps as [|p ps IH]; intros [|q qs] H; simpl in H;
    try discriminate; [reflexivity |].
  apply andb_true_iff in H as [Hp H]. simpl. f_equal; [| now apply IH].
  unfold PropertyConfig_eqb in Hp.
  apply andb_true_iff in Hp as [Hp _].
  apply andb_true_iff in Hp as [Hp Ho].
  apply andb_true_iff in Hp as [Hn Ht].
  apply String.eqb_eq in Hn, Ht. apply Bool.eqb_prop in Ho.
  unfold with_validation. now rewrite Hn, Ht, Ho.
Qed.

Lemma equal_fields (c1 c2 : GeneratorConfig) :
  GeneratorConfig_eqb c1 c2 = true ->
  c1.(entity_name) = c2.(entity_name)
  /\ list_eqb PropertyConfig_eqb c1.(properties) c2.(properties) = true
  /\ c1.(include_cache) = c2.(include_cache)
  /\ c1.(include_validation) = c2.(include_validation)
  /\ c1.(architecture) = c2.(architecture).
Proof.
  unfold GeneratorConfig_eqb. intros H.
  apply andb_true_iff in H as [H Ha].
  apply andb_true_iff in H as [H Hv].
  apply andb_true_iff in H as [H Hc].
  apply andb_true_iff in H as [He Hp].
  apply String.eqb_eq in He, Ha. apply Bool.eqb_prop in Hc, Hv. auto.
Qed.

Lemma equal_stripped (c1 c2 : GeneratorConfig) :
  GeneratorConfig_eqb c1 c2 = true ->
  strip_rules (__init__ c1) = strip_rules (__init__ c2).
Proof.
  intros H. destruct (equal_fields c1 c2 H) as (He & Hp & Hc & Hv & Ha).
  unfold strip_rules, map_properties, __init__. simpl.
  now rewrite He, (stripped_properties _ _ Hp), Hc, Hv, Ha.
Qed.

(** *** The file map of two generators that differ in their rules only *)

Lemma cons_eq_inv {A : Type} (x y : A) (l l' : list A) :
  x :: l = y :: l' -> x = y /\ l = l'.
Proof. intros H. injection H as -> ->. auto. Qed.

Lemma lookup_insert_same (m1 m2 : gmap string string) (k path v : string) :
  m1 !! path = m2 !! path -> <[k:=v]> m1 !! path = <[k:=v]> m2 !! path.
Proof.
  intros H. destruct (decide (k = path)) as [-> | Hne].
  - now rewrite !lookup_insert_eq.
  - now rewrite !lookup_insert_ne.
Qed.

Lemma entity_stored (self : CodeGenerator) :
  generate_all self !! entity_path self = Some (_generate_entity self).
Proof.
  unfold generate_all, entity_path, _generate_simple_model.
  destruct (String.eqb (architecture (config self)) "clean").
  - destruct (include_cache (config self));
      rewrite !lookup_insert_ne by str_neq; apply lookup_insert_eq.
  - rewrite !lookup_insert_ne by str_neq. apply lookup_insert_eq.
Qed.

Lemma stripped_fields (s1 s2 : CodeGenerator) :
  strip_rules s1 = strip_rules s2 ->
  s1.(config).(entity_name) = s2.(config).(entity_name)
  /\ s1.(entity_name_lower) = s2.(entity_name_lower)
  /\ s1.(entity_name_plural) = s2.(entity_name_plural)
  /\ s1.(config).(include_cache) = s2.(config).(include_cache)
  /\ s1.(config).(include_validation) = s2.(config).(include_validation)
  /\ s1.(config).(architecture) = s2.(config).(architecture)
  /\ entity_path s1 = entity_path s2
  /\ other_texts s1 = other_texts s2.
Proof.
  intros H.
  assert (He := f_equal (fun s => s.(config).(entity_name)) H).
  assert (Hl := f_equal entity_name_lower H).
  assert (Hp := f_equal entity_name_plural H).
  assert (Hc := f_equal (fun s => s.(config).(include_cache)) H).
  assert (Hv := f_equal (fun s => s.(config).(include_validation)) H).
  assert (Ha := f_equal (fun s => s.(config).(architecture)) H).
  simpl in He, Hl, Hp, Hc, Hv, Ha.
  repeat split; try assumption.
  - unfold entity_path. now rewrite He, Ha.
  - now rewrite <- (other_texts_strip s1), <- (other_texts_strip s2), H.
Qed.

Lemma lookup_agrees (s1 s2 : CodeGenerator) (path : string) :
  strip_rules s1 = strip_rules s2 ->
  path <> entity_path s1 \/ _generate_entity s1 = _generate_entity s2 ->
  generate_all s1 !! path = generate_all s2 !! path.
Proof.
  intros H Hpath.
  destruct (stripped_fields s1 s2 H) as (He & Hl & Hp & Hc & _ & Ha & _ & Ht).
  clear H. unfold entity_path in Hpath. rewrite He, Ha in Hpath.
  unfold generate_all, _generate_simple_model, _generate_simple_page.
  rewrite He, Hl, Hp, Hc, Ha. clear He Hl Hp Hc Ha.
  unfold other_texts in Ht.
  repeat match type of Ht with
         | _ :: _ = _ :: _ =>
             let T := fresh "T" in
             apply cons_eq_inv in Ht as [T Ht]; rewrite T; clear T
         end.
  assert (Hin : forall k,
             path <> k \/ _generate_entity s1 = _generate_entity s2 ->
             (<[k := _generate_entity s1]> ∅ : gmap string string) !! path
             = (<[k := _generate_entity s2]> ∅ : gmap string string) !! path).
  { intros k [Hne | ->]; [| reflexivity]. now rewrite !lookup_insert_ne. }
  destruct (String.eqb (architecture (config s2)) "clean").
  - destruct (include_cache (config s2));
      repeat apply lookup_insert_same; now apply Hin.
  - repeat apply lookup_insert_same. now apply Hin.
Qed.

(** *** The entity texts differ only by the validation method *)

Lemma entity_cancel (s1 s2 : CodeGenerator) :
  strip_rules s1 = strip_rules s2 ->
  (_generate_entity s1 = _generate_entity s2
   <-> _generate_validations s1 = _generate_validations s2).
Proof.
  intros H.
  destruct (stripped_fields s1 s2 H) as (He & _ & _ & _ & Hv & _ & _ & _).
  assert (Hfrag : forall s,
             _generate_properties (strip_rules s) = _generate_properties s
             /\ _generate_constructor_params (strip_rules s) = _generate_constructor_params s
             /\ _generate_copy_method (strip_rules s) = _generate_copy_method s
             /\ _generate_to_json_method (strip_rules s) = _generate_to_json_method s
             /\ _generate_from_json_method (strip_rules s) = _generate_from_json_method s).
  { intros s. exact (entity_fragments_ignore_rules s (fun _ => [])). }
  destruct (Hfrag s1) as (A1 & A2 & A3 & A4 & A5).
  destruct (Hfrag s2) as (B1 & B2 & B3 & B4 & B5).
  rewrite H in A1, A2, A3, A4, A5.
  rewrite B1 in A1. rewrite B2 in A2. rewrite B3 in A3. rewrite B4 in A4. rewrite B5 in A5.
  unfold _generate_entity. rewrite <- A1, <- A2, <- A3, <- A4, <- A5, He, Hv.
  destruct (include_validation (config s2)) eqn:Hflag.
  - set (copy := _indent_code (_generate_copy_method s2) 1).
    set (json := _indent_code (_generate_to_json_method s2) 1).
    set (from := _indent_code (_generate_from_json_method s2) 1).
    set (props := _generate_properties s2).
    set (params := _generate_constructor_params s2).
    set (V1 := _generate_validations s1). set (V2 := _generate_validations s2).
    split.
    + intros Heq. simpl in Heq. repeat (rewrite app_assoc in Heq; simpl in Heq).
      repeat first [ apply cons_inv_tail in Heq | apply app_inv_head in Heq ].
      exact (append_inv_tail _ _ _ Heq).
    + intros ->. reflexivity.
  - split; [| reflexivity]. intros _.
    unfold _generate_validations. now rewrite Hv, Hflag.
Qed.

(** *** Rules that are written the same way give the same checks *)

Lemma equal_rule_code (p q : PropertyConfig) (r r' : ValidationRule.t) :
  p.(name) = q.(name) -> p.(type) = q.(type) ->
  ValidationRule_eqb r r' = true ->
  negb (renders_value r.(ValidationRule.type))
  || String.eqb (py_str r.(ValidationRule.value)) (py_str r'.(ValidationRule.value)) = true ->
  rule_code p r = rule_code q r'.
Proof.
  intros Hn Ht Hr Hs. unfold ValidationRule_eqb in Hr.
  apply andb_true_iff in Hr as [Hr Hm].
  apply andb_true_iff in Hr as [Hk _].
  assert (Hkind : ValidationRule.type r = ValidationRule.type r')
    by (destruct (ValidationRule.type r), (ValidationRule.type r'); (discriminate || reflexivity)).
  assert (Hmsg : ValidationRule.message r = ValidationRule.message r').
  { destruct (ValidationRule.message r), (ValidationRule.message r');
      simpl in Hm; try discriminate; [| reflexivity].
    apply String.eqb_eq in Hm. now subst. }
  unfold rule_code. rewrite <- Hkind, <- Hmsg, <- Hn, <- Ht.
  destruct (ValidationRule.type r); simpl in Hs; try reflexivity;
    apply String.eqb_eq in Hs; now rewrite Hs.
Qed.

Lemma equal_checks (ps qs : list PropertyConfig) :
  list_eqb PropertyConfig_eqb ps qs = true ->
  list_eqb
    (fun p q =>
       list_eqb (fun r r' => negb (renders_value r.(ValidationRule.type))
                             || String.eqb (py_str r.(ValidationRule.value))
                                           (py_str r'.(ValidationRule.value)))
                p.(validation) q.(validation)) ps qs = true ->
  checks ps = checks qs.
Proof.
  unfold checks.
  revert qs. induction ps as [|p ps IH]; intros [|q qs] He Hs; simpl in He, Hs;
    try discriminate; [reflexivity |].
  apply andb_true_iff in He as [Hp He]. apply andb_true_iff in Hs as [Hr Hs].
  simpl. rewrite !concat_all_app. f_equal; [| now apply IH].
  unfold PropertyConfig_eqb in Hp.
  apply andb_true_iff in Hp as [Hp Hrules].
  apply andb_true_iff in Hp as [Hp _].
  apply andb_true_iff in Hp as [Hn Ht].
  apply String.eqb_eq in Hn, Ht.
  f_equal.
  revert Hrules Hr. generalize (validation p), (validation q).
  induction l as [|r rules IHr]; intros [|r' rules'] Hrules Hr; simpl in Hrules, Hr;
    try discriminate; [reflexivity |].
  apply andb_true_iff in Hrules as [Hrule Hrules]. apply andb_true_iff in Hr as [Hsame Hr].
  simpl. f_equal; [now apply equal_rule_code | now apply IHr].
Qed.

Lemma equal_validations (c1 c2 : GeneratorConfig) :
  GeneratorConfig_eqb c1 c2 = true ->
  same_rendering c1 c2 = true ->
  _generate_validations (__init__ c1) = _generate_validations (__init__ c2).
Proof.
  intros He Hs. destruct (equal_fields c1 c2 He) as (_ & Hp & _ & Hv & _).
  destruct (include_validation c1) eqn:Hflag.
  - rewrite !validations_concat by (simpl; congruence).
    simpl. fold (checks (properties c1)). fold (checks (properties c2)).
    now rewrite (equal_checks _ _ Hp Hs).
  - unfold _generate_validations. simpl. now rewrite <- Hv, Hflag.
Qed.

End EqualConfigurations.

(** C1 (as stated, refuted). Two configurations that are equal, one
    with the bound [0] and one with the bound [False], give different
    entity texts: the check of the first compares with [0], that of the
    second with [False]. *)
Lemma equal_configs_differ_in_rule_values :
  GeneratorConfig_eqb (age_config true MIN (PyInt 0)) (age_config true MIN (PyBool false)) = true
  /\ (exists text,
        generate_all (__init__ (age_config true MIN (PyInt 0))) !! "domain/entities/User.ets"
        = Some text
        /\ PyStr.contains text "if (this.age < 0) {" = true
        /\ PyStr.contains text "if (this.age < False) {" = false)
  /\ (exists text,
        generate_all (__init__ (age_config true MIN (PyBool false))) !! "domain/entities/User.ets"
        = Some text
        /\ PyStr.contains text "if (this.age < False) {" = true)
  /\ generate_all (__init__ (age_config true MIN (PyInt 0)))
     <> generate_all (__init__ (age_config true MIN (PyBool false)))
  /\ ~ (forall c1 c2 : GeneratorConfig,
          GeneratorConfig_eqb c1 c2 = true ->
          generate_all (__init__ c1) = generate_all (__init__ c2)).
Proof.
  assert (Hstored : forall v,
             generate_all (__init__ (age_config true MIN v)) !! "domain/entities/User.ets"
             = Some (_generate_entity (__init__ (age_config true MIN v)))).
  { intros v. exact (entity_stored (__init__ (age_config true MIN v))). }
  assert (Hne : generate_all (__init__ (age_config true MIN (PyInt 0)))
                <> generate_all (__init__ (age_config true MIN (PyBool false)))).
  { intros H. apply (f_equal (fun m => m !! "domain/entities/User.ets")) in H.
    rewrite !Hstored in H. vm_compute in H. discriminate H. }
  split; [reflexivity |].
  split.
  { eexists. split; [apply Hstored |]. split; vm_compute; reflexivity. }
  split.
  { eexists. split; [apply Hstored |]. vm_compute; reflexivity. }
  split; [exact Hne |].
  intros H. apply Hne, H. reflexivity.
Qed.

(** C1 (amended). Two equal configurations give the same paths and the
    same text at every path other than that of the entity; their file
    maps are identical exactly when their validation methods are, which
    is so when validation is off and when the rule values that the
    checks write are written the same way by [str]. *)
Theorem equal_configs_agree_up_to_rule_values (c1 c2 : GeneratorConfig) :
  GeneratorConfig_eqb c1 c2 = true ->
  let s1 := __init__ c1 in
  let s2 := __init__ c2 in
  dom (generate_all s1) = dom (generate_all s2)
  /\ entity_path s1 = entity_path s2
  /\ (forall path, path <> entity_path s1 ->
        generate_all s1 !! path = generate_all s2 !! path)
  /\ (generate_all s1 = generate_all s2
      <-> _generate_validations s1 = _generate_validations s2)
  /\ (c1.(include_validation) = false -> generate_all s1 = generate_all s2)
  /\ (same_rendering c1 c2 = true -> generate_all s1 = generate_all s2).
Proof.
  intros Heq s1 s2.
  assert (Hstrip : strip_rules s1 = strip_rules s2) by now apply equal_stripped.
  destruct (stripped_fields s1 s2 Hstrip) as (_ & _ & _ & _ & _ & _ & Hpath & _).
  assert (Hiff : generate_all s1 = generate_all s2
                 <-> _generate_validations s1 = _generate_validations s2).
  { rewrite <- (entity_cancel s1 s2 Hstrip). split.
    - intros H. apply (f_equal (fun m => m !! entity_path s1)) in H. cbv beta in H.
      rewrite Hpath in H at 2. rewrite !entity_stored in H. exact (inj Some _ _ H).
    - intros H. apply map_eq. intros path. apply lookup_agrees; auto. }
  split.
  { apply set_eq. intros path. rewrite !elem_of_dom.
    destruct (decide (path = entity_path s1)) as [-> | Hne].
    - rewrite Hpath at 2. rewrite !entity_stored. split; eauto.
    - rewrite (lookup_agrees s1 s2 path Hstrip); [reflexivity | now left]. }
  split; [exact Hpath |].
  split; [intros path Hne; apply lookup_agrees; auto |].
  split; [exact Hiff |].
  split.
  - intros Hflag. apply Hiff.
    destruct (equal_fields c1 c2 Heq) as (_ & _ & _ & Hv & _).
    unfold _generate_validations. subst s1 s2. simpl. now rewrite <- Hv, Hflag.
  - intros Hs. apply Hiff. now apply equal_validations.
Qed.

Lemma equal_configs_agree_up_to_rule_values_witness :
  (generate_all (__init__ (age_config true MIN (PyInt 0)))
     !! "data/models/UserModel.ets"
   = generate_all (__init__ (age_config true MIN (PyBool false)))
       !! "data/models/UserModel.ets")
  /\ generate_all (__init__ (age_config false MIN (PyInt 0)))
     = generate_all (__init__ (age_config false MIN (PyBool false)))
  /\ generate_all (__init__ (age_config true REQUIRED (PyInt 0)))
     = generate_all (__init__ (age_config true REQUIRED (PyBool false))).
Proof.
  split; [| split].
  - destruct (equal_configs_agree_up_to_rule_values
                (age_config true MIN (PyInt 0)) (age_config true MIN (PyBool false)) eq_refl)
      as (_ & _ & H & _).
    apply H. discriminate.
  - destruct (equal_configs_agree_up_to_rule_values
                (age_config false MIN (PyInt 0)) (age_config false MIN (PyBool false)) eq_refl)
      as (_ & _ & _ & _ & H & _).
    apply H. reflexivity.
  - destruct (equal_configs_agree_up_to_rule_values
                (age_config true REQUIRED (PyInt 0)) (age_config true REQUIRED (PyBool false))
                eq_refl)
      as (_ & _ & _ & _ & _ & H).
    apply H. reflexivity.
Defined.
